(** * EDA summary workbook generator: aggregation engine

    Shallow embedding of [scripts/generate_eda_excel.py].  Each [sheet_*]
    function of the script is embedded as a function from a [DataFrame]
    to the table of values the script writes into the worksheet; cell
    styling (fonts, fills, borders, widths) is left out.

    Numbers.  A Python / numpy [float] is embedded as an exact rational
    extended with not-a-number ([float := option Q], [None] is NaN):
    sums, means, products and quotients are the exact ones, without
    binary64 rounding.  The two places of the script that take a square
    root (the standard deviation of [describe] and the Pearson
    coefficient of [corr]) are embedded over the real numbers.

    pandas.  The pandas operations the script calls ([isnull], [sum],
    [mean], [groupby(...).agg], [describe], [corr], [sort_values]) are
    embedded by their documented behaviour.  [sort_values] is called by
    the script with its default [kind="quicksort"], which numpy documents
    as not stable: the argsort it runs is a parameter [argsort] of the
    embedded functions, with numpy's generic introsort ([Np.aquicksort])
    as the instance used for evaluation. *)

From Stdlib Require Import List ZArith QArith Qround Qabs Bool Arith Lia Lra.
From Stdlib Require Import String Ascii DecimalString.
From Stdlib Require Import Permutation Sorted.
From Stdlib Require Import Reals Qreals Lqa Psatz.
Import ListNotations.

Local Open Scope Z_scope.
Local Open Scope string_scope.

(* ================================================================== *)
(** * Python numbers and their formatting                             *)
(* ================================================================== *)

Module Py.

(** A Python float: an exact rational, or NaN. *)
Definition float := option Q.
Definition NaN : float := None.

Definition isnan (x : float) : bool :=
  match x with None => true | Some _ => false end.

(** [x * k] for a float [x] and a finite constant [k]. *)
Definition fscale (x : float) (k : Q) : float :=
  match x with Some q => Some (q * k)%Q | None => None end.

(** [x > k]; false on NaN, as every IEEE comparison. *)
Definition fgt (x : float) (k : Q) : bool :=
  match x with Some q => negb (Qle_bool q k) | None => false end.

(** [x < y] on floats; false as soon as one side is NaN. *)
Definition flt (x y : float) : bool :=
  match x, y with
  | Some a, Some b => negb (Qle_bool b a)
  | _, _ => false
  end.

(** [str(n)] for an [int]. *)
Definition str_int (z : Z) : string := NilZero.string_of_int (Z.to_int z).

(** Round half to even, the rounding of [round], of [numpy.round]
    and of the [f] format. *)
Definition rint (q : Q) : Z :=
  let f := Qfloor q in
  match Qcompare (q - inject_Z f) (1 # 2) with
  | Lt => f
  | Gt => f + 1
  | Eq => if Z.even f then f else f + 1
  end.

Definition pow10 (nd : nat) : Z := 10 ^ Z.of_nat nd.

(** [round(q, nd)] / [Series.round(nd)] on a finite value. *)
Definition round_q (nd : nat) (q : Q) : Q :=
  inject_Z (rint (q * inject_Z (pow10 nd))) / inject_Z (pow10 nd).

Definition round (nd : nat) (x : float) : float :=
  match x with Some q => Some (round_q nd q) | None => None end.

Fixpoint zeros (n : nat) : string :=
  match n with O => "" | S k => String "0" (zeros k) end.

Definition zfill (width : nat) (s : string) : string :=
  zeros (width - String.length s) ++ s.

(** The digits of [m / 10^nd] for a natural [m], with exactly [nd]
    decimals. *)
Definition fixed_digits (nd : nat) (m : Z) : string :=
  str_int (m / pow10 nd) ++
  match nd with
  | O => ""
  | S _ => "." ++ zfill nd (str_int (m mod pow10 nd))
  end.

(** [f"{x:.<nd>f}"]. *)
Definition format_f (nd : nat) (x : float) : string :=
  match x with
  | None => "nan"
  | Some q =>
      (if Qle_bool 0 q then "" else "-") ++
      fixed_digits nd (rint (Qabs q * inject_Z (pow10 nd)))
  end.

(** Drop the trailing zeros of a digit string. *)
Fixpoint rstrip0 (s : string) : string :=
  match s with
  | EmptyString => EmptyString
  | String c r =>
      match rstrip0 r with
      | EmptyString => if Ascii.eqb c "0" then EmptyString else String c EmptyString
      | r' => String c r'
      end
  end.

(** [str(x)] / [f"{x}"] for a float that carries at most [nd]
    decimals (the result of [round(nd)]): the shortest decimal that
    reads back as [x], with at least one digit after the point. *)
Definition repr_dec (nd : nat) (x : float) : string :=
  match x with
  | None => "nan"
  | Some q =>
      let m := rint (Qabs q * inject_Z (pow10 nd)) in
      (if Qle_bool 0 q then "" else "-") ++
      str_int (m / pow10 nd) ++ "." ++
      match rstrip0 (zfill nd (str_int (m mod pow10 nd))) with
      | EmptyString => "0"
      | d => d
      end
  end.

(** [int(x)] for a finite float: truncation towards zero. *)
Definition int (q : Q) : Z := Z.quot (Qnum q) (Zpos (Qden q)).

(** [x / y] for a float [x] and a float [y] known to be finite and
    non-zero at the call site. *)
Definition fdiv (x y : float) : float :=
  match x, y with
  | Some a, Some b => Some (a / b)%Q
  | _, _ => None
  end.

(** ** [list.sort]

    CPython's [list.sort] is a stable sort that only asks [x < y] of
    the keys.  All stable sorts return the same list when the keys
    are totally ordered, so the insertion sort below stands for it on
    keys without NaN.  With [reverse=True] CPython reverses the list,
    sorts it, and reverses the result, which keeps equal keys in
    their original order. *)
Section ListSort.
Context {A : Type} (lt : A -> A -> bool).

Fixpoint insert_sorted (x : A) (l : list A) : list A :=
  match l with
  | [] => [x]
  | y :: r => if lt y x then y :: insert_sorted x r else x :: y :: r
  end.

Definition stable_sort (l : list A) : list A :=
  fold_right insert_sorted [] l.

Definition list_sort (reverse : bool) (l : list A) : list A :=
  if reverse then rev (stable_sort (rev l)) else stable_sort l.

(** [a] may stand before [b] in an ascending order: [b] is not
    strictly below [a]. *)
Definition not_after (a b : A) : Prop := lt b a = false.
End ListSort.

End Py.

(* ================================================================== *)
(** * pandas: series, frames and reductions                           *)
(* ================================================================== *)

Module Pd.
Import Py.

(** A column with its dtype.  An [int64] or [bool] column holds no
    null; a [float64] column holds NaN for a null, an [object]
    column holds [None]. *)
Inductive Series :=
| Int64 (xs : list Z)
| Float64 (xs : list float)
| Bool (xs : list bool)
| Object (xs : list (option string)).

Definition len (s : Series) : nat :=
  match s with
  | Int64 xs => List.length xs
  | Float64 xs => List.length xs
  | Bool xs => List.length xs
  | Object xs => List.length xs
  end.

(** [str(s.dtype)]. *)
Definition dtype (s : Series) : string :=
  match s with
  | Int64 _ => "int64"
  | Float64 _ => "float64"
  | Bool _ => "bool"
  | Object _ => "object"
  end.

(** Membership in [select_dtypes(include=[np.number])]: [bool] and
    [object] are not numbers. *)
Definition is_number (s : Series) : bool :=
  match s with
  | Int64 _ | Float64 _ => true
  | Bool _ | Object _ => false
  end.

Definition isna {A} (x : option A) : bool :=
  match x with None => true | Some _ => false end.

(** [s.isnull()]. *)
Definition isnull (s : Series) : list bool :=
  match s with
  | Int64 xs => map (fun _ => false) xs
  | Float64 xs => map isna xs
  | Bool xs => map (fun _ => false) xs
  | Object xs => map isna xs
  end.

(** The values of a column as floats; a reduction over an [object]
    column raises. *)
Definition to_float (s : Series) : option (list float) :=
  match s with
  | Int64 xs => Some (map (fun z => Some (inject_Z z)) xs)
  | Float64 xs => Some xs
  | Bool xs => Some (map (fun b : bool => Some (if b then 1%Q else 0%Q)) xs)
  | Object _ => None
  end.

(** A frame: its number of rows (the length of its index) and its
    columns in order. *)
Record DataFrame := {
  nrows : nat;
  columns : list (string * Series)
}.

Definition column_names (df : DataFrame) : list string :=
  map fst (columns df).

(** [df[c]]; [None] stands for the [KeyError]. *)
Definition get (df : DataFrame) (c : string) : option Series :=
  option_map snd (find (fun p => String.eqb (fst p) c) (columns df)).

Fixpoint distinct (l : list string) : bool :=
  match l with
  | [] => true
  | x :: r => negb (existsb (String.eqb x) r) && distinct r
  end.

(** Every column has one cell per row, and no name is used twice. *)
Definition well_formed (df : DataFrame) : bool :=
  distinct (column_names df) &&
  forallb (fun p => Nat.eqb (len (snd p)) (nrows df)) (columns df).

(** ** Reductions, all with [skipna=True] *)

Definition dropna (xs : list float) : list Q :=
  flat_map (fun x => match x with Some q => [q] | None => [] end) xs.

Definition qsum (l : list Q) : Q := fold_right Qplus 0%Q l.

Definition count (xs : list float) : nat := List.length (dropna xs).

Definition sum (xs : list float) : Q := qsum (dropna xs).

(** The mean of no value is NaN. *)
Definition mean (xs : list float) : float :=
  match dropna xs with
  | [] => NaN
  | l => Some (qsum l / inject_Z (Z.of_nat (List.length l)))%Q
  end.

(** [s == k], cell by cell; a null equals nothing. *)
Definition eq_scalar (xs : list float) (k : Q) : list bool :=
  map (fun x => match x with Some q => Qeq_bool q k | None => false end) xs.

(** [xs[mask]]: the cells where the mask holds. *)
Fixpoint loc {A} (mask : list bool) (xs : list A) : list A :=
  match mask, xs with
  | m :: mask', x :: xs' => if m then x :: loc mask' xs' else loc mask' xs'
  | _, _ => []
  end.

(** The option monad threads the script's exceptions. *)
Definition bind {A B} (x : option A) (k : A -> option B) : option B :=
  match x with Some a => k a | None => None end.

Fixpoint traverse {A B} (f : A -> option B) (l : list A) : option (list B) :=
  match l with
  | [] => Some []
  | a :: r =>
      bind (f a) (fun b => bind (traverse f r) (fun bs => Some (b :: bs)))
  end.

End Pd.

Notation "x <- e ;; k" := (Pd.bind e (fun x => k))
  (at level 61, e at next level, right associativity).

(* ================================================================== *)
(** * Sheet 8: rule features, section 1 (per-rule statistics)         *)
(* ================================================================== *)

Module Rules.
Import Py Pd.

(** [rule_cols]: the columns named [rule_...], [rule_trigger_count]
    apart, in the frame's column order. *)
Definition rule_cols (df : DataFrame) : list string :=
  filter (fun c => prefix "rule_" c &&
                   negb (existsb (String.eqb c) ["rule_trigger_count"]))
         (column_names df).

(** One tuple of [rule_stats]. *)
Record rule_stat := {
  rule : string;
  total_triggered : Z;
  trigger_rate : float;
  f_triggered : float;
  f_not_triggered : float;
  lift : float
}.

(** The body of the loop over [rule_cols]. *)
Definition rule_stat_of (df : DataFrame) (c : string) : option rule_stat :=
  col <- get df c ;;
  xs <- to_float col ;;
  lab <- get df "label" ;;
  label <- to_float lab ;;
  let total_triggered := int (sum xs) in
  let trigger_rate := fscale (mean xs) 100 in
  let f_triggered :=
    if total_triggered >? 0
    then fscale (mean (loc (eq_scalar xs 1) label)) 100
    else Some 0%Q in
  let f_not_triggered := fscale (mean (loc (eq_scalar xs 0) label)) 100 in
  let lift :=
    if fgt f_not_triggered 0 then fdiv f_triggered f_not_triggered
    else NaN in
  Some {| rule := c; total_triggered := total_triggered;
          trigger_rate := trigger_rate; f_triggered := f_triggered;
          f_not_triggered := f_not_triggered; lift := lift |}.

(** [rule_stats] before the sort, in the order of [rule_cols]. *)
Definition rule_stats_unsorted (df : DataFrame) : option (list rule_stat) :=
  traverse (rule_stat_of df) (rule_cols df).

(** [rule_stats.sort(key=lambda x: x[3], reverse=True)]. *)
Definition rule_stats (df : DataFrame) : option (list rule_stat) :=
  stats <- rule_stats_unsorted df ;;
  Some (list_sort (fun a b => flt (f_triggered a) (f_triggered b)) true stats).

Inductive strength := VeryHigh | High | Medium | Low.

Definition strength_label (s : strength) : string :=
  match s with
  | VeryHigh => "🔴 Very High"
  | High => "🟠 High"
  | Medium => "🟡 Medium"
  | Low => "⚪ Low"
  end.

Definition signal_strength (ft : float) : strength :=
  if fgt ft 50 then VeryHigh
  else if fgt ft 30 then High
  else if fgt ft 15 then Medium
  else Low.

(** A row of the per-rule table: the list [vals] of the script. *)
Record rule_row := {
  rule_name : string;
  trigger_count : Z;
  trigger_rate_pct : string;
  fraud_rate_triggered : string;
  fraud_rate_not_triggered : string;
  lift_ratio : string;
  strength_cell : string
}.

Definition render (s : rule_stat) : rule_row :=
  {| rule_name := rule s;
     trigger_count := total_triggered s;
     trigger_rate_pct := format_f 2 (trigger_rate s) ++ "%";
     fraud_rate_triggered := format_f 1 (f_triggered s) ++ "%";
     fraud_rate_not_triggered := format_f 1 (f_not_triggered s) ++ "%";
     lift_ratio :=
       if negb (isnan (lift s)) then format_f 2 (lift s) ++ "x" else "N/A";
     strength_cell := strength_label (signal_strength (f_triggered s)) |}.

(** Section 1 of the sheet. *)
Definition sheet_rules (df : DataFrame) : option (list rule_row) :=
  stats <- rule_stats df ;;
  Some (map render stats).

End Rules.

(* ================================================================== *)
(** * numpy: [argsort(kind="quicksort")]                              *)
(* ================================================================== *)

(** The generic (scalar) introsort of numpy, [aquicksort_] in
    [npysort/quicksort.cpp], on an index array [tosort] over the keys
    [v]: median-of-three partitioning while a segment has more than
    [SMALL_QUICKSORT + 1] entries, insertion sort below that, heapsort
    once the depth budget of a stacked segment is used up.  It serves
    as the instance of [argsort] at which the embedded sheets are
    evaluated. *)
Module Np.

Definition SMALL_QUICKSORT : nat := 16.

Section Argsort.
Context {A : Type} (less : A -> A -> bool) (dflt : A) (v : list A).

(** [tosort[p] = x]. *)
Fixpoint store (p : nat) (x : nat) (t : list nat) : list nat :=
  match t, p with
  | [], _ => []
  | _ :: r, O => x :: r
  | y :: r, S p' => y :: store p' x r
  end.

Definition at_ (t : list nat) (p : nat) : nat := nth p t O.

(** [v[*p]]. *)
Definition key (t : list nat) (p : nat) : A := nth (at_ t p) v dflt.

(** [INTP_SWAP( *p, *q )]. *)
Definition swap (t : list nat) (p q : nat) : list nat :=
  store p (at_ t q) (store q (at_ t p) t).

Definition swap_if (c : bool) (t : list nat) (p q : nat) : list nat :=
  if c then swap t p q else t.

(** [do ++pi; while (less(v[*pi], vp))]. *)
Fixpoint scan_up (fuel : nat) (t : list nat) (vp : A) (pi : nat) : nat :=
  match fuel with
  | O => S pi
  | S f => if less (key t (S pi)) vp then scan_up f t vp (S pi) else S pi
  end.

(** [do --pj; while (less(vp, v[*pj]))]. *)
Fixpoint scan_down (fuel : nat) (t : list nat) (vp : A) (pj : nat) : nat :=
  match fuel with
  | O => pred pj
  | S f =>
      if less vp (key t (pred pj)) then scan_down f t vp (pred pj)
      else pred pj
  end.

(** The [for (;;)] loop of the partition. *)
Fixpoint exchange (fuel : nat) (t : list nat) (vp : A) (pi pj : nat)
  : list nat * nat :=
  match fuel with
  | O => (t, pi)
  | S f =>
      let pi' := scan_up (List.length t) t vp pi in
      let pj' := scan_down (List.length t) t vp pj in
      if pj' <=? pi' then (t, pi')
      else exchange f (swap t pi' pj') vp pi' pj'
  end%nat.

(** One partition of the segment [pl..pr]; returns the array and
    the final place [pi] of the pivot. *)
Definition partition (t : list nat) (pl pr : nat) : list nat * nat :=
  let pm := (pl + Nat.div2 (pr - pl))%nat in
  let t := swap_if (less (key t pm) (key t pl)) t pm pl in
  let t := swap_if (less (key t pr) (key t pm)) t pr pm in
  let t := swap_if (less (key t pm) (key t pl)) t pm pl in
  let vp := key t pm in
  let pj := pred pr in
  let t := swap t pm pj in
  let '(t, pi) := exchange (List.length t) t vp pl pj in
  (swap t pi (pred pr), pi).

(** The insertion sort of the segment [pl..pr]: each entry moves
    left past the entries whose key is greater. *)
Fixpoint sift_left (vi : nat) (sorted_rev : list nat) : list nat :=
  match sorted_rev with
  | [] => [vi]
  | k :: r =>
      if less (nth vi v dflt) (nth k v dflt) then k :: sift_left vi r
      else vi :: k :: r
  end.

Definition insertion (seg : list nat) : list nat :=
  rev (fold_left (fun acc vi => sift_left vi acc) seg []).

(** Position [i] goes before position [j] when its key is greater:
    the order in which [sift_left] keeps the sorted prefix. *)
Definition key_gt (i j : nat) : bool :=
  less (nth j v dflt) (nth i v dflt).

Definition on_segment (f : list nat -> list nat)
           (t : list nat) (pl pr : nat) : list nat :=
  (firstn pl t ++ f (firstn (S pr - pl) (skipn pl t)) ++ skipn (S pr) t)%list.

(** [aheapsort_]: the heap is the segment itself, 1-based. *)
Fixpoint sift_down (fuel : nat) (a : list nat) (n : nat) (tmp i j : nat)
  : list nat :=
  match fuel with
  | O => store (pred i) tmp a
  | S f =>
      if (j <=? n)%nat then
        let j :=
          if ((j <? n)%nat &&
              less (nth (at_ a (pred j)) v dflt) (nth (at_ a j) v dflt))%bool
          then S j else j in
        if less (nth tmp v dflt) (nth (at_ a (pred j)) v dflt)
        then sift_down f (store (pred i) (at_ a (pred j)) a) n tmp j (j + j)
        else store (pred i) tmp a
      else store (pred i) tmp a
  end.

Fixpoint heapify (l : nat) (a : list nat) (n : nat) : list nat :=
  match l with
  | O => a
  | S l' => heapify l' (sift_down n a n (at_ a l') (S l') (2 * S l')) n
  end.

Fixpoint unheap (fuel : nat) (a : list nat) (n : nat) : list nat :=
  match fuel with
  | O => a
  | S f =>
      if (1 <? n)%nat then
        let tmp := at_ a (pred n) in
        let a := store (pred n) (at_ a O) a in
        unheap f (sift_down n a (pred n) tmp 1 2) (pred n)
      else a
  end.

Definition aheapsort (seg : list nat) : list nat :=
  let n := List.length seg in
  unheap n (heapify (Nat.div2 n) seg n) n.

(** The main loop.  [popped] tells whether the segment comes from
    the stack (or is the whole array), where the depth budget is
    tested; the smaller half of a partition is continued without
    that test, the larger half is stacked with the decremented
    budget. *)
Fixpoint introsort (fuel : nat) (popped : bool) (cdepth : Z)
         (t : list nat) (pl pr : nat) : list nat :=
  match fuel with
  | O => t
  | S f =>
      if (popped && (cdepth <? 0)%Z)%bool then on_segment aheapsort t pl pr
      else if (SMALL_QUICKSORT <? pr - pl)%nat then
        let '(t, pi) := partition t pl pr in
        let cdepth := cdepth - 1 in
        if (pi - pl <? pr - pi)%nat then
          let t := introsort f false cdepth t pl (pred pi) in
          introsort f true cdepth t (S pi) pr
        else
          let t := introsort f false cdepth t (S pi) pr in
          introsort f true cdepth t pl (pred pi)
      else on_segment insertion t pl pr
  end.

End Argsort.

(** [numpy.argsort(v, kind="quicksort")]. *)
Definition aquicksort {A} (less : A -> A -> bool) (dflt : A) (v : list A)
  : list nat :=
  let num := List.length v in
  match num with
  | O => []
  | S _ =>
      introsort less dflt v num true (2 * Z.log2 (Z.of_nat num))
                (seq 0 num) 0 (pred num)
  end.

End Np.

(* ================================================================== *)
(** * The feature catalog                                             *)
(* ================================================================== *)

Module Catalog.

(** An entry: data type, feature group, definition, formula. *)
Definition entry : Type := (string * string * string * string)%type.

Definition data_type (e : entry) : string := fst (fst (fst e)).
Definition group (e : entry) : string := snd (fst (fst e)).
Definition definition (e : entry) : string := snd (fst e).
Definition formula (e : entry) : string := snd e.

(** The dict [DATA_DICT], entry by entry. *)
Definition DATA_DICT : list (string * entry) := [
  ("timestamp", ("datetime", "Transaction Base", "Exact date-time of the transaction", "N/A"));
  ("transaction_id", ("string", "Transaction Base", "Unique transaction identifier (T-prefixed)", "N/A"));
  ("customer_id", ("string", "Transaction Base", "Unique customer identifier (C-prefixed)", "N/A"));
  ("sender_account_id", ("string", "Transaction Base", "Account initiating the transaction (A-prefixed)", "N/A"));
  ("receiver_account_id", ("string", "Transaction Base", "Destination account; NULL for external/beneficiary transfers", "N/A"));
  ("beneficiary_id", ("string", "Transaction Base", "External beneficiary ID; NULL for intra-bank transfers", "N/A"));
  ("device_id", ("string", "Transaction Base", "Device used to initiate transaction (D-prefixed)", "N/A"));
  ("amount", ("float", "Transaction Base", "Transaction value in local currency", "N/A"));
  ("channel", ("category", "Transaction Base", "Channel: mobile, web, atm, branch", "N/A"));
  ("debit_credit", ("category", "Transaction Base", "Whether the transaction is a debit or credit to the sender account", "N/A"));
  ("transaction_type", ("category", "Transaction Base", "Payment instrument: IMPS, NEFT, RTGS, UPI, wallet_transfer, etc.", "N/A"));
  ("cash_flag", ("binary", "Transaction Base", "1 = cash involved (deposit or withdrawal)", "cash_flag = 1 if transaction_type in {cash_deposit, cash_withdrawal}"));
  ("fraud_type", ("category", "Labels", "Fraud typology: normal | mule_ring | layering | smurfing | ATO | identity_fraud", "Synthetic label; assigned during data generation"));
  ("label", ("binary", "Labels", "Ground truth fraud label: 1 = fraud, 0 = legitimate", "label = 0 if fraud_type == 'normal' else 1"));
  ("avg_balance", ("float", "Customer Profile", "Average account balance (simulated)", "N/A"));
  ("account_open_days", ("int", "Customer Profile", "Number of days since account was opened", "N/A"));
  ("kyc_level", ("category", "Customer Profile", "KYC tier of customer: low | medium | high", "N/A"));
  ("country_risk", ("category", "Customer Profile", "Risk category of the customer's country of residence", "N/A"));
  ("income_bracket", ("category", "Customer Profile", "Income band: low | medium | high", "N/A"));
  ("customer_risk_rating", ("category", "Customer Profile", "Internal CDD risk rating: low | medium | high | very_high", "N/A"));
  ("pep_flag", ("binary", "Customer Profile", "1 = Politically Exposed Person", "N/A"));
  ("occupation", ("category", "Customer Profile", "Occupation category (salaried, freelancer, student, etc.)", "N/A"));
  ("industry", ("category", "Customer Profile", "Industry sector of the customer", "N/A"));
  ("account_type", ("category", "Customer Profile", "Account category: savings | current | retail | corporate | business", "N/A"));
  ("account_age_days", ("int", "Customer Profile", "Alias for account_open_days (computed at event time)", "account_age_days = account_open_days + days elapsed since open date"));
  ("device_age_days", ("int", "Device", "Number of days since device was first seen", "N/A"));
  ("rooted_flag", ("binary", "Device", "1 = device is rooted/jailbroken", "N/A"));
  ("os_type", ("category", "Device", "Device OS: android | ios | windows | unknown", "N/A"));
  ("vpn_flag", ("binary", "Device", "1 = VPN or proxy detected on device", "N/A"));
  ("emulator_flag", ("binary", "Device", "1 = transaction originated from an emulator", "N/A"));
  ("beneficiary_type", ("category", "Beneficiary", "Type of external beneficiary: individual | merchant | crypto | offshore", "N/A"));
  ("beneficiary_country_risk", ("category", "Beneficiary", "Risk rating of the beneficiary's country", "N/A"));
  ("high_risk_beneficiary", ("binary", "Beneficiary", "1 = beneficiary is in high-risk category (crypto or offshore)", "high_risk_beneficiary = 1 if beneficiary_type in {crypto, offshore}"));
  ("hour", ("int", "Temporal", "Hour of day (0–23)", "hour = timestamp.hour"));
  ("day_of_week", ("int", "Temporal", "Day of week (0=Mon, 6=Sun)", "day_of_week = timestamp.dayofweek"));
  ("date", ("string", "Temporal", "Calendar date (YYYY-MM-DD)", "date = timestamp.date()"));
  ("month", ("int", "Temporal", "Month (1–12)", "month = timestamp.month"));
  ("week_of_year", ("int", "Temporal", "ISO week of year", "week_of_year = timestamp.isocalendar().week"));
  ("is_night", ("binary", "Temporal", "1 = transaction between 22:00 and 06:00", "is_night = 1 if hour >= 22 or hour < 6"));
  ("is_weekend", ("binary", "Temporal", "1 = Saturday or Sunday", "is_weekend = 1 if day_of_week >= 5"));
  ("is_business_hours", ("binary", "Temporal", "1 = transaction between 09:00 and 17:00 on a weekday", "is_business_hours = 1 if (9 <= hour < 17) and not is_weekend"));
  ("amount_to_balance_ratio", ("float", "Amount Derived", "Fraction of average balance consumed by this transaction", "amount_to_balance_ratio = amount / avg_balance"));
  ("is_round_amount", ("binary", "Amount Derived", "1 = amount is a multiple of 1000", "is_round_amount = 1 if amount % 1000 == 0"));
  ("log_amount", ("float", "Amount Derived", "Natural logarithm of amount; normalises heavy-tail distribution", "log_amount = ln(amount)"));
  ("txn_count_last_1hr", ("int", "Account Velocity", "Number of transactions from this sender account in last 1 hour", "Rolling count over (account_id, timestamp) within 1h window"));
  ("txn_count_last_24hr", ("int", "Account Velocity", "Number of transactions in last 24 hours for this account", "Rolling count within 24h window"));
  ("total_amount_last_24hr", ("float", "Account Velocity", "Total transaction amount by this account in last 24 hours", "Rolling sum(amount) within 24h window"));
  ("total_amount_last_7d", ("float", "Account Velocity", "Total transaction amount by this account in last 7 days", "Rolling sum(amount) within 7d window"));
  ("total_amount_last_30d", ("float", "Account Velocity", "Total transaction amount by this account in last 30 days", "Rolling sum(amount) within 30d window"));
  ("dormancy_flag", ("binary", "Account Velocity", "1 = account was inactive for ≥30 days before this transaction", "dormancy_flag = 1 if days_since_last_txn >= 30"));
  ("txn_velocity_cumulative", ("int", "Account Velocity", "Cumulative transaction count for this account up to this event", "Cumulative count of txns per account_id ordered by timestamp"));
  ("cust_txn_count_last_1hr", ("int", "Customer Velocity", "Customer-level transaction count in last 1 hour", "Rolling count over (customer_id, timestamp) within 1h window"));
  ("cust_txn_count_last_24hr", ("int", "Customer Velocity", "Customer-level transaction count in last 24 hours", "Rolling count within 24h window"));
  ("cust_total_amount_last_24hr", ("float", "Customer Velocity", "Total transaction amount across all accounts of customer in last 24h", "Rolling sum(amount) per customer within 24h window"));
  ("cust_total_amount_last_30d", ("float", "Customer Velocity", "Total transaction amount for customer in last 30 days", "Rolling sum(amount) per customer within 30d window"));
  ("cust_unique_accounts_30d", ("int", "Customer Velocity", "Unique accounts used by the customer in last 30 days", "Rolling nunique(account_id) per customer within 30d window"));
  ("rule_large_cash_deposit", ("binary", "Rule Flags", "Cash deposit ≥ 50,000", "amount >= 50000 and cash_flag == 1 and debit_credit == 'credit'"));
  ("rule_cash_just_below_threshold", ("binary", "Rule Flags", "Cash transaction 9,000–10,000 (structuring probe)", "8000 <= amount < 10000 and cash_flag == 1"));
  ("rule_high_value_transfer", ("binary", "Rule Flags", "Non-cash transfer ≥ 100,000", "amount >= 100000 and cash_flag == 0"));
  ("rule_micro_transaction", ("binary", "Rule Flags", "Amount < 10 (test transaction probe)", "amount < 10"));
  ("rule_round_amount_large", ("binary", "Rule Flags", "Round amount ≥ 10,000", "is_round_amount == 1 and amount >= 10000"));
  ("rule_night_transaction", ("binary", "Rule Flags", "Transaction between 22:00–06:00", "is_night == 1"));
  ("rule_weekend_high_value", ("binary", "Rule Flags", "Weekend transaction ≥ 50,000", "is_weekend == 1 and amount >= 50000"));
  ("rule_dormant_account_activation", ("binary", "Rule Flags", "Dormant account reactivated", "dormancy_flag == 1"));
  ("rule_high_acct_velocity_1hr", ("binary", "Rule Flags", "≥5 transactions from account in 1 hour", "txn_count_last_1hr >= 5"));
  ("rule_high_acct_velocity_24hr", ("binary", "Rule Flags", "≥20 transactions from account in 24 hours", "txn_count_last_24hr >= 20"));
  ("rule_high_acct_velocity_7d", ("binary", "Rule Flags", "≥100 transactions from account in 7 days", "txn_count_last_7d >= 100"));
  ("rule_high_acct_volume_24hr", ("binary", "Rule Flags", "Account volume > 5× median in 24 hours", "total_amount_last_24hr > 5 * median_daily_volume"));
  ("rule_high_acct_volume_7d", ("binary", "Rule Flags", "Account volume > 3× median in 7 days", "total_amount_last_7d > 3 * median_7d_volume"));
  ("rule_amount_spike_30d", ("binary", "Rule Flags", "Single txn > 5× average 30d transaction", "amount > 5 * (total_amount_last_30d / txn_count_30d)"));
  ("rule_rapid_burst", ("binary", "Rule Flags", "≥3 txns within 10 minutes", "txn_count_10min >= 3"));
  ("rule_high_cust_velocity_1hr", ("binary", "Rule Flags", "≥3 customer transactions in 1 hour", "cust_txn_count_last_1hr >= 3"));
  ("rule_high_cust_velocity_24hr", ("binary", "Rule Flags", "≥10 customer transactions in 24 hours", "cust_txn_count_last_24hr >= 10"));
  ("rule_high_cust_volume_24hr", ("binary", "Rule Flags", "Customer 24h volume > 3× account balance", "cust_total_amount_last_24hr > 3 * avg_balance"));
  ("rule_high_cust_volume_7d", ("binary", "Rule Flags", "Customer 7d volume > 10× account balance", "cust_total_amount_last_30d > 10 * avg_balance (7d proxy)"));
  ("rule_low_kyc_high_amount", ("binary", "Rule Flags", "KYC=low and amount ≥ 50,000", "kyc_level == 'low' and amount >= 50000"));
  ("rule_new_account_large_txn", ("binary", "Rule Flags", "Account < 30 days old and amount ≥ 10,000", "account_age_days < 30 and amount >= 10000"));
  ("rule_high_amount_to_balance", ("binary", "Rule Flags", "Transaction > 200% of average balance", "amount_to_balance_ratio > 2.0"));
  ("rule_very_high_risk_customer", ("binary", "Rule Flags", "Customer risk rating = very_high", "customer_risk_rating == 'very_high'"));
  ("rule_pep_high_value", ("binary", "Rule Flags", "PEP customer and amount ≥ 10,000", "pep_flag == 1 and amount >= 10000"));
  ("rule_high_risk_country_sender", ("binary", "Rule Flags", "Sender's country risk = high", "country_risk == 'high'"));
  ("rule_corporate_large_cash", ("binary", "Rule Flags", "Corporate account and large cash transaction", "account_type == 'corporate' and cash_flag == 1 and amount >= 50000"));
  ("rule_high_risk_beneficiary", ("binary", "Rule Flags", "Beneficiary is crypto or offshore", "high_risk_beneficiary == 1"));
  ("rule_crypto_transfer", ("binary", "Rule Flags", "Transfer to a crypto beneficiary", "beneficiary_type == 'crypto'"));
  ("rule_offshore_transfer", ("binary", "Rule Flags", "Transfer to an offshore beneficiary", "beneficiary_type == 'offshore'"));
  ("rule_high_risk_bene_country", ("binary", "Rule Flags", "Beneficiary country risk = high", "beneficiary_country_risk == 'high'"));
  ("rule_rooted_device", ("binary", "Rule Flags", "Device is rooted or jailbroken", "rooted_flag == 1"));
  ("rule_vpn_proxy_detected", ("binary", "Rule Flags", "VPN or proxy active during transaction", "vpn_flag == 1"));
  ("rule_emulator_detected", ("binary", "Rule Flags", "Emulator detected (potential bot)", "emulator_flag == 1"));
  ("rule_new_device_large_txn", ("binary", "Rule Flags", "Device < 30 days old and amount ≥ 20,000", "device_age_days < 30 and amount >= 20000"));
  ("rule_atm_high_withdrawal", ("binary", "Rule Flags", "ATM withdrawal ≥ 20,000", "channel == 'atm' and transaction_type == 'cash_withdrawal' and amount >= 20000"));
  ("rule_branch_night_txn", ("binary", "Rule Flags", "Branch transaction at night (22:00–06:00)", "channel == 'branch' and is_night == 1"));
  ("rule_structuring_pattern", ("binary", "Rule Flags", "Multiple cash txns just below threshold (structuring)", "rule_cash_just_below_threshold == 1 and txn_count_last_24hr >= 3"));
  ("rule_multiple_small_cash", ("binary", "Rule Flags", "≥5 small cash transactions within 24 hours", "cash_flag == 1 and amount < 5000 and txn_count_last_24hr >= 5"));
  ("rule_high_risk_industry", ("binary", "Rule Flags", "Customer operates in a high-risk industry", "industry in {crypto, gambling, firearms, ...}"));
  ("rule_student_high_value", ("binary", "Rule Flags", "Student occupation and amount ≥ 50,000", "occupation == 'student' and amount >= 50000"));
  ("rule_unemployed_large_transfer", ("binary", "Rule Flags", "Unemployed and amount ≥ 20,000", "occupation == 'unemployed' and amount >= 20000"));
  ("rule_freelancer_offshore", ("binary", "Rule Flags", "Freelancer + offshore transfer", "occupation == 'freelancer' and beneficiary_type == 'offshore'"));
  ("rule_pep_crypto_transfer", ("binary", "Rule Flags", "PEP customer making a crypto transfer", "pep_flag == 1 and beneficiary_type == 'crypto'"));
  ("rule_very_high_risk_offshore", ("binary", "Rule Flags", "Very-high-risk customer + offshore transfer", "customer_risk_rating == 'very_high' and beneficiary_type == 'offshore'"));
  ("rule_low_kyc_offshore", ("binary", "Rule Flags", "KYC=low + offshore transfer", "kyc_level == 'low' and beneficiary_type == 'offshore'"));
  ("rule_low_income_large_txn", ("binary", "Rule Flags", "Low-income bracket and amount ≥ 50,000", "income_bracket == 'low' and amount >= 50000"));
  ("rule_vpn_offshore", ("binary", "Rule Flags", "VPN active + offshore transfer", "vpn_flag == 1 and beneficiary_type == 'offshore'"));
  ("rule_emulator_crypto", ("binary", "Rule Flags", "Emulator + crypto transfer", "emulator_flag == 1 and beneficiary_type == 'crypto'"));
  ("rule_new_account_offshore", ("binary", "Rule Flags", "New account (< 30 days) + offshore transfer", "account_age_days < 30 and beneficiary_type == 'offshore'"));
  ("rule_new_acct_high_cust_velocity", ("binary", "Rule Flags", "New account + high customer velocity", "account_age_days < 30 and cust_txn_count_last_24hr >= 5"));
  ("rule_trigger_count", ("int", "Rule Aggregates", "Total number of rules triggered for this transaction", "rule_trigger_count = sum(all rule_* columns)"));
  ("max_rule_severity", ("int", "Rule Aggregates", "Severity level of the most severe triggered rule (0–3)", "max_rule_severity = max severity tier across triggered rules"));
  ("weighted_rule_score", ("int", "Rule Aggregates", "Weighted sum of triggered rule severities", "Σ (rule_i × severity_weight_i) for all triggered rules"));
  ("sender_out_degree_30d", ("float", "Graph – Sender", "Number of outgoing transactions from sender account in last 30 days", "Rolling count(txn_id) per sender grouped by sender_account_id, window=30d"));
  ("sender_total_outflow_30d", ("float", "Graph – Sender", "Total amount sent from sender account in last 30 days", "Rolling sum(amount) per sender, window=30d"));
  ("sender_unique_counterparties_30d", ("int", "Graph – Sender", "Distinct receiver accounts/beneficiaries contacted in last 30 days", "Rolling nunique(receiver) per sender, window=30d"));
  ("sender_repeat_counterparty_ratio", ("float", "Graph – Sender", "Fraction of outgoing transactions going to already-seen counterparties", "(out_degree_30d – unique_counterparties_30d) / out_degree_30d"));
  ("sender_in_degree_30d", ("float", "Graph – Sender", "Number of incoming transactions to sender account in last 30 days (sparse)", "Rolling count per account from inflow side; sparse – only 49 rows populated"));
  ("sender_total_inflow_30d", ("float", "Graph – Sender", "Total amount received by sender account in last 30 days (sparse)", "Rolling sum(amount) from inflow, window=30d; sparse"));
  ("receiver_in_degree_30d", ("float", "Graph – Receiver", "Number of incoming transactions to the receiver account in last 30 days", "Rolling count per receiver_account_id, window=30d; 0 for external transfers"));
  ("receiver_total_inflow_30d", ("float", "Graph – Receiver", "Total amount received by the receiver account in last 30 days", "Rolling sum(amount) per receiver, window=30d; 0 for external"));
  ("receiver_unique_senders_30d", ("float", "Graph – Receiver", "Distinct senders who sent money to receiver account in last 30 days", "Rolling nunique(sender) per receiver, window=30d; 0 for external"));
  ("receiver_account_outflow_30d", ("float", "Graph – Receiver", "Number of outgoing transactions from the receiver account in last 30 days", "Reuse of sender_out_degree_30d joined on receiver_account_id; 0 for external"));
  ("inflow_outflow_volume_balance_ratio_24h", ("float", "Graph – Layering", "Volume balance ratio: min(inflow,outflow)/inflow over 24 hours", "min(sender_total_inflow_24h, sender_total_outflow_24h) / sender_total_inflow_24h; 0 if no inflow"));
  ("inflow_outflow_volume_balance_ratio_7d", ("float", "Graph – Layering", "Same ratio computed over a 7-day rolling window", "min(sender_total_inflow_7d, sender_total_outflow_7d) / sender_total_inflow_7d"));
  ("outflow_to_inflow_ratio_7d", ("float", "Graph – Layering", "Ratio of total outflow to total inflow over 7 days", "sender_total_outflow_7d / sender_total_inflow_7d; 0 if no inflow"));
  ("devices_per_account", ("int", "Graph – Device", "Number of distinct devices linked to this sender account in last 30 days", "Rolling nunique(device_id) per account, window=30d"));
  ("accounts_per_device", ("int", "Graph – Device", "Number of distinct accounts that used this device in last 30 days", "Rolling nunique(account_id) per device, window=30d"));
  ("device_shared_high_risk_ratio", ("float", "Graph – Device", "Fraction of device's recent transactions that involved a fraud or high-risk beneficiary", "Rolling sum(_fraud_or_high_risk) / count per device, window=30d"));
  ("shared_device_fraud_count", ("float", "Graph – Device", "Rolling count of fraud or high-risk transactions on the same device in last 30 days", "Rolling sum(label==1 or high_risk_beneficiary==1) per device, window=30d"));
  ("avg_time_gap_in_out", ("float", "Graph – Timing", "Rolling average time gap (seconds) between the latest inflow and next outflow for sender account", "Per account, for each inflow event, find next outflow and compute gap_sec; rolling 24h mean"));
  ("account_id_x", ("string", "Graph – Internal", "Internal join key (sender side); not a model feature", "Intermediate artifact from merge; can be dropped"));
  ("account_id_y", ("string", "Graph – Internal", "Internal join key (receiver side); not a model feature", "Intermediate artifact from merge; can be dropped"))
].

(** [d.get(k, default)] on a dict given by its items. *)
Definition dict_get {V} (d : list (string * V)) (k : string) (default : V) : V :=
  match find (fun p => String.eqb (fst p) k) d with
  | Some p => snd p
  | None => default
  end.

End Catalog.

(* ================================================================== *)
(** * pandas: [sort_values]                                           *)
(* ================================================================== *)

Module PdSort.
Import Py Pd.

Section Nargsort.
Context {K : Type}.
(** The numpy argsort behind [kind="quicksort"], ascending, on
    keys without nulls. *)
Variable argsort : list K -> list nat.

Definition keep {A} (xs : list (option A)) : list A :=
  flat_map (fun x => match x with Some a => [a] | None => [] end) xs.

(** [a[indices]] on an integer index array. *)
Definition take_idx (a : list nat) (indices : list nat) : list nat :=
  map (fun i => nth i a O) indices.

(** [pandas.core.sorting.nargsort] with [na_position="last"]: the
    nulls are set apart, the rest is argsorted (through a double
    reversal when descending) and the nulls are put back at the
    end, in their original order. *)
Definition nargsort (ascending : bool) (items : list (option K)) : list nat :=
  let idx := seq 0 (List.length items) in
  let mask := map isna items in
  let non_nans := keep items in
  let non_nan_idx := loc (map negb mask) idx in
  let nan_idx := loc mask idx in
  let non_nans := if ascending then non_nans else rev non_nans in
  let non_nan_idx := if ascending then non_nan_idx else rev non_nan_idx in
  let indexer := take_idx non_nan_idx (argsort non_nans) in
  let indexer := if ascending then indexer else rev indexer in
  (indexer ++ nan_idx)%list.

(** [frame.take(indexer)]: the rows at the given positions. *)
Definition take {A} (rows : list A) (indexer : list nat) : list A :=
  flat_map (fun i => match nth_error rows i with
                     | Some r => [r]
                     | None => []
                     end) indexer.

(** [rows.sort_values(by, ascending=...)], [by] being the key
    column read off each row. *)
Definition sort_values {A} (by_ : A -> option K) (ascending : bool)
           (rows : list A) : list A :=
  take rows (nargsort ascending (map by_ rows)).
End Nargsort.

End PdSort.

(* ================================================================== *)
(** * Sheet 5: missing values                                         *)
(* ================================================================== *)

Module Missing.
Import Py Pd PdSort Catalog.

(** [df.isnull().sum()] for one column. *)
Definition null_total (s : Series) : Z :=
  Z.of_nat (List.length (filter (fun b : bool => b) (isnull s))).

(** A row of the frame [nulls]. *)
Record null_stat := {
  column : string;
  null_count : Z;
  null_pct : float;
  dtype_name : string;
  group_name : string
}.

(** [(null_count / len(df) * 100).round(2)]; no row gives 0/0. *)
Definition pct_of_rows (count : Z) (n : nat) : float :=
  match n with
  | O => NaN
  | S _ => Some (round_q 2 (inject_Z count / inject_Z (Z.of_nat n) * 100))
  end.

(** [nulls] before the sort: one row per column, in column order. *)
Definition nulls_unsorted (df : DataFrame) : list null_stat :=
  map (fun p =>
         let c := null_total (snd p) in
         {| column := fst p;
            null_count := c;
            null_pct := pct_of_rows c (nrows df);
            dtype_name := dtype (snd p);
            group_name := group (dict_get DATA_DICT (fst p) ("", "", "", "")) |})
      (columns df).

Definition notes_map : list (string * string) := [
  ("receiver_account_id", "NULL when transfer goes to external beneficiary (~62% of rows). Expected.");
  ("beneficiary_id", "NULL for intra-bank transfers. Expected.");
  ("beneficiary_type", "NULL for intra-bank transfers. Expected.");
  ("beneficiary_country_risk", "NULL for intra-bank transfers. Expected.");
  ("account_id_x", "Internal join artifact from graph feature merge. Not used in modelling.");
  ("sender_in_degree_30d", "Internal join artifact; only 49 rows populated. Not used in modelling.");
  ("sender_total_inflow_30d", "Internal join artifact; only 49 rows populated. Not used in modelling.");
  ("account_id_y", "Internal join artifact from graph feature merge. Not used in modelling.");
  ("avg_time_gap_in_out", "NULL for accounts that have never had a subsequent outflow after an inflow (~4.5% of rows). Can be imputed with median or 0.")
].

(** A row of the sheet: the list [vals]. *)
Record missing_row := {
  col_name : string;
  data_type_cell : string;
  count_cell : Z;
  pct_cell : string;
  group_cell : string;
  note_cell : string
}.

Definition render (r : null_stat) : missing_row :=
  {| col_name := column r;
     data_type_cell := dtype_name r;
     count_cell := null_count r;
     pct_cell := repr_dec 2 (null_pct r) ++ "%";
     group_cell := group_name r;
     note_cell := dict_get notes_map (column r) "" |}.

(** The keys as [nargsort] hands them to the argsort for a
    descending sort: the null counts, last column first. *)
Definition sort_keys (df : DataFrame) : list Z :=
  rev (map null_count (nulls_unsorted df)).

Section Sheet.
Variable argsort : list Z -> list nat.

(** [nulls.sort_values("null_count", ascending=False)]. *)
Definition nulls (df : DataFrame) : list null_stat :=
  sort_values argsort (fun r => Some (null_count r)) false (nulls_unsorted df).

Definition sheet_missing (df : DataFrame) : list missing_row :=
  map render (nulls df).
End Sheet.

End Missing.

(* ================================================================== *)
(** * pandas: [groupby(...)["label"].agg(["count","sum","mean"])]     *)
(* ================================================================== *)

Module PdGroup.
Import Py Pd.

(** A non-null cell used as a group key. *)
Inductive scalar :=
| IntKey (z : Z)
| FloatKey (q : Q)
| BoolKey (b : bool)
| StrKey (s : string).

(** The cells of a column, [None] where the cell is null. *)
Definition values (s : Series) : list (option scalar) :=
  match s with
  | Int64 xs => map (fun z => Some (IntKey z)) xs
  | Float64 xs => map (option_map FloatKey) xs
  | Bool xs => map (fun b => Some (BoolKey b)) xs
  | Object xs => map (option_map StrKey) xs
  end.

Definition scalar_eqb (a b : scalar) : bool :=
  match a, b with
  | IntKey x, IntKey y => Z.eqb x y
  | FloatKey x, FloatKey y => Qeq_bool x y
  | BoolKey x, BoolKey y => Bool.eqb x y
  | StrKey x, StrKey y => String.eqb x y
  | _, _ => false
  end.

Definition rank (a : scalar) : nat :=
  match a with IntKey _ => 0 | FloatKey _ => 1 | BoolKey _ => 2 | StrKey _ => 3 end.

(** The order of the keys of one column; a column has one dtype, so
    keys of different kinds never meet. *)
Definition scalar_ltb (a b : scalar) : bool :=
  match a, b with
  | IntKey x, IntKey y => Z.ltb x y
  | FloatKey x, FloatKey y => negb (Qle_bool y x)
  | BoolKey x, BoolKey y => negb x && y
  | StrKey x, StrKey y => String.ltb x y
  | _, _ => Nat.ltb (rank a) (rank b)
  end.

(** Equality of group keys: all nulls form one group. *)
Definition key_eqb (a b : option scalar) : bool :=
  match a, b with
  | None, None => true
  | Some x, Some y => scalar_eqb x y
  | _, _ => false
  end.

(** The first occurrence of each key. *)
Fixpoint unique (l : list scalar) : list scalar :=
  match l with
  | [] => []
  | x :: r => x :: filter (fun y => negb (scalar_eqb x y)) (unique r)
  end.

Definition keep (xs : list (option scalar)) : list scalar :=
  flat_map (fun x => match x with Some a => [a] | None => [] end) xs.

(** The group keys, ascending ([sort=True]); the null group, when it
    is kept ([dropna=False]) and not empty, comes last. *)
Definition group_keys (dropna : bool) (ks : list (option scalar))
  : list (option scalar) :=
  (map Some (stable_sort scalar_ltb (unique (keep ks))) ++
   (if negb dropna && existsb isna ks then [None] else []))%list.

(** A row of the aggregated frame. *)
Record agg_row := {
  key : option scalar;
  agg_count : Z;          (* "count": the non-null labels of the group *)
  agg_sum : Q;            (* "sum" *)
  agg_mean : float        (* "mean" *)
}.

Definition groupby_agg (dropna : bool) (ks : list (option scalar))
           (label : list float) : list agg_row :=
  map (fun k =>
         let g := loc (map (key_eqb k) ks) label in
         {| key := k;
            agg_count := Z.of_nat (count g);
            agg_sum := sum g;
            agg_mean := mean g |})
      (group_keys dropna ks).

(** [df.groupby(col, dropna=...)["label"].agg(["count","sum","mean"])
    .reset_index()]. *)
Definition groupby_label (df : DataFrame) (col : string) (dropna : bool)
  : option (list agg_row) :=
  by_ <- get df col ;;
  lab <- get df "label" ;;
  label <- to_float lab ;;
  Some (groupby_agg dropna (values by_) label).

End PdGroup.

(* ================================================================== *)
(** * Sheet 7: categorical distributions                              *)
(* ================================================================== *)

Module Categoricals.
Import Py Pd PdSort PdGroup.

Definition cat_cols : list (string * string) := [
  ("channel", "Channel");
  ("transaction_type", "Transaction Type");
  ("kyc_level", "KYC Level");
  ("country_risk", "Country Risk");
  ("income_bracket", "Income Bracket");
  ("customer_risk_rating", "Customer Risk Rating");
  ("occupation", "Occupation");
  ("account_type", "Account Type");
  ("os_type", "OS Type");
  ("beneficiary_type", "Beneficiary Type");
  ("beneficiary_country_risk", "Beneficiary Country Risk");
  ("debit_credit", "Debit / Credit")
].

(** A row of [tbl]. *)
Record cat_stat := {
  value : option scalar;
  total : Z;
  fraud : Q;
  fraud_rate : float;
  pct_all : float
}.

(** [(tbl["total"] / len(df) * 100).round(2)]. *)
Definition pct_of (total : Z) (n : nat) : float :=
  match n with
  | O => NaN
  | S _ => Some (round_q 2 (inject_Z total / inject_Z (Z.of_nat n) * 100))
  end.

(** A row of the sheet: [vals], and whether it is highlighted. *)
Record cat_row := {
  value_cell : option scalar;
  total_cell : Z;
  pct_cell : string;
  fraud_cell : Q;
  fraud_rate_cell : string;
  flagged : bool
}.

Definition render (r : cat_stat) : cat_row :=
  {| value_cell := value r;
     total_cell := total r;
     pct_cell := repr_dec 2 (pct_all r) ++ "%";
     fraud_cell := fraud r;
     fraud_rate_cell := format_f 1 (fscale (fraud_rate r) 100) ++ "%";
     flagged := fgt (fraud_rate r) 0.4 |}.

(** The frame [tbl] of one categorical column before the sort: one
    row per group, the null group included, in the order of the
    group keys. *)
Definition tbl_unsorted (df : DataFrame) (col : string) : option (list cat_stat) :=
  g <- groupby_label df col false ;;
  Some (map (fun a => {| value := key a;
                         total := agg_count a;
                         fraud := agg_sum a;
                         fraud_rate := agg_mean a;
                         pct_all := pct_of (agg_count a) (nrows df) |}) g).

(** The categorical columns the frame has. *)
Definition processed (df : DataFrame) : list (string * string) :=
  filter (fun cl : string * string =>
            existsb (String.eqb (fst cl)) (column_names df))
         cat_cols.

(** The title of a block: [f"{label}  [{col}]"]. *)
Definition title (cl : string * string) : string :=
  snd cl ++ "  [" ++ fst cl ++ "]".

(** The keys handed to the argsort for the descending sort of
    [tbl]: the totals, last group first. *)
Definition sort_keys (df : DataFrame) (col : string) : list Z :=
  match tbl_unsorted df col with
  | Some t => rev (map total t)
  | None => []
  end.

Section Sheet.
Variable argsort : list Z -> list nat.

(** [tbl.sort_values("total", ascending=False)]. *)
Definition tbl (df : DataFrame) (col : string) : option (list cat_stat) :=
  t <- tbl_unsorted df col ;;
  Some (sort_values argsort (fun r => Some (total r)) false t).

(** One block of the sheet per categorical column of the frame:
    the section title and the rows. *)
Definition sheet_categoricals (df : DataFrame)
  : option (list (string * list cat_row)) :=
  traverse (fun cl : string * string =>
              t <- tbl df (fst cl) ;;
              Some (title cl, map render t))
           (processed df).
End Sheet.

End Categoricals.

(* ================================================================== *)
(** * Sheet 1: overview (fraud rate and channel distribution)         *)
(* ================================================================== *)

Module Overview.
Import Py Pd PdGroup.




End Overview.

(* ================================================================== *)
(** * Floats that went through a square root                          *)
(* ================================================================== *)

Module PyR.
Import Py.
Local Open Scope R_scope.

(** A real number, or NaN. *)
Definition rfloat := option R.

(** Round half to even on a real. *)
Definition rint (x : R) : Z :=
  let f := Int_part x in
  if Rlt_dec (frac_part x) (1 / 2) then f
  else if Rlt_dec (1 / 2) (frac_part x) then (f + 1)%Z
  else if Z.even f then f else (f + 1)%Z.

Definition round_r (nd : nat) (x : R) : R :=
  IZR (rint (x * IZR (pow10 nd))) / IZR (pow10 nd).

(** [round(x, nd)]. *)
Definition round (nd : nat) (x : rfloat) : rfloat := option_map (round_r nd) x.

(** [abs(x)]. *)
Definition abs (x : rfloat) : rfloat := option_map Rabs x.

(** [x > k]; false on NaN. *)
Definition gt (x : rfloat) (k : R) : bool :=
  match x with
  | Some r => if Rlt_dec k r then true else false
  | None => false
  end.

(** [a < b] on reals, the comparison numpy sorts floats with. *)
Definition ltb (a b : R) : bool := if Rlt_dec a b then true else false.

End PyR.

(* ================================================================== *)
(** * Sheet 4: descriptive statistics                                 *)
(* ================================================================== *)

Module DescStats.
Import Py Pd.

Definition qlt (x y : Q) : bool := negb (Qle_bool y x).

(** [s.min()], [s.max()]: NaN when no value is left. *)
Definition min (xs : list float) : float :=
  match dropna xs with
  | [] => NaN
  | x :: r => Some (fold_left (fun m y => if qlt y m then y else m) r x)
  end.

Definition max (xs : list float) : float :=
  match dropna xs with
  | [] => NaN
  | x :: r => Some (fold_left (fun m y => if qlt m y then y else m) r x)
  end.

(** The sample variance ([ddof=1]); NaN below two values. *)
Definition var (xs : list float) : float :=
  let l := dropna xs in
  match l with
  | [] | [_] => NaN
  | _ =>
      let n := inject_Z (Z.of_nat (List.length l)) in
      let m := (qsum l / n)%Q in
      Some (qsum (map (fun x => (x - m) * (x - m)) l) / (n - 1))%Q
  end.

(** [s.std()]. *)
Definition std (xs : list float) : PyR.rfloat :=
  match var xs with
  | Some v => Some (sqrt (Q2R v))
  | None => None
  end.

(** [s.quantile(p)] with linear interpolation between the two order
    statistics around the position [(n - 1) * p]. *)
Definition quantile (xs : list float) (p : Q) : float :=
  let a := stable_sort qlt (dropna xs) in
  match a with
  | [] => NaN
  | a0 :: _ =>
      let n := List.length a in
      let h := (inject_Z (Z.of_nat (n - 1)) * p)%Q in
      let lo := Z.to_nat (Qfloor h) in
      let hi := Nat.min (lo + 1) (n - 1) in
      let alo := nth lo a a0 in
      let ahi := nth hi a a0 in
      Some (alo + (h - inject_Z (Z.of_nat lo)) * (ahi - alo))%Q
  end.

(** A row of [stats]: the transposed [describe] with the two null
    columns added. *)
Record desc_row := {
  feature : string;
  count_ : Z;
  mean_ : float;
  std_ : PyR.rfloat;
  min_ : float;
  p25 : float;
  p50 : float;
  p75 : float;
  p90 : float;
  p95 : float;
  p99 : float;
  max_ : float;
  null_count : Z;
  null_pct : float
}.

(** [select_dtypes(include=[np.number])] without the two join keys. *)
Definition numeric_cols (df : DataFrame) : list (string * Series) :=
  filter (fun p => is_number (snd p) &&
                   negb (existsb (String.eqb (fst p)) ["account_id_x"; "account_id_y"]))
         (columns df).

(** [(isnull().mean() * 100).round(2)] of one column. *)
Definition null_pct_of (s : Series) : float :=
  round 2 (fscale (mean (map (fun b : bool => Some (if b then 1 else 0)%Q) (isnull s))) 100).

Definition describe_row (p : string * Series) : option desc_row :=
  xs <- to_float (snd p) ;;
  Some {| feature := fst p;
          count_ := Z.of_nat (count xs);
          mean_ := round 4 (mean xs);
          std_ := PyR.round 4 (std xs);
          min_ := round 4 (min xs);
          p25 := round 4 (quantile xs (25 # 100));
          p50 := round 4 (quantile xs (50 # 100));
          p75 := round 4 (quantile xs (75 # 100));
          p90 := round 4 (quantile xs (90 # 100));
          p95 := round 4 (quantile xs (95 # 100));
          p99 := round 4 (quantile xs (99 # 100));
          max_ := round 4 (max xs);
          null_count := Missing.null_total (snd p);
          null_pct := null_pct_of (snd p) |}.

(** The rows of the sheet; [describe] raises on a frame without
    columns. *)
Definition sheet_desc_stats (df : DataFrame) : option (list desc_row) :=
  match numeric_cols df with
  | [] => None
  | cols => traverse describe_row cols
  end.

End DescStats.

(* ================================================================== *)
(** * Sheet 11: correlations with the label                           *)
(* ================================================================== *)

Module Corr.
Import Py Pd PdSort Catalog.

(** The rows where both columns hold a value. *)
Definition complete_pairs (xs ys : list float) : list (Q * Q) :=
  flat_map (fun p => match p with
                     | (Some x, Some y) => [(x, y)]
                     | _ => []
                     end) (combine xs ys).

(** The sums [nancorr] accumulates over the complete pairs: the sums
    of squared deviations of both columns and the sum of the
    products of deviations. *)
Record moments := {
  nobs : nat;
  ssqdm_x : Q;
  ssqdm_y : Q;
  covxy : Q
}.

Definition moments_of (ps : list (Q * Q)) : moments :=
  let n := inject_Z (Z.of_nat (List.length ps)) in
  let meanx := (qsum (map fst ps) / n)%Q in
  let meany := (qsum (map snd ps) / n)%Q in
  {| nobs := List.length ps;
     ssqdm_x := qsum (map (fun p => (fst p - meanx) * (fst p - meanx))%Q ps);
     ssqdm_y := qsum (map (fun p => (snd p - meany) * (snd p - meany))%Q ps);
     covxy := qsum (map (fun p => (fst p - meanx) * (snd p - meany))%Q ps) |}.

(** The Pearson coefficient of two columns, as [DataFrame.corr()]
    computes it ([min_periods=1]): NaN without an observation and
    when the divisor is zero. *)
Definition pearson (xs ys : list float) : PyR.rfloat :=
  let m := moments_of (complete_pairs xs ys) in
  if (nobs m <? 1)%nat then None
  else
    let divisor := sqrt (Q2R (ssqdm_x m * ssqdm_y m)) in
    if Req_EM_T divisor 0 then None
    else Some (Q2R (covxy m) / divisor)%R.

(** The numeric columns other than the label and the join keys. *)
Definition numeric_cols (df : DataFrame) : list (string * Series) :=
  filter (fun p => is_number (snd p) &&
                   negb (existsb (String.eqb (fst p))
                           ["label"; "account_id_x"; "account_id_y"]))
         (columns df).

(** [df[numeric_cols + ["label"]].corr()["label"].drop("label")]. *)
Definition corr_with_label (df : DataFrame) : option (list (string * PyR.rfloat)) :=
  lab <- get df "label" ;;
  label <- to_float lab ;;
  traverse (fun p : string * Series =>
              xs <- to_float (snd p) ;;
              Some (fst p, pearson xs label))
           (numeric_cols df).

Inductive direction := Positive | Negative.

Definition direction_label (d : direction) : string :=
  match d with
  | Positive => "Positive (↑ with fraud)"
  | Negative => "Negative (↓ with fraud)"
  end.

(** The lambda applied to [pearson_r]. *)
Definition direction_of (x : PyR.rfloat) : direction :=
  if PyR.gt x 0 then Positive else Negative.

Definition signal_strength (r : PyR.rfloat) : string :=
  if PyR.gt r (5 / 10) then "Very Strong"
  else if PyR.gt r (3 / 10) then "Strong"
  else if PyR.gt r (15 / 100) then "Moderate"
  else if PyR.gt r (5 / 100) then "Weak"
  else "Negligible".

(** A row of [corr_df]. *)
Record corr_stat := {
  feature : string;
  pearson_r : PyR.rfloat;
  abs_r : PyR.rfloat;
  direction_ : string;
  group_ : string;
  signal : string
}.

Definition corr_stat_of (p : string * PyR.rfloat) : corr_stat :=
  {| feature := fst p;
     pearson_r := snd p;
     abs_r := PyR.abs (snd p);
     direction_ := direction_label (direction_of (snd p));
     group_ := group (dict_get DATA_DICT (fst p) ("", "", "", ""));
     signal := signal_strength (PyR.abs (snd p)) |}.

(** A row of the sheet: [vals]. *)
Record corr_row := {
  rank : nat;
  feature_cell : string;
  group_cell : string;
  pearson_cell : PyR.rfloat;
  abs_cell : PyR.rfloat;
  direction_cell : string;
  signal_cell : string
}.

Definition render (rank : nat) (r : corr_stat) : corr_row :=
  {| rank := rank;
     feature_cell := feature r;
     group_cell := group_ r;
     pearson_cell := PyR.round 4 (pearson_r r);
     abs_cell := PyR.round 4 (abs_r r);
     direction_cell := direction_ r;
     signal_cell := signal r |}.

(** [enumerate(rows, 1)]. *)
Fixpoint enumerate {A B} (f : nat -> A -> B) (start : nat) (l : list A) : list B :=
  match l with
  | [] => []
  | a :: r => f start a :: enumerate f (S start) r
  end.

(** The keys handed to the argsort for the descending sort: the
    absolute coefficients that are not NaN, last column first. *)
Definition sort_keys (df : DataFrame) : list R :=
  match corr_with_label df with
  | Some corr => rev (keep (map (fun p : string * PyR.rfloat => PyR.abs (snd p)) corr))
  | None => []
  end.

Section Sheet.
Variable argsort : list R -> list nat.

(** [corr_df]: the coefficients sorted by
    [sort_values(key=abs, ascending=False)], with the derived
    columns. *)
Definition corr_df (df : DataFrame) : option (list corr_stat) :=
  corr <- corr_with_label df ;;
  Some (map corr_stat_of
          (sort_values argsort (fun p => PyR.abs (snd p)) false corr)).

Definition sheet_correlations (df : DataFrame) : option (list corr_row) :=
  t <- corr_df df ;;
  Some (enumerate render 1 t).
End Sheet.

End Corr.

(* ================================================================== *)
(** * numpy scalars: division                                         *)
(* ================================================================== *)

Module NpFloat.
Import Py.

(** The result of a [numpy.float64] division: it never raises, a
    zero divisor gives an infinity, or NaN for 0/0. *)
Inductive npfloat :=
| Finite (q : Q)
| Inf (negative : bool)
| NpNaN.

Definition true_divide (x y : float) : npfloat :=
  match x, y with
  | Some a, Some b =>
      if Qeq_bool b 0 then
        if Qeq_bool a 0 then NpNaN else Inf (negb (Qle_bool 0 a))
      else Finite (a / b)
  | _, _ => NpNaN
  end.

(** [f"{x:.<nd>f}"]. *)
Definition format_f (nd : nat) (x : npfloat) : string :=
  match x with
  | Finite q => Py.format_f nd (Some q)
  | Inf false => "inf"
  | Inf true => "-inf"
  | NpNaN => "nan"
  end.

End NpFloat.

(* ================================================================== *)
(** * Sheet 10: fraud type analysis                                   *)
(* ================================================================== *)

Module FraudTypes.
Import Py Pd PdSort PdGroup NpFloat.

Definition fraud_types : list string :=
  ["mule_ring"; "layering"; "smurfing"; "ATO"; "identity_fraud"].

(** [df["fraud_type"] == ft]. *)
Definition is_type (s : Series) (ft : string) : list bool :=
  map (key_eqb (Some (StrKey ft))) (values s).

(** [Series.mode()[0]]: the most frequent value, the smallest one on
    a tie; no value at all raises. *)
Definition mode0 (vs : list (option scalar)) : option scalar :=
  let present := keep vs in
  let occurrences k := List.length (filter (scalar_eqb k) present) in
  fold_left (fun best k =>
               match best with
               | None => Some k
               | Some b => if (occurrences b <? occurrences k)%nat
                           then Some k else Some b
               end)
            (stable_sort scalar_ltb (unique present)) None.

(** What a cell of the comparison table holds. *)
Inductive cell :=
| IntCell (z : Z)
| StrCell (s : string)
| KeyCell (k : scalar).

(** A tuple of [key_metrics]. *)
Record metric_row := {
  metric : string;
  fraud_value : cell;
  normal_value : cell;
  ratio : string
}.

(** The column [c] of the rows selected by [mask], as floats. *)
Definition column_of (df : DataFrame) (mask : list bool) (c : string)
  : option (list float) :=
  s <- get df c ;;
  xs <- to_float s ;;
  Some (loc mask xs).

Definition mean_cell (xs : list float) : cell :=
  StrCell (Py.format_f 2 (mean xs)).

(** ["<mean of sub> / <mean of normal>"], formatted: no test on the
    divisor. *)
Definition ratio_cell (sub normal : list float) : string :=
  format_f 2 (true_divide (mean sub) (mean normal)) ++ "x".

Definition key_metrics (df : DataFrame) (ft : string) : option (list metric_row) :=
  ftc <- get df "fraud_type" ;;
  let sub := is_type ftc ft in
  let normal := is_type ftc "normal" in
  amount_s <- column_of df sub "amount" ;;
  amount_n <- column_of df normal "amount" ;;
  night_s <- column_of df sub "is_night" ;;
  night_n <- column_of df normal "is_night" ;;
  dpa_s <- column_of df sub "devices_per_account" ;;
  dpa_n <- column_of df normal "devices_per_account" ;;
  apd_s <- column_of df sub "accounts_per_device" ;;
  apd_n <- column_of df normal "accounts_per_device" ;;
  sod_s <- column_of df sub "sender_out_degree_30d" ;;
  sod_n <- column_of df normal "sender_out_degree_30d" ;;
  sdf_s <- column_of df sub "shared_device_fraud_count" ;;
  sdf_n <- column_of df normal "shared_device_fraud_count" ;;
  channel <- get df "channel" ;;
  txn_type <- get df "transaction_type" ;;
  ch_s <- mode0 (loc sub (values channel)) ;;
  ch_n <- mode0 (loc normal (values channel)) ;;
  tt_s <- mode0 (loc sub (values txn_type)) ;;
  tt_n <- mode0 (loc normal (values txn_type)) ;;
  Some [
    {| metric := "Transaction Count";
       fraud_value := IntCell (Z.of_nat (List.length (filter (fun b : bool => b) sub)));
       normal_value := IntCell (Z.of_nat (List.length (filter (fun b : bool => b) normal)));
       ratio := "" |};
    {| metric := "Average Amount";
       fraud_value := mean_cell amount_s;
       normal_value := mean_cell amount_n;
       ratio := ratio_cell amount_s amount_n |};
    {| metric := "Median Amount";
       fraud_value := StrCell (Py.format_f 2 (DescStats.quantile amount_s (1 # 2)));
       normal_value := StrCell (Py.format_f 2 (DescStats.quantile amount_n (1 # 2)));
       ratio := "" |};
    {| metric := "Night Txn Rate";
       fraud_value := StrCell (Py.format_f 1 (fscale (mean night_s) 100) ++ "%");
       normal_value := StrCell (Py.format_f 1 (fscale (mean night_n) 100) ++ "%");
       ratio := "" |};
    {| metric := "Avg devices_per_account";
       fraud_value := mean_cell dpa_s;
       normal_value := mean_cell dpa_n;
       ratio := ratio_cell dpa_s dpa_n |};
    {| metric := "Avg accounts_per_device";
       fraud_value := mean_cell apd_s;
       normal_value := mean_cell apd_n;
       ratio := ratio_cell apd_s apd_n |};
    {| metric := "Avg sender_out_degree_30d";
       fraud_value := mean_cell sod_s;
       normal_value := mean_cell sod_n;
       ratio := "" |};
    {| metric := "Avg shared_device_fraud_count";
       fraud_value := mean_cell sdf_s;
       normal_value := mean_cell sdf_n;
       ratio := "" |};
    {| metric := "Top Channel";
       fraud_value := KeyCell ch_s;
       normal_value := KeyCell ch_n;
       ratio := "" |};
    {| metric := "Top Transaction Type";
       fraud_value := KeyCell tt_s;
       normal_value := KeyCell tt_n;
       ratio := "" |}
  ].

Section Sheet.
Variable argsort : list Q -> list nat.

(** [sub[rule_cols].mean().sort_values(ascending=False).head(5)],
    written as [rule, f"{rate*100:.1f}%"]. *)
Definition top_rules (df : DataFrame) (ft : string)
  : option (list (string * string)) :=
  ftc <- get df "fraud_type" ;;
  means <- traverse (fun c => xs <- column_of df (is_type ftc ft) c ;;
                              Some (c, mean xs))
                    (Rules.rule_cols df) ;;
  Some (map (fun p : string * float =>
               (fst p, Py.format_f 1 (fscale (snd p) 100) ++ "%"))
            (firstn 5 (sort_values argsort snd false means))).

(** One block per fraud type: the comparison table and the top
    rules. *)
Definition sheet_fraud_types (df : DataFrame)
  : option (list (string * list metric_row * list (string * string))) :=
  traverse (fun ft =>
              km <- key_metrics df ft ;;
              tr <- top_rules df ft ;;
              Some (ft, km, tr))
           fraud_types.
End Sheet.

End FraudTypes.

(* ================================================================== *)
(** * Sheet 6: graph features, section 2 (fraud vs legitimate means)  *)
(* ================================================================== *)

Module GraphEDA.
Import Py Pd.

Definition graph_cols : list string := [
  "sender_out_degree_30d"; "sender_total_outflow_30d"; "sender_unique_counterparties_30d";
  "sender_repeat_counterparty_ratio"; "sender_in_degree_30d"; "sender_total_inflow_30d";
  "receiver_in_degree_30d"; "receiver_total_inflow_30d"; "receiver_unique_senders_30d";
  "receiver_account_outflow_30d"; "inflow_outflow_volume_balance_ratio_24h";
  "inflow_outflow_volume_balance_ratio_7d"; "outflow_to_inflow_ratio_7d";
  "devices_per_account"; "accounts_per_device"; "device_shared_high_risk_ratio";
  "shared_device_fraud_count"; "avg_time_gap_in_out"
].

(** [round(fraud_m/legit_m, 2) if legit_m else float("nan")]: a NaN
    mean is truthy, a zero mean is not. *)
Definition ratio_of (fraud_m legit_m : float) : float :=
  match legit_m with
  | Some l => if Qeq_bool l 0 then NaN else round 2 (fdiv fraud_m legit_m)
  | None => round 2 (fdiv fraud_m legit_m)
  end.

(** A row of the comparison: [col, round(legit_m,4),
    round(fraud_m,4), f"{ratio:.2f}x"]. *)
Record compare_row := {
  feature : string;
  legit_mean : float;
  fraud_mean : float;
  ratio_cell : string
}.

(** [s == k] on a column of any dtype. *)
Definition eq_num (s : Series) (k : Q) : list bool :=
  match to_float s with
  | Some xs => eq_scalar xs k
  | None => map (fun _ => false) (isnull s)
  end.

(** The body of the loop over [graph_cols]; [Some None] is the
    [continue] of a column without any value. *)
Definition compare_col (df : DataFrame) (col : string) : option (option compare_row) :=
  s <- get df col ;;
  let non_null := map negb (isnull s) in
  if (List.length (filter (fun b : bool => b) non_null) =? 0)%nat then Some None
  else
    lab <- get df "label" ;;
    xs <- to_float s ;;
    let legit_m := mean (loc (map (fun p : bool * bool => fst p && snd p)
                                  (combine non_null (eq_num lab 0))) xs) in
    let fraud_m := mean (loc (map (fun p : bool * bool => fst p && snd p)
                                  (combine non_null (eq_num lab 1))) xs) in
    Some (Some {| feature := col;
                  legit_mean := round 4 legit_m;
                  fraud_mean := round 4 fraud_m;
                  ratio_cell := format_f 2 (ratio_of fraud_m legit_m) ++ "x" |}).

Definition fraud_vs_legit (df : DataFrame) : option (list compare_row) :=
  rows <- traverse (compare_col df) graph_cols ;;
  Some (flat_map (fun r => match r with Some x => [x] | None => [] end) rows).

End GraphEDA.

(* ================================================================== *)
(** * Sheet 2: data dictionary                                        *)
(* ================================================================== *)

Module DataDict.
Import Py Pd Catalog.

(** The fill of each feature group. *)
Definition group_colors : list (string * string) := [
  ("Transaction Base", "E8F5E9"); ("Labels", "FCE4D6");
  ("Customer Profile", "E3F2FD"); ("Device", "FFF9C4");
  ("Beneficiary", "F3E5F5"); ("Temporal", "E0F7FA");
  ("Amount Derived", "FFF3E0"); ("Account Velocity", "E8EAF6");
  ("Customer Velocity", "E8EAF6"); ("Rule Flags", "FFF8E1");
  ("Rule Aggregates", "FFF8E1");
  ("Graph – Sender", "E8F5E9"); ("Graph – Receiver", "E8F5E9");
  ("Graph – Layering", "FCE4D6"); ("Graph – Device", "E3F2FD");
  ("Graph – Timing", "FFF3E0"); ("Graph – Internal", "F2F2F2")
].

(** [col_name in DATA_DICT]. *)
Definition documented (c : string) : bool :=
  existsb (fun p : string * entry => String.eqb (fst p) c) DATA_DICT.

(** A row of the sheet: the list [vals] and the fill [bg]. *)
Record dict_row := {
  column_name : string;
  data_type_cell : string;
  group_cell : string;
  definition_cell : string;
  formula_cell : string;
  bg : string
}.

(** The body of the loop over [df.columns]: the entry of the
    dictionary, or the dtype of the column with the group "Other". *)
Definition row_of (p : string * Series) : dict_row :=
  let e := dict_get DATA_DICT (fst p) (dtype (snd p), "Other", "", "") in
  {| column_name := fst p;
     data_type_cell := data_type e;
     group_cell := group e;
     definition_cell := definition e;
     formula_cell := formula e;
     bg := dict_get group_colors (group e) "FFFFFF" |}.

Definition sheet_data_dict (df : DataFrame) : list dict_row :=
  map row_of (columns df).

End DataDict.

(* ================================================================== *)
(** * Sheet 9: temporal analysis                                      *)
(* ================================================================== *)

Module Temporal.
Import Py Pd PdGroup.

(** The period of the day of an hour. *)
Definition period (h : Z) : string :=
  if ((h >=? 22) || (h <? 6))%Z then "Night (22-05)"
  else if (h <? 9)%Z then "Early Morning (6-8)"
  else if (h <? 17)%Z then "Business (9-17)"
  else "Evening (17-21)".

Definition days : list string :=
  ["Monday"; "Tuesday"; "Wednesday"; "Thursday"; "Friday"; "Saturday"; "Sunday"].

Definition months : list (Z * string) := [
  (1, "Jan"); (2, "Feb"); (3, "Mar"); (4, "Apr"); (5, "May"); (6, "Jun");
  (7, "Jul"); (8, "Aug"); (9, "Sep"); (10, "Oct"); (11, "Nov"); (12, "Dec")
].

(** [l[i]] on a Python list: a negative index counts from the end,
    an index out of range raises. *)
Definition list_index {A} (l : list A) (i : Z) : option A :=
  let n := Z.of_nat (List.length l) in
  if ((0 <=? i) && (i <? n))%Z then nth_error l (Z.to_nat i)
  else if ((- n <=? i) && (i <? 0))%Z then nth_error l (Z.to_nat (n + i))
  else None.

(** [d[k]] on a dict with integer keys: a missing key raises. *)
Definition dict_item {V} (d : list (Z * V)) (k : Z) : option V :=
  option_map snd (find (fun p => (fst p =? k)%Z) d).

(** A row of the table by hour: [vals], and whether it is
    highlighted. *)
Record hour_row := {
  hour : Z;
  hour_total : Z;
  hour_fraud : Q;
  hour_rate : string;
  hour_period : string;
  hour_flagged : bool
}.

(** A row of the tables by day of the week and by month. *)
Record named_row := {
  number : Z;
  name : string;
  total : Z;
  fraud_count : Q;
  fraud_rate : string
}.

Section Sheet.
(** [int(s)] on a string, for key columns that hold strings. *)
Variable int_of_str : string -> option Z.

(** [int(r[col])] on the key of a row of the aggregated frame. *)
Definition int_of (k : option scalar) : option Z :=
  match k with
  | Some (IntKey z) => Some z
  | Some (FloatKey q) => Some (int q)
  | Some (BoolKey b) => Some (if b then 1 else 0)
  | Some (StrKey s) => int_of_str s
  | None => None
  end.

Definition rate_cell (a : agg_row) : string :=
  format_f 1 (fscale (agg_mean a) 100) ++ "%".

Definition hour_tbl (df : DataFrame) : option (list hour_row) :=
  g <- groupby_label df "hour" true ;;
  traverse (fun a =>
              h <- int_of (key a) ;;
              Some {| hour := h;
                      hour_total := agg_count a;
                      hour_fraud := agg_sum a;
                      hour_rate := rate_cell a;
                      hour_period := period h;
                      hour_flagged := fgt (agg_mean a) (3 # 10) |})
           g.

Definition dow (df : DataFrame) : option (list named_row) :=
  g <- groupby_label df "day_of_week" true ;;
  traverse (fun a =>
              d <- int_of (key a) ;;
              day <- list_index days d ;;
              Some {| number := d;
                      name := day;
                      total := agg_count a;
                      fraud_count := agg_sum a;
                      fraud_rate := rate_cell a |})
           g.

Definition mo (df : DataFrame) : option (list named_row) :=
  g <- groupby_label df "month" true ;;
  traverse (fun a =>
              m <- int_of (key a) ;;
              month <- dict_item months m ;;
              Some {| number := m;
                      name := month;
                      total := agg_count a;
                      fraud_count := agg_sum a;
                      fraud_rate := rate_cell a |})
           g.

(** The three tables of the sheet. *)
Definition sheet_temporal (df : DataFrame)
  : option (list hour_row * list named_row * list named_row) :=
  h <- hour_tbl df ;;
  d <- dow df ;;
  m <- mo df ;;
  Some (h, d, m).
End Sheet.

End Temporal.

(* ================================================================== *)
(** * Sheet 8: rule features, sections 2 and 3                        *)
(* ================================================================== *)

Module RuleSections.
Import Py Pd PdGroup.

(** A row of the distribution of the trigger count. *)
Record count_row := {
  trigger_count : option scalar;
  total : Z;
  pct_all : string;
  fraud : Q;
  fraud_rate : string;
  flagged : bool
}.

(** [r['total']/len(df)*100]; a frame without rows has no group. *)
Definition share (total : Z) (n : nat) : float :=
  match n with
  | O => NaN
  | S _ => Some (inject_Z total / inject_Z (Z.of_nat n) * 100)%Q
  end.

Definition tc (df : DataFrame) : option (list count_row) :=
  g <- groupby_label df "rule_trigger_count" true ;;
  Some (map (fun a =>
               {| trigger_count := key a;
                  total := agg_count a;
                  pct_all := format_f 1 (share (agg_count a) (nrows df)) ++ "%";
                  fraud := agg_sum a;
                  fraud_rate := format_f 1 (fscale (agg_mean a) 100) ++ "%";
                  flagged := fgt (agg_mean a) (5 # 10) |})
            g).

Definition sev_desc : list (Z * string) := [
  (0, "No rules triggered"); (1, "Low-severity rule(s) only");
  (2, "Medium-severity rule(s)"); (3, "High-severity rule(s)")
].

(** [d.get(k, default)] on a dict with integer keys. *)
Definition dict_get {V} (d : list (Z * V)) (k : Z) (default : V) : V :=
  match find (fun p => (fst p =? k)%Z) d with
  | Some p => snd p
  | None => default
  end.

(** A row of the table by severity. *)
Record severity_row := {
  level : Z;
  description : string;
  transactions : Z;
  fraud_total : Q;
  rate : string;
  highlighted : bool
}.

Section Sheet.
Variable int_of_str : string -> option Z.

Definition ms (df : DataFrame) : option (list severity_row) :=
  g <- groupby_label df "max_rule_severity" true ;;
  traverse (fun a =>
              s <- Temporal.int_of int_of_str (key a) ;;
              Some {| level := s;
                      description := dict_get sev_desc s "";
                      transactions := agg_count a;
                      fraud_total := agg_sum a;
                      rate := format_f 1 (fscale (agg_mean a) 100) ++ "%";
                      highlighted := fgt (agg_mean a) (3 # 10) |})
           g.

(** The whole sheet: the per-rule table and the two
    distributions. *)
Definition sheet (df : DataFrame)
  : option (list Rules.rule_row * list count_row * list severity_row) :=
  s1 <- Rules.sheet_rules df ;;
  s2 <- tc df ;;
  s3 <- ms df ;;
  Some (s1, s2, s3).
End Sheet.

End RuleSections.

(* ================================================================== *)
(** * Sheet 1: overview (fraud type distribution)                     *)
(* ================================================================== *)

Module FraudTypeDistribution.
Import Py Pd PdSort PdGroup.

(** [s.value_counts()] before its sort: the distinct values in the
    order of their first occurrence, nulls apart, each with the
    number of its occurrences. *)
Definition value_counts_unsorted (vs : list (option scalar)) : list (scalar * Z) :=
  let present := PdGroup.keep vs in
  map (fun k => (k, Z.of_nat (List.length (filter (scalar_eqb k) present))))
      (unique present).

(** The keys handed to the argsort for the descending sort of the
    counts: the counts, last value first. *)
Definition sort_keys (vs : list (option scalar)) : list Z :=
  rev (map snd (value_counts_unsorted vs)).

(** [mapping[k]] as [Series.map] reads it: NaN for a key the
    mapping does not have. *)
Definition lookup (g : list agg_row) (k : scalar) : float :=
  match find (fun a => key_eqb (key a) (Some k)) g with
  | Some a => round 4 (agg_mean a)
  | None => NaN
  end.

(** A row of the table: [fraud_type, count, f"{pct_all}%",
    f"{fraud_rate*100:.1f}%"], and whether it is highlighted. *)
Record type_row := {
  fraud_type : scalar;
  count : Z;
  pct_all : string;
  fraud_rate : string;
  flagged : bool
}.

Section Sheet.
Variable argsort : list Z -> list nat.

(** [s.value_counts()]. *)
Definition value_counts (vs : list (option scalar)) : list (scalar * Z) :=
  sort_values argsort (fun p : scalar * Z => Some (snd p)) false
              (value_counts_unsorted vs).

Definition ft (df : DataFrame) : option (list type_row) :=
  s <- get df "fraud_type" ;;
  g <- groupby_label df "fraud_type" true ;;
  Some (map (fun p : scalar * Z =>
               let rate := lookup g (fst p) in
               {| fraud_type := fst p;
                  count := snd p;
                  pct_all :=
                    repr_dec 2 (Categoricals.pct_of (snd p) (nrows df)) ++ "%";
                  fraud_rate := format_f 1 (fscale rate 100) ++ "%";
                  flagged := fgt rate 0 |})
            (value_counts (values s))).
End Sheet.

End FraudTypeDistribution.

(* ================================================================== *)
(** * Conditions on the input frame                                   *)
(* ================================================================== *)

Module Schema.
Import Py Pd.

(** A binary column: an [int64] or [float64] column of zeros and
    ones without null, or a [bool] column. *)
Definition binary (s : Series) : bool :=
  match s with
  | Int64 xs => forallb (fun z => (z =? 0)%Z || (z =? 1)%Z) xs
  | Float64 xs =>
      forallb (fun x => match x with
                        | Some q => Qeq_bool q 0 || Qeq_bool q 1
                        | None => false
                        end) xs
  | Bool _ => true
  | Object _ => false
  end.

Definition binary_column (df : DataFrame) (c : string) : bool :=
  match get df c with
  | Some s => binary s
  | None => false
  end.

(** The frame is well formed and its label is binary. *)
Definition labelled (df : DataFrame) : bool :=
  well_formed df && binary_column df "label".

(** Moreover every rule column is binary. *)
Definition rules_binary (df : DataFrame) : bool :=
  forallb (binary_column df) (Rules.rule_cols df).

End Schema.

(* ================================================================== *)
(** * Properties of the tables                                        *)
(* ================================================================== *)

Module Spec.
Import Py Pd.

(** [x >= y] between two floats that hold a value. *)
Definition fge (x y : float) : Prop :=
  match x, y with
  | Some a, Some b => (b <= a)%Q
  | _, _ => False
  end.

(** The rule's fraud rate when triggered is [k]. *)
Definition rate_is (k : Q) (s : Rules.rule_stat) : bool :=
  match Rules.f_triggered s with
  | Some q => Qeq_bool q k
  | None => false
  end.

(** The lift of a rule is the quotient of the two fraud rates, and
    the sheet shows it with two decimals. *)
Definition lift_is_ratio (s : Rules.rule_stat) : Prop :=
  exists ft fn,
    Rules.f_triggered s = Some ft /\
    Rules.f_not_triggered s = Some fn /\
    ~ (fn == 0)%Q /\
    Rules.lift s = Some (ft / fn)%Q /\
    Rules.lift_ratio (Rules.render s) = format_f 2 (Some (ft / fn)%Q) ++ "x".

(** The fraud rate when not triggered is zero or undefined, and the
    sheet shows the sentinel. *)
Definition lift_is_sentinel (s : Rules.rule_stat) : Prop :=
  (Rules.f_not_triggered s = NaN \/
   exists fn, Rules.f_not_triggered s = Some fn /\ (fn == 0)%Q) /\
  Rules.lift s = NaN /\
  Rules.lift_ratio (Rules.render s) = "N/A".

(** [x >= y] between two reals that are not NaN. *)
Definition rge (x y : PyR.rfloat) : Prop :=
  match x, y with
  | Some a, Some b => (b <= a)%R
  | _, _ => False
  end.

(** A column without variance: all the values it holds are equal. *)
Definition constant (xs : list float) : Prop :=
  exists v, Forall (fun x => forall q, x = Some q -> (q == v)%Q) xs.

Definition constant_column (df : DataFrame) (c : string) : Prop :=
  exists s xs, get df c = Some s /\ to_float s = Some xs /\ constant xs.

(** A row of the correlation sheet whose coefficient is undefined. *)
Definition nan_row (row : Corr.corr_row) : Prop :=
  Corr.pearson_cell row = None /\
  Corr.abs_cell row = None /\
  Corr.direction_cell row = Corr.direction_label Corr.Negative /\
  Corr.signal_cell row = "Negligible".

(** A row of the correlation sheet whose coefficient is defined and
    lies within [-1, 1]. *)
Definition bounded_row (row : Corr.corr_row) : Prop :=
  exists r a,
    Corr.pearson_cell row = Some r /\ Corr.abs_cell row = Some a /\
    (Rabs r <= 1)%R /\ (0 <= a <= 1)%R.

(** The statistics of a column without any value. *)
Definition all_nan (r : DescStats.desc_row) : Prop :=
  DescStats.count_ r = 0%Z /\ DescStats.mean_ r = NaN /\
  DescStats.std_ r = None /\ DescStats.min_ r = NaN /\
  DescStats.p25 r = NaN /\ DescStats.p50 r = NaN /\
  DescStats.p75 r = NaN /\ DescStats.p90 r = NaN /\
  DescStats.p95 r = NaN /\ DescStats.p99 r = NaN /\
  DescStats.max_ r = NaN.

End Spec.

(* ================================================================== *)
(** * The contract of an argsort                                      *)
(* ================================================================== *)

Module SortSpec.

Section Contract.
Context {K : Type} (le : K -> K -> Prop) (dflt : K).
Variable argsort : list K -> list nat.

(** On the keys [ks] the argsort returns the positions [0 ..
    len(ks) - 1], each once, in an order that makes the keys
    ascending.  Every [kind] of [numpy.argsort] promises this much;
    only the stable kinds promise more. *)
Definition sorts_on (ks : list K) : Prop :=
  Permutation (argsort ks) (seq 0 (List.length ks)) /\
  StronglySorted le (map (fun i => nth i ks dflt) (argsort ks)).
End Contract.

(** The same, as a test on integer keys. *)
Fixpoint ascending (l : list Z) : bool :=
  match l with
  | [] => true
  | x :: r => forallb (fun y => (x <=? y)%Z) r && ascending r
  end.

Fixpoint nodup_nat (l : list nat) : bool :=
  match l with
  | [] => true
  | x :: r => negb (existsb (Nat.eqb x) r) && nodup_nat r
  end.

Definition sorts_on_b (argsort : list Z -> list nat) (ks : list Z) : bool :=
  let idx := argsort ks in
  (List.length idx =? List.length ks)%nat &&
  forallb (fun i => (i <? List.length ks)%nat) idx &&
  nodup_nat idx &&
  ascending (map (fun i => nth i ks 0%Z) idx).

End SortSpec.

Module Sums.
Definition zsum (l : list Z) : Z := fold_right Z.add 0%Z l.
End Sums.

(* ================================================================== *)
(** * Sheet 1: overview (key metrics)                                 *)
(* ================================================================== *)

Module Metrics.
Import Py Pd PdGroup.

(** The digits of a natural number in groups of three. *)
Fixpoint group3 (fuel : nat) (n : Z) : string :=
  match fuel with
  | O => str_int n
  | S f =>
      if (n <? 1000)%Z then str_int n
      else group3 f (n / 1000) ++ "," ++ zfill 3 (str_int (n mod 1000))
  end.

(** [f"{z:,}"] for an [int]. *)
Definition format_comma (z : Z) : string :=
  (if (z <? 0)%Z then "-" else "") ++
  group3 (S (Z.to_nat (Z.log2 (Z.abs z)))) (Z.abs z).


Definition total_columns (df : DataFrame) : string * string :=
  ("Total Columns / Features", str_int (Z.of_nat (List.length (columns df)))).



(** [s.nunique()]: the distinct values, nulls apart. *)
Definition nunique (s : Series) : Z :=
  Z.of_nat (List.length (unique (keep (values s)))).

Definition unique_customers (df : DataFrame) : option (string * string) :=
  s <- get df "customer_id" ;;
  Some ("Unique Customers", format_comma (nunique s)).

Definition unique_sender_accounts (df : DataFrame) : option (string * string) :=
  s <- get df "sender_account_id" ;;
  Some ("Unique Sender Accounts", format_comma (nunique s)).

Definition unique_devices (df : DataFrame) : option (string * string) :=
  s <- get df "device_id" ;;
  Some ("Unique Devices", format_comma (nunique s)).

Definition unique_transaction_types (df : DataFrame) : option (string * string) :=
  s <- get df "transaction_type" ;;
  Some ("Unique Transaction Types", str_int (nunique s)).

(** [s.unique()]: the first occurrence of each value, the null
    being one of them. *)
Fixpoint unique_values (l : list (option scalar)) : list (option scalar) :=
  match l with
  | [] => []
  | x :: r => x :: filter (fun y => negb (key_eqb x y)) (unique_values r)
  end.

(** An item that [str.join] accepts: a string. *)
Definition str_item (v : option scalar) : option string :=
  match v with
  | Some (StrKey s) => Some s
  | _ => None
  end.

(** The distinct channels, as [", ".join] reads them. *)
Definition channel_names (df : DataFrame) : option (list string) :=
  s <- get df "channel" ;;
  traverse str_item (unique_values (values s)).

(** [", ".join(df['channel'].unique())]. *)
Definition channels (df : DataFrame) : option (string * string) :=
  cs <- channel_names df ;;
  Some ("Channels", String.concat ", " cs).

(** [(df.isnull().sum()>0).sum()]. *)
Definition null_columns (df : DataFrame) : Z :=
  Z.of_nat (List.length
              (filter (fun p : string * Series => (0 <? Missing.null_total (snd p))%Z)
                      (columns df))).

(** [df.isnull().sum().sum()]. *)
Definition missing_cells (df : DataFrame) : Z :=
  Sums.zsum (map (fun p : string * Series => Missing.null_total (snd p)) (columns df)).

Definition columns_with_nulls (df : DataFrame) : string * string :=
  ("Columns with Nulls", str_int (null_columns df)).

Definition total_missing_cells (df : DataFrame) : string * string :=
  ("Total Missing Cells", format_comma (missing_cells df)).

End Metrics.

(* ================================================================== *)
(** * Sheet 6: graph features, section 1 (descriptive statistics)     *)
(* ================================================================== *)

Module GraphStats.
Import Py Pd.

(** A row of the section: the list [vals]. *)
Record stats_row := {
  feature : string;
  non_null : Z;
  mean_ : float;
  std_ : PyR.rfloat;
  min_ : float;
  p25 : float;
  median : float;
  p75 : float;
  p90 : float;
  p99 : float;
  max_ : float;
  null_pct : string
}.

(** The values of a numeric column; the order statistics of a
    [bool] or [object] column raise. *)
Definition numeric_values (c : Series) : option (list float) :=
  if is_number c then to_float c else None.

(** The body of the loop over [graph_cols]. *)
Definition stats_col (df : DataFrame) (col : string) : option stats_row :=
  c <- get df col ;;
  s <- numeric_values c ;;
  let null_pct :=
    fscale (mean (map (fun b : bool => Some (if b then 1 else 0)%Q) (isnull c))) 100 in
  Some {| feature := col;
          non_null := Z.of_nat (count s);
          mean_ := round 4 (mean s);
          std_ := PyR.round 4 (DescStats.std s);
          min_ := round 4 (DescStats.min s);
          p25 := round 4 (DescStats.quantile s (25 # 100));
          median := round 4 (DescStats.quantile s (1 # 2));
          p75 := round 4 (DescStats.quantile s (75 # 100));
          p90 := round 4 (DescStats.quantile s (90 # 100));
          p99 := round 4 (DescStats.quantile s (99 # 100));
          max_ := round 4 (DescStats.max s);
          null_pct := format_f 1 null_pct ++ "%" |}.

Definition descriptive (df : DataFrame) : option (list stats_row) :=
  traverse (stats_col df) GraphEDA.graph_cols.

(** The two sections of the sheet. *)
Definition sheet_graph_eda (df : DataFrame)
  : option (list stats_row * list GraphEDA.compare_row) :=
  s1 <- descriptive df ;;
  s2 <- GraphEDA.fraud_vs_legit df ;;
  Some (s1, s2).

End GraphStats.

(* ================================================================== *)
(** * Notions used in the proofs                                      *)
(* ================================================================== *)

(** A cell that holds a value. *)
Definition holds (x : Py.float) : Prop := exists q, x = Some q.

(** A cell that holds zero or one. *)
Definition zero_one (x : Py.float) : Prop :=
  exists q, x = Some q /\ (q == 0 \/ q == 1)%Q.

Definition b2n (b : bool) : nat := if b then 1%nat else 0%nat.

(** The comparison [list.sort] makes between two tuples of
    [rule_stats]. *)
Definition by_rate (a b : Rules.rule_stat) : bool :=
  Py.flt (Rules.f_triggered a) (Rules.f_triggered b).

(** What ties a coefficient to its column. *)
Definition coefficient_of (label : list Py.float)
           (p : string * Pd.Series) (c : string * PyR.rfloat) : Prop :=
  fst c = fst p /\
  exists xs, Pd.to_float (snd p) = Some xs /\ snd c = Corr.pearson xs label.

Section Keyed.
Context {A K : Type} (by_ : A -> option K).

(** The rows that hold a key, with their position and their key. *)
Fixpoint keyed (s : nat) (rows : list A) : list (nat * A * K) :=
  match rows with
  | [] => []
  | r :: rs =>
      match by_ r with
      | Some k => (s, r, k) :: keyed (S s) rs
      | None => keyed (S s) rs
      end
  end.

(** The rows without a key, with their position. *)
Fixpoint unkeyed (s : nat) (rows : list A) : list (nat * A) :=
  match rows with
  | [] => []
  | r :: rs =>
      match by_ r with
      | Some _ => unkeyed (S s) rs
      | None => (s, r) :: unkeyed (S s) rs
      end
  end.

Definition pos (t : nat * A * K) : nat := fst (fst t).
Definition row (t : nat * A * K) : A := snd (fst t).
Definition key_of (t : nat * A * K) : K := snd t.
End Keyed.

(** ** The argsort at which the sheets are evaluated *)

(** numpy's [argsort(kind="quicksort")] on [int64] keys. *)
Definition quicksort_int : list Z -> list nat := Np.aquicksort Z.ltb 0%Z.

(** The same on [float64] keys, rational or real. *)
Definition quicksort_float : list Q -> list nat := Np.aquicksort DescStats.qlt 0%Q.

Definition quicksort_real : list R -> list nat := Np.aquicksort PyR.ltb 0%R.

(* ================================================================== *)
(** * Frames at which the sheets are evaluated                        *)
(* ================================================================== *)

Local Open Scope string_scope.

(** The scenario of the rule sheet: [rule_a] fires on 4 of 10 rows, 3
    of them fraud, and 3 of the other 6 rows are fraud; [rule_b] and
    [rule_d] both have a fraud rate of 50% when they fire; [rule_c]
    fires on every row. *)
Definition df_rules : Pd.DataFrame :=
  {| Pd.nrows := 10;
     Pd.columns := [
       ("label",              Pd.Int64 [1; 1; 1; 0; 1; 1; 1; 0; 0; 0]);
       ("rule_b",             Pd.Int64 [1; 0; 0; 1; 0; 0; 0; 0; 0; 0]);
       ("rule_a",             Pd.Int64 [1; 1; 1; 1; 0; 0; 0; 0; 0; 0]);
       ("rule_trigger_count", Pd.Int64 [2; 1; 1; 2; 0; 0; 0; 0; 0; 0]);
       ("rule_c",             Pd.Bool (repeat true 10));
       ("rule_d",             Pd.Int64 [0; 0; 1; 0; 0; 0; 0; 1; 0; 0]);
       ("rule_e",             Pd.Int64 [0; 0; 0; 1; 0; 0; 0; 1; 1; 1])
     ] |}.


(** A frame with nulls: two columns tie at two nulls, one column has
    three, two have none. *)
Definition df_nulls : Pd.DataFrame :=
  {| Pd.nrows := 3;
     Pd.columns := [
       ("label", Pd.Int64 [1; 0; 1]);
       ("receiver_account_id", Pd.Object [None; Some "A17"; None]);
       ("beneficiary_id", Pd.Object [None; None; None]);
       ("avg_time_gap_in_out", Pd.Float64 [None; Some 30.5%Q; None]);
       ("channel", Pd.Object [Some "web"; Some "atm"; Some "web"])
     ] |}.

(** A frame with three categorical columns, one of them with nulls. *)
Definition df_cats : Pd.DataFrame :=
  {| Pd.nrows := 10;
     Pd.columns := [
       ("label", Pd.Int64 [1; 1; 1; 0; 1; 1; 1; 0; 0; 0]);
       ("channel", Pd.Object (repeat (Some "web") 10));
       ("kyc_level",
        Pd.Object [Some "low"; None; Some "high"; Some "low"; None;
                   Some "low"; Some "medium"; Some "low"; Some "low"; Some "low"]);
       ("beneficiary_type", Pd.Object (repeat None 10))
     ] |}.

(** The scenario of the overview: 10 rows, 6 of them fraud, all on the
    channel "web". *)
Definition df_overview : Pd.DataFrame :=
  {| Pd.nrows := 10;
     Pd.columns := [
       ("amount", Pd.Float64 (repeat (Some 100%Q) 10));
       ("channel", Pd.Object (repeat (Some "web") 10));
       ("label", Pd.Int64 [0; 1; 1; 0; 1; 0; 1; 1; 0; 1])
     ] |}.

(** A frame with a numeric column that holds no value at all. *)
Definition df_all_null : Pd.DataFrame :=
  {| Pd.nrows := 5;
     Pd.columns := [
       ("label", Pd.Int64 [1; 1; 1; 0; 1]);
       ("sender_in_degree_30d", Pd.Float64 [None; None; None; None; None]);
       ("amount", Pd.Float64 [Some 1%Q; Some 4%Q; None; Some 2%Q; Some 10%Q])
     ] |}.

(** A frame whose column [pep_flag] has the same value on every row,
    next to a column that varies. *)
Definition df_corr : Pd.DataFrame :=
  {| Pd.nrows := 4;
     Pd.columns := [
       ("label", Pd.Int64 [0; 1; 0; 1]);
       ("pep_flag", Pd.Int64 [0; 0; 0; 0]);
       ("amount", Pd.Float64 [Some 10%Q; Some 20%Q; Some 10%Q; Some 40%Q]);
       ("channel", Pd.Object [Some "web"; Some "atm"; Some "web"; Some "web"])
     ] |}.

(** A frame with two columns that vary and one that does not. *)
Definition df_corr_three : Pd.DataFrame :=
  {| Pd.nrows := 4;
     Pd.columns := [
       ("label", Pd.Int64 [0; 1; 0; 1]);
       ("is_night", Pd.Int64 [0; 1; 1; 1]);
       ("emulator_flag", Pd.Int64 [1; 1; 1; 1]);
       ("amount", Pd.Float64 [Some 10%Q; Some 20%Q; Some 10%Q; Some 40%Q])
     ] |}.

(** A frame in which [is_night] is uncorrelated with the label. *)
Definition df_zero : Pd.DataFrame :=
  {| Pd.nrows := 4;
     Pd.columns := [
       ("label", Pd.Int64 [0; 0; 1; 1]);
       ("is_night", Pd.Int64 [0; 1; 0; 1])
     ] |}.

(** A frame with every fraud type, in which the normal transactions
    have the amount 0 and no account per device. *)
Definition df_zero_baseline : Pd.DataFrame :=
  {| Pd.nrows := 7;
     Pd.columns := [
       ("fraud_type",
        Pd.Object [Some "normal"; Some "normal"; Some "mule_ring"; Some "layering";
                   Some "smurfing"; Some "ATO"; Some "identity_fraud"]);
       ("label", Pd.Int64 [0; 0; 1; 1; 1; 1; 1]);
       ("amount",
        Pd.Float64 [Some 0%Q; Some 0%Q; Some 500%Q; Some 1200.5%Q;
                    Some 9500%Q; Some 150000%Q; Some 0%Q]);
       ("is_night", Pd.Int64 [0; 0; 1; 1; 0; 1; 0]);
       ("devices_per_account", Pd.Int64 [1; 1; 2; 1; 1; 3; 1]);
       ("accounts_per_device", Pd.Int64 [0; 0; 4; 1; 1; 0; 2]);
       ("sender_out_degree_30d", Pd.Float64 [Some 1%Q; Some 2%Q; Some 9%Q; Some 4%Q;
                                            Some 2%Q; Some 1%Q; Some 1%Q]);
       ("shared_device_fraud_count", Pd.Float64 [Some 0%Q; Some 0%Q; Some 3%Q; Some 0%Q;
                                                Some 0%Q; Some 1%Q; Some 0%Q]);
       ("channel",
        Pd.Object [Some "web"; Some "atm"; Some "mobile"; Some "web";
                   Some "branch"; Some "web"; Some "mobile"]);
       ("transaction_type",
        Pd.Object [Some "UPI"; Some "cash_withdrawal"; Some "UPI"; Some "IMPS";
                   Some "cash_deposit"; Some "RTGS"; Some "UPI"]);
       ("rule_night_transaction", Pd.Int64 [0; 0; 1; 1; 0; 1; 0])
     ] |}.

Local Close Scope string_scope.

(* ================================================================== *)
(** * Further frames at which the sheets are evaluated                *)
(* ================================================================== *)

Local Open Scope string_scope.

(** Six transactions with their calendar features and rule
    aggregates; one trigger count is missing, one day of the week is
    given from the end of the week, one severity is not a known
    level. *)
Definition df_temporal : Pd.DataFrame :=
  {| Pd.nrows := 6;
     Pd.columns := [
       ("label", Pd.Int64 [0; 1; 1; 0; 1; 0]);
       ("hour", Pd.Int64 [23; 3; 14; 14; 17; 3]);
       ("day_of_week", Pd.Int64 [0; 6; -1; 3; 3; 5]);
       ("month", Pd.Int64 [1; 12; 6; 6; 7; 1]);
       ("rule_trigger_count",
        Pd.Float64 [Some 0%Q; Some 2%Q; None; Some 2%Q; Some 1%Q; Some 0%Q]);
       ("max_rule_severity", Pd.Int64 [0; 3; 5; 1; 3; 0])
     ] |}.

Local Close Scope string_scope.

Local Open Scope string_scope.

(** Five transactions over three channels. *)
Definition df_channels : Pd.DataFrame :=
  {| Pd.nrows := 5;
     Pd.columns := [
       ("label", Pd.Int64 [0; 1; 0; 0; 1]);
       ("channel", Pd.Object [Some "web"; Some "atm"; Some "web"; Some "mobile"; Some "atm"])
     ] |}.

Local Close Scope string_scope.

Local Open Scope string_scope.

(** Four transactions with the eighteen graph features; the column
    [sender_in_degree_30d] holds no value. *)
Definition df_graph : Pd.DataFrame :=
  {| Pd.nrows := 4;
     Pd.columns := [
       ("label", Pd.Int64 [0; 1; 0; 1]);
       ("sender_out_degree_30d", Pd.Int64 [1; 4; 2; 6]);
       ("sender_total_outflow_30d", Pd.Float64 [Some 100%Q; Some 900%Q; Some 50%Q; Some 700%Q]);
       ("sender_unique_counterparties_30d", Pd.Int64 [1; 3; 1; 5]);
       ("sender_repeat_counterparty_ratio", Pd.Float64 [Some 0%Q; Some 0.25%Q; Some 0.5%Q; None]);
       ("sender_in_degree_30d", Pd.Float64 [None; None; None; None]);
       ("sender_total_inflow_30d", Pd.Float64 [None; Some 10%Q; None; None]);
       ("receiver_in_degree_30d", Pd.Int64 [5; 1; 7; 0]);
       ("receiver_total_inflow_30d", Pd.Float64 [Some 500%Q; Some 20%Q; Some 800%Q; Some 0%Q]);
       ("receiver_unique_senders_30d", Pd.Int64 [4; 1; 6; 0]);
       ("receiver_account_outflow_30d", Pd.Float64 [Some 0%Q; Some 300%Q; Some 0%Q; Some 100%Q]);
       ("inflow_outflow_volume_balance_ratio_24h", Pd.Float64 [Some 0%Q; Some 1%Q; Some 0%Q; Some 0.5%Q]);
       ("inflow_outflow_volume_balance_ratio_7d", Pd.Float64 [Some 0.1%Q; Some 0.9%Q; Some 0.2%Q; Some 0.8%Q]);
       ("outflow_to_inflow_ratio_7d", Pd.Float64 [Some 1%Q; Some 3%Q; Some 1%Q; Some 2%Q]);
       ("devices_per_account", Pd.Int64 [1; 2; 1; 3]);
       ("accounts_per_device", Pd.Int64 [1; 5; 1; 2]);
       ("device_shared_high_risk_ratio", Pd.Float64 [Some 0%Q; Some 0.5%Q; Some 0%Q; Some 0.25%Q]);
       ("shared_device_fraud_count", Pd.Float64 [Some 0%Q; Some 2%Q; Some 0%Q; Some 1%Q]);
       ("avg_time_gap_in_out", Pd.Float64 [Some 3600%Q; Some 30%Q; None; Some 45%Q])
     ] |}.

Local Close Scope string_scope.

Local Open Scope string_scope.

(** A frame that has normal transactions and one account takeover,
    and no transaction of the other fraud types. *)
Definition df_two_types : Pd.DataFrame :=
  {| Pd.nrows := 3;
     Pd.columns := [
       ("fraud_type", Pd.Object [Some "normal"; Some "ATO"; Some "normal"]);
       ("label", Pd.Int64 [0; 1; 0]);
       ("amount", Pd.Float64 [Some 10%Q; Some 900%Q; Some 25%Q]);
       ("is_night", Pd.Int64 [0; 1; 0]);
       ("devices_per_account", Pd.Int64 [1; 3; 1]);
       ("accounts_per_device", Pd.Int64 [1; 1; 2]);
       ("sender_out_degree_30d", Pd.Int64 [1; 7; 2]);
       ("shared_device_fraud_count", Pd.Int64 [0; 2; 0]);
       ("channel", Pd.Object [Some "web"; Some "web"; Some "atm"]);
       ("transaction_type", Pd.Object [Some "UPI"; Some "RTGS"; Some "UPI"])
     ] |}.

(** Four layering transactions and seven rule columns, one of which
    holds no value on these transactions. *)
Definition df_seven_rules : Pd.DataFrame :=
  {| Pd.nrows := 5;
     Pd.columns := [
       ("fraud_type", Pd.Object [Some "layering"; Some "layering"; Some "normal";
                                 Some "layering"; Some "layering"]);
       ("label", Pd.Int64 [1; 1; 0; 1; 1]);
       ("rule_night_transaction", Pd.Int64 [1; 1; 0; 0; 0]);
       ("rule_structuring", Pd.Int64 [0; 0; 1; 0; 0]);
       ("rule_trigger_count", Pd.Int64 [3; 4; 1; 2; 2]);
       ("rule_rapid_passthrough", Pd.Int64 [1; 1; 0; 1; 1]);
       ("rule_new_device", Pd.Float64 [None; None; Some 0%Q; None; None]);
       ("rule_high_risk_beneficiary", Pd.Int64 [1; 0; 0; 0; 0]);
       ("rule_offshore", Pd.Int64 [0; 1; 0; 1; 1]);
       ("rule_velocity", Pd.Int64 [1; 1; 0; 1; 0])
     ] |}.

Local Close Scope string_scope.

Local Open Scope string_scope.


Local Close Scope string_scope.

(* ================================================================== *)
(** * Further notions used in the proofs                              *)
(* ================================================================== *)

(** [a] may stand before [b] in a descending order that puts the NaNs
    last. *)
Definition nan_last_descending (a b : Py.float) : Prop :=
  match a, b with
  | Some x, Some y => (y <= x)%Q
  | None, Some _ => False
  | _, None => True
  end.

(** [sub[rule_cols].mean()]: the mean of every rule column over the
    transactions of a fraud type, in the order of the rule columns. *)
Definition rule_means (df : Pd.DataFrame) (ft : string)
  : option (list (string * Py.float)) :=
  ftc <- Pd.get df "fraud_type"%string ;;
  Pd.traverse (fun c => xs <- FraudTypes.column_of df (FraudTypes.is_type ftc ft) c ;;
                        Some (c, Pd.mean xs))
              (Rules.rule_cols df).

(** The keys handed to the argsort for the descending sort of these
    means: the means that are not NaN, last rule first. *)
Definition top_rules_keys (df : Pd.DataFrame) (ft : string) : list Q :=
  match rule_means df ft with
  | Some means => rev (PdSort.keep (map snd means))
  | None => []
  end.

(** The rank of a signal strength of the correlation sheet, the
    strongest highest. *)
Definition signal_level (s : string) : nat :=
  if String.eqb s "Very Strong" then 4
  else if String.eqb s "Strong" then 3
  else if String.eqb s "Moderate" then 2
  else if String.eqb s "Weak" then 1
  else 0.

(** The rank of a signal strength of the rule sheet. *)
Definition strength_level (s : Rules.strength) : nat :=
  match s with
  | Rules.VeryHigh => 3
  | Rules.High => 2
  | Rules.Medium => 1
  | Rules.Low => 0
  end.

(** The rank of a signal strength as the rule sheet shows it. *)
Definition strength_cell_level (s : string) : nat :=
  if String.eqb s (Rules.strength_label Rules.VeryHigh) then 3
  else if String.eqb s (Rules.strength_label Rules.High) then 2
  else if String.eqb s (Rules.strength_label Rules.Medium) then 1
  else 0.

(* ================================================================== *)
(** * Facts about the embedded library functions                      *)
(* ================================================================== *)

Local Close Scope string_scope.

Lemma bind_some {A B : Type} (x : option A) (k : A -> option B) (b : B) :
  Pd.bind x k = Some b -> exists a, x = Some a /\ k a = Some b.
Proof. destruct x as [a|]; simpl; [eauto | discriminate]. Qed.

Section OptionFacts.
Context {A B : Type}.

Lemma traverse_some (f : A -> option B) (l : list A) (bs : list B) :
  Pd.traverse f l = Some bs -> Forall2 (fun a b => f a = Some b) l bs.
Proof.
  revert bs. induction l as [|a l IH]; simpl; intros bs H.
  - injection H as <-. constructor.
  - apply bind_some in H as (b & Hb & H).
    destruct (Pd.traverse f l) as [bs'|] eqn:E; simpl in H; [|discriminate].
    injection H as <-. constructor; auto.
Qed.

Lemma traverse_total (f : A -> option B) (l : list A) :
  Forall (fun a => exists b, f a = Some b) l ->
  exists bs, Pd.traverse f l = Some bs.
Proof.
  induction 1 as [|a l (b & Hb) _ (bs & Hbs)]; simpl.
  - eauto.
  - rewrite Hb, Hbs. simpl. eauto.
Qed.
End OptionFacts.

(** ** The stable sort standing for [list.sort] *)

Section StableSortFacts.
Context {A : Type} (lt : A -> A -> bool).

Lemma insert_sorted_perm (x : A) (l : list A) :
  Permutation (Py.insert_sorted lt x l) (x :: l).
Proof.
  induction l as [|y r IH]; simpl; [reflexivity|].
  destruct (lt y x); [|reflexivity].
  rewrite IH. apply perm_swap.
Qed.

Lemma stable_sort_perm (l : list A) : Permutation (Py.stable_sort lt l) l.
Proof.
  induction l as [|x r IH]; simpl; [reflexivity|].
  rewrite insert_sorted_perm. now constructor.
Qed.

Lemma list_sort_perm (reverse : bool) (l : list A) :
  Permutation (Py.list_sort lt reverse l) l.
Proof.
  unfold Py.list_sort. destruct reverse; [|apply stable_sort_perm].
  rewrite <- Permutation_rev, stable_sort_perm. symmetry. apply Permutation_rev.
Qed.

(** Stability: the entries selected by a predicate whose members are
    never strictly ordered keep their order. *)
Section Stability.
Variable p : A -> bool.
Hypothesis tie : forall x y, p x = true -> p y = true -> lt y x = false.

Lemma insert_sorted_filter (x : A) (l : list A) :
  filter p (Py.insert_sorted lt x l) = filter p (x :: l).
Proof.
  induction l as [|y r IH]; [reflexivity|].
  simpl Py.insert_sorted. destruct (lt y x) eqn:E; [|reflexivity].
  simpl in *. rewrite IH.
  destruct (p x) eqn:Px, (p y) eqn:Py; try reflexivity.
  rewrite (tie x y Px Py) in E. discriminate.
Qed.

Lemma stable_sort_filter (l : list A) :
  filter p (Py.stable_sort lt l) = filter p l.
Proof.
  induction l as [|x r IH]; [reflexivity|].
  simpl Py.stable_sort. rewrite insert_sorted_filter. simpl. now rewrite IH.
Qed.

Lemma filter_rev (l : list A) : filter p (rev l) = rev (filter p l).
Proof.
  induction l as [|x r IH]; [reflexivity|].
  simpl. rewrite filter_app, IH. simpl.
  destruct (p x); simpl; [reflexivity | now rewrite app_nil_r].
Qed.

Lemma list_sort_filter (reverse : bool) (l : list A) :
  filter p (Py.list_sort lt reverse l) = filter p l.
Proof.
  unfold Py.list_sort. destruct reverse; [|apply stable_sort_filter].
  now rewrite filter_rev, stable_sort_filter, filter_rev, rev_involutive.
Qed.
End Stability.

(** Order: on a domain where [lt] is a strict weak order the result
    is sorted. *)
Section Order.
Variable dom : A -> Prop.
Hypothesis asym : forall x y, dom x -> dom y -> lt x y = true -> lt y x = false.
Hypothesis negtrans :
  forall x y z, dom x -> dom y -> dom z ->
                lt x y = false -> lt y z = false -> lt x z = false.

Lemma insert_sorted_dom (x : A) (l : list A) :
  dom x -> Forall dom l -> Forall dom (Py.insert_sorted lt x l).
Proof.
  intros Hx Hl. eapply Permutation_Forall.
  - symmetry. apply insert_sorted_perm.
  - now constructor.
Qed.

Lemma insert_sorted_sorted (x : A) (l : list A) :
  dom x -> Forall dom l -> StronglySorted (Py.not_after lt) l ->
  StronglySorted (Py.not_after lt) (Py.insert_sorted lt x l).
Proof.
  intros Hx Hl Hs. induction Hs as [|y r Hs IH Hy]; simpl.
  - repeat constructor.
  - inversion Hl as [|? ? Dy Dr]; subst.
    destruct (lt y x) eqn:E.
    + constructor; [auto|].
      eapply Permutation_Forall; [symmetry; apply insert_sorted_perm|].
      constructor; [|exact Hy].
      unfold Py.not_after. now apply asym.
    + constructor; [now constructor|].
      constructor; [exact E|].
      rewrite Forall_forall in *. intros z Hz.
      unfold Py.not_after in *. apply (negtrans z y x); auto.
Qed.

Lemma stable_sort_sorted (l : list A) :
  Forall dom l ->
  StronglySorted (Py.not_after lt) (Py.stable_sort lt l) /\
  Forall dom (Py.stable_sort lt l).
Proof.
  induction 1 as [|x r Hx Hr [IHs IHd]]; simpl.
  - split; constructor.
  - split; [now apply insert_sorted_sorted | now apply insert_sorted_dom].
Qed.
End Order.
End StableSortFacts.

Lemma StronglySorted_snoc {A} (R : A -> A -> Prop) (l : list A) (x : A) :
  StronglySorted R l -> Forall (fun y => R y x) l -> StronglySorted R (l ++ [x]).
Proof.
  induction 1 as [|y r Hs IH Hy]; simpl; intros Hx.
  - repeat constructor.
  - inversion Hx; subst. constructor; [auto|].
    apply Forall_app; split; [exact Hy | repeat constructor; assumption].
Qed.

Lemma StronglySorted_rev {A} (R : A -> A -> Prop) (l : list A) :
  StronglySorted R l -> StronglySorted (fun a b => R b a) (rev l).
Proof.
  induction 1 as [|x r Hs IH Hx]; simpl; [constructor|].
  apply StronglySorted_snoc; [exact IH|].
  rewrite Forall_forall in *. intros y Hy. apply Hx. now apply in_rev.
Qed.

Lemma StronglySorted_weaken {A} (R S : A -> A -> Prop) (l : list A) :
  (forall a b, In a l -> In b l -> R a b -> S a b) ->
  StronglySorted R l -> StronglySorted S l.
Proof.
  intros H Hs. induction Hs as [|x r Hs IH Hx]; constructor.
  - apply IH. intros a b Ha Hb. apply H; now right.
  - rewrite Forall_forall in *. intros y Hy. apply H; [now left | now right | auto].
Qed.

(** ** Frames, columns and reductions *)

Section FrameFacts.
Import Py Pd.

Lemma get_in (df : DataFrame) (c : string) (s : Series) :
  get df c = Some s -> In (c, s) (columns df).
Proof.
  unfold get. destruct (find _ _) as [[c' s']|] eqn:E; simpl; [|discriminate].
  intros [= <-]. apply find_some in E as [Hin Heq]. simpl in Heq.
  apply String.eqb_eq in Heq. now subst.
Qed.

Lemma in_names_get (df : DataFrame) (c : string) :
  In c (column_names df) -> exists s, get df c = Some s.
Proof.
  unfold column_names, get. intros Hin. apply in_map_iff in Hin as ([c' s] & <- & Hin).
  destruct (find _ _) as [p|] eqn:E; simpl; [eauto|].
  apply (find_none _ _ E) in Hin. simpl in Hin.
  now rewrite String.eqb_refl in Hin.
Qed.

Lemma well_formed_len (df : DataFrame) (c : string) (s : Series) :
  well_formed df = true -> get df c = Some s -> len s = nrows df.
Proof.
  unfold well_formed. intros H Hg. apply andb_prop in H as [_ H].
  rewrite forallb_forall in H. apply get_in in Hg. apply H in Hg.
  now apply Nat.eqb_eq in Hg.
Qed.

Lemma to_float_length (s : Series) (xs : list float) :
  to_float s = Some xs -> List.length xs = len s.
Proof.
  destruct s; simpl; intros [= <-]; now rewrite ?length_map.
Qed.

Lemma loc_Forall {A} (P : A -> Prop) (mask : list bool) (xs : list A) :
  Forall P xs -> Forall P (loc mask xs).
Proof.
  intros H. revert mask. induction H as [|x r Hx Hr IH]; intros [|m mask]; simpl;
    try constructor.
  destruct m; [constructor|]; auto.
Qed.

Lemma loc_nil_mask {A} (mask : list bool) (xs : list A) :
  List.length mask = List.length xs -> loc mask xs = [] ->
  Forall (fun m => m = false) mask.
Proof.
  revert xs. induction mask as [|m mask IH]; intros [|x xs]; simpl;
    try discriminate; [constructor|].
  intros [= Hlen]. destruct m; [discriminate|].
  intros H. constructor; eauto.
Qed.

Lemma loc_length_true {A} (mask : list bool) (xs : list A) :
  List.length mask = List.length xs ->
  List.length (loc mask xs) = List.length (filter (fun b : bool => b) mask).
Proof.
  revert xs. induction mask as [|m mask IH]; intros [|x xs]; simpl;
    try discriminate; [reflexivity|].
  intros [= Hlen]. destruct m; simpl; auto.
Qed.

Lemma dropna_holds (xs : list float) :
  Forall holds xs -> List.length (dropna xs) = List.length xs.
Proof.
  induction 1 as [|x r [q ->] _ IH]; simpl; [reflexivity|]. now rewrite IH.
Qed.

Lemma dropna_Forall (P : Q -> Prop) (xs : list float) :
  Forall (fun x => forall q, x = Some q -> P q) xs -> Forall P (dropna xs).
Proof.
  induction 1 as [|x r Hx _ IH]; simpl; [constructor|].
  destruct x as [q|]; simpl; [constructor|]; auto.
Qed.

Lemma qsum_nonneg (l : list Q) : Forall (fun q => 0 <= q)%Q l -> (0 <= qsum l)%Q.
Proof.
  induction 1 as [|q r Hq _ IH]; simpl; [apply Qle_refl|].
  change 0%Q with (0 + 0)%Q. now apply Qplus_le_compat.
Qed.

Lemma qsum_zero (l : list Q) : Forall (fun q => q == 0)%Q l -> (qsum l == 0)%Q.
Proof.
  induction 1 as [|q r Hq _ IH]; simpl; [reflexivity|]. rewrite Hq, IH. reflexivity.
Qed.

Lemma mean_none (xs : list float) : mean xs = None <-> dropna xs = [].
Proof.
  unfold mean. destruct (dropna xs); split; intro H; try reflexivity; discriminate.
Qed.

Lemma mean_nonneg (xs : list float) (m : Q) :
  Forall (fun x => forall q, x = Some q -> 0 <= q)%Q xs ->
  mean xs = Some m -> (0 <= m)%Q.
Proof.
  intros H. apply dropna_Forall in H. unfold mean.
  destruct (dropna xs) as [|q l] eqn:E; [discriminate|].
  intros [= <-]. apply Qle_shift_div_l.
  - simpl List.length. unfold Qlt. simpl. lia.
  - rewrite Qmult_0_l. exact (qsum_nonneg (q :: l) H).
Qed.

Lemma zero_one_holds (x : float) : zero_one x -> holds x.
Proof. intros (q & -> & _). now exists q. Qed.

Lemma binary_to_float (s : Series) :
  Schema.binary s = true ->
  exists xs, to_float s = Some xs /\ Forall zero_one xs.
Proof.
  destruct s as [xs|xs|xs|xs]; simpl; intros H; try discriminate.
  - eexists; split; [reflexivity|]. rewrite forallb_forall in H.
    apply Forall_forall. intros x Hx. apply in_map_iff in Hx as (z & <- & Hz).
    exists (inject_Z z). split; [reflexivity|].
    apply H in Hz. apply orb_prop in Hz as [Hz|Hz]; apply Z.eqb_eq in Hz; subst;
      [left | right]; reflexivity.
  - exists xs. split; [reflexivity|]. rewrite forallb_forall in H.
    apply Forall_forall. intros x Hx. apply H in Hx.
    destruct x as [q|]; [|discriminate]. exists q. split; [reflexivity|].
    apply orb_prop in Hx as [Hx|Hx]; apply Qeq_bool_iff in Hx; auto.
  - eexists; split; [reflexivity|].
    apply Forall_forall. intros x Hx. apply in_map_iff in Hx as (b & <- & _).
    destruct b; eexists; split; try reflexivity; [right | left]; reflexivity.
Qed.

Lemma binary_column_get (df : DataFrame) (c : string) :
  Schema.binary_column df c = true ->
  exists s xs, get df c = Some s /\ to_float s = Some xs /\ Forall zero_one xs.
Proof.
  unfold Schema.binary_column. destruct (get df c) as [s|]; [|discriminate].
  intros H. apply binary_to_float in H as (xs & H1 & H2). eauto.
Qed.

Lemma int_zero (q : Q) : (q == 0)%Q -> int q = 0%Z.
Proof.
  unfold Qeq, int. simpl. intros H. rewrite Z.mul_1_r in H. rewrite H.
  apply Z.quot_0_l. discriminate.
Qed.

(** A binary column that is nowhere equal to one sums to zero. *)
Lemma sum_zero_one_untriggered (xs : list float) :
  Forall zero_one xs ->
  Forall (fun m => m = false) (eq_scalar xs 1) ->
  (sum xs == 0)%Q.
Proof.
  intros Hb Hm. unfold sum. apply qsum_zero. apply dropna_Forall.
  unfold eq_scalar in Hm. rewrite Forall_map in Hm.
  rewrite Forall_forall in *. intros x Hx q ->.
  specialize (Hm _ Hx). simpl in Hm.
  destruct (Hb _ Hx) as (q' & [= <-] & [H0|H1]); [exact H0|].
  apply Qeq_bool_iff in H1. congruence.
Qed.
End FrameFacts.

(** ** Sheet 8: the per-rule statistics *)

Section RulesFacts.
Import Py Pd Rules.

Lemma rule_cols_in (df : DataFrame) (c : string) :
  In c (rule_cols df) -> In c (column_names df).
Proof. unfold rule_cols. intros H. now apply filter_In in H. Qed.

(** The loop body on a binary rule column of a labelled frame. *)
Lemma rule_stat_of_binary (df : DataFrame) (c : string) :
  Schema.labelled df = true ->
  Schema.binary_column df c = true ->
  exists s, rule_stat_of df c = Some s /\ rule s = c /\
            holds (f_triggered s) /\
            (Spec.lift_is_ratio s \/ Spec.lift_is_sentinel s).
Proof.
  intros Hl Hc. apply andb_prop in Hl as [Hwf Hlab].
  apply binary_column_get in Hc as (s & xs & Hs & Hxs & Bxs).
  apply binary_column_get in Hlab as (l & ls & Hl & Hls & Bls).
  assert (Hlen : List.length (eq_scalar xs 1) = List.length ls).
  { unfold eq_scalar. rewrite length_map. transitivity (nrows df).
    - etransitivity; [exact (to_float_length _ _ Hxs)|].
      exact (well_formed_len _ _ _ Hwf Hs).
    - symmetry. etransitivity; [exact (to_float_length _ _ Hls)|].
      exact (well_formed_len _ _ _ Hwf Hl). }
  assert (Hholds : Forall holds ls).
  { eapply Forall_impl; [|exact Bls]. apply zero_one_holds. }
  assert (Hpos : Forall (fun x => forall q, x = Some q -> 0 <= q)%Q ls).
  { eapply Forall_impl; [|exact Bls]. intros x (q & -> & [H|H]) q' [= <-];
      rewrite H; discriminate. }
  unfold rule_stat_of. rewrite Hs. simpl. rewrite Hxs. simpl.
  rewrite Hl. simpl. rewrite Hls. simpl.
  eexists. split; [reflexivity|]. split; [reflexivity|].
  (* the fraud rate when triggered holds a value *)
  assert (Hft : holds (if (int (sum xs) >? 0)%Z
                       then fscale (mean (loc (eq_scalar xs 1) ls)) 100
                       else Some 0%Q)).
  { destruct (int (sum xs) >? 0)%Z eqn:Hgt; [|now eexists].
    destruct (mean (loc (eq_scalar xs 1) ls)) as [m|] eqn:Hm; [now eexists|].
    exfalso. apply mean_none in Hm.
    assert (Hnil : loc (eq_scalar xs 1) ls = []).
    { apply length_zero_iff_nil.
      rewrite <- (dropna_holds (loc (eq_scalar xs 1) ls)), Hm; [reflexivity|].
      now apply loc_Forall. }
    apply loc_nil_mask in Hnil; [|exact Hlen].
    apply sum_zero_one_untriggered in Hnil; [|exact Bxs].
    rewrite (int_zero _ Hnil) in Hgt. discriminate. }
  split; [exact Hft|]. simpl.
  destruct Hft as [ft Hft]. rewrite Hft.
  destruct (mean (loc (eq_scalar xs 0) ls)) as [m|] eqn:Hm; simpl.
  - assert (Hm0 : (0 <= m)%Q).
    { apply (mean_nonneg (loc (eq_scalar xs 0) ls)); [|exact Hm].
      now apply loc_Forall. }
    destruct (Qle_bool (m * 100) 0) eqn:Hle; simpl.
    + right. split; [|split; reflexivity].
      right. exists (m * 100)%Q. split; [reflexivity|].
      apply Qle_bool_iff in Hle. apply Qle_antisym; [exact Hle|].
      apply Qmult_le_0_compat; [exact Hm0 | discriminate].
    + left. exists ft, (m * 100)%Q. repeat split; try reflexivity.
      intros H0. rewrite H0 in Hle. discriminate.
  - right. split; [now left | split; reflexivity].
Qed.

Lemma rule_stats_unsorted_binary (df : DataFrame) :
  Schema.labelled df = true ->
  Schema.rules_binary df = true ->
  exists unsorted,
    rule_stats_unsorted df = Some unsorted /\
    map rule unsorted = rule_cols df /\
    Forall (fun s => holds (f_triggered s)) unsorted /\
    Forall (fun s => Spec.lift_is_ratio s \/ Spec.lift_is_sentinel s) unsorted.
Proof.
  intros Hl Hr. unfold Schema.rules_binary in Hr. rewrite forallb_forall in Hr.
  unfold rule_stats_unsorted.
  induction (rule_cols df) as [|c cs IH]; simpl.
  - exists []. repeat split; constructor.
  - destruct (rule_stat_of_binary df c Hl) as (s & Hs & Hn & Hft & Hlift).
    { apply Hr. now left. }
    destruct IH as (rest & Hrest & Hnames & Hfts & Hlifts).
    { intros x Hx. apply Hr. now right. }
    rewrite Hs, Hrest. simpl. exists (s :: rest).
    split; [reflexivity|]. split; [simpl; congruence|].
    split; constructor; assumption.
Qed.

Lemma by_rate_asym (x y : rule_stat) :
  holds (f_triggered x) -> holds (f_triggered y) ->
  by_rate x y = true -> by_rate y x = false.
Proof.
  unfold by_rate. intros [a ->] [b ->]. simpl.
  destruct (Qle_bool b a) eqn:E1; [discriminate|]. intros _.
  destruct (Qle_bool a b) eqn:E2; [reflexivity|]. exfalso.
  destruct (Qlt_le_dec a b) as [H|H].
  - apply Qlt_le_weak in H. apply Qle_bool_iff in H. congruence.
  - apply Qle_bool_iff in H. congruence.
Qed.

Lemma by_rate_negtrans (x y z : rule_stat) :
  holds (f_triggered x) -> holds (f_triggered y) -> holds (f_triggered z) ->
  by_rate x y = false -> by_rate y z = false -> by_rate x z = false.
Proof.
  unfold by_rate. intros [a ->] [b ->] [c ->]. simpl.
  rewrite !negb_false_iff, !Qle_bool_iff. intros H1 H2.
  now apply Qle_trans with b.
Qed.
End RulesFacts.

Section RulesSorted.
Import Py Pd Rules.

(** Sorting tuples that all hold a rate puts them in descending
    order of that rate. *)
Lemma list_sort_by_rate_descending (l : list rule_stat) :
  Forall (fun s => holds (f_triggered s)) l ->
  StronglySorted (fun a b => Spec.fge (f_triggered a) (f_triggered b))
                 (list_sort by_rate true l).
Proof.
  intros Hd. unfold list_sort.
  assert (Hrev : Forall (fun s => holds (f_triggered s)) (rev l)).
  { rewrite Forall_forall in *. intros x Hx. apply Hd. now apply in_rev. }
  destruct (stable_sort_sorted by_rate _ by_rate_asym by_rate_negtrans _ Hrev)
    as [Hs Hdom].
  apply StronglySorted_rev in Hs.
  eapply StronglySorted_weaken; [|exact Hs].
  intros a b Ha Hb. unfold Py.not_after, by_rate.
  rewrite Forall_forall in Hdom.
  apply in_rev in Ha, Hb.
  destruct (Hdom _ Ha) as [qa ->], (Hdom _ Hb) as [qb ->]. simpl.
  rewrite negb_false_iff. now intros H%Qle_bool_iff.
Qed.

Lemma rate_is_tie (k : Q) (x y : rule_stat) :
  Spec.rate_is k x = true -> Spec.rate_is k y = true -> by_rate y x = false.
Proof.
  unfold Spec.rate_is, by_rate.
  destruct (f_triggered x) as [a|], (f_triggered y) as [b|]; try discriminate.
  intros Ha%Qeq_bool_iff Hb%Qeq_bool_iff. simpl.
  rewrite negb_false_iff. apply Qle_bool_iff. rewrite Ha, Hb. apply Qle_refl.
Qed.
End RulesSorted.

(** ** [sort_values] under the contract of the argsort *)

Section TakeFacts.
Import PdSort.
Context {A : Type}.

Lemma take_app (rows : list A) (p q : list nat) :
  take rows (p ++ q) = take rows p ++ take rows q.
Proof. unfold take. apply flat_map_app. Qed.

Lemma take_seq_from (pre rows : list A) :
  take (pre ++ rows) (seq (List.length pre) (List.length rows)) = rows.
Proof.
  revert pre. induction rows as [|r rows IH]; intros pre; [reflexivity|].
  simpl. rewrite nth_error_app2, Nat.sub_diag by lia. simpl. f_equal.
  specialize (IH (pre ++ [r])). rewrite length_app, <- app_assoc in IH.
  simpl in IH. rewrite Nat.add_1_r in IH. exact IH.
Qed.

Lemma take_seq (rows : list A) : take rows (seq 0 (List.length rows)) = rows.
Proof. exact (take_seq_from [] rows). Qed.

Lemma take_perm (rows : list A) (p q : list nat) :
  Permutation p q -> Permutation (take rows p) (take rows q).
Proof. intros H. unfold take. now apply Permutation_flat_map. Qed.

Lemma take_rev (rows : list A) (p : list nat) :
  take rows (rev p) = rev (take rows p).
Proof.
  induction p as [|i p IH]; [reflexivity|].
  simpl. rewrite take_app, IH. simpl.
  destruct (nth_error rows i); simpl; [reflexivity | now rewrite app_nil_r].
Qed.

Lemma take_map {B} (f : A -> B) (rows : list A) (p : list nat) :
  take (map f rows) p = map f (take rows p).
Proof.
  induction p as [|i p IH]; [reflexivity|].
  simpl. rewrite IH, nth_error_map.
  destruct (nth_error rows i); reflexivity.
Qed.

Lemma take_idx_take (a : list nat) (p : list nat) :
  Forall (fun i => i < List.length a)%nat p -> take_idx a p = take a p.
Proof.
  induction 1 as [|i p Hi _ IH]; [reflexivity|].
  simpl. rewrite IH.
  destruct (nth_error a i) as [x|] eqn:E.
  - now rewrite (nth_error_nth _ _ _ E).
  - apply nth_error_None in E. lia.
Qed.

(** Reading a default-valued [nth] along positions in range. *)
Lemma map_nth_take (d : A) (rows : list A) (p : list nat) :
  Forall (fun i => i < List.length rows)%nat p ->
  map (fun i => nth i rows d) p = take rows p.
Proof.
  induction 1 as [|i p Hi _ IH]; [reflexivity|].
  simpl. rewrite IH.
  destruct (nth_error rows i) as [x|] eqn:E.
  - now rewrite (nth_error_nth _ _ _ E).
  - apply nth_error_None in E. lia.
Qed.
End TakeFacts.

Lemma perm_seq_bound (p : list nat) (n : nat) :
  Permutation p (seq 0 n) -> Forall (fun i => i < n)%nat p.
Proof.
  intros H. apply Forall_forall. intros i Hi.
  apply (Permutation_in _ H) in Hi. apply in_seq in Hi. lia.
Qed.

Section SortValuesFacts.
Import Pd PdSort.
Context {A K : Type} (by_ : A -> option K).

Lemma keyed_idx (s : nat) (rows : list A) :
  loc (map negb (map isna (map by_ rows))) (seq s (List.length rows))
  = map pos (keyed by_ s rows).
Proof.
  revert s. induction rows as [|r rs IH]; intros s; [reflexivity|].
  simpl. destruct (by_ r); simpl; now rewrite IH.
Qed.

Lemma unkeyed_idx (s : nat) (rows : list A) :
  loc (map isna (map by_ rows)) (seq s (List.length rows))
  = map fst (unkeyed by_ s rows).
Proof.
  revert s. induction rows as [|r rs IH]; intros s; [reflexivity|].
  simpl. destruct (by_ r); simpl; now rewrite IH.
Qed.

Lemma keyed_keys (s : nat) (rows : list A) :
  keep (map by_ rows) = map key_of (keyed by_ s rows).
Proof.
  revert s. induction rows as [|r rs IH]; intros s; [reflexivity|].
  simpl. destruct (by_ r); simpl; now rewrite <- (IH (S s)).
Qed.

Lemma keyed_rows (s : nat) (rows : list A) :
  map row (keyed by_ s rows) = filter (fun r => negb (isna (by_ r))) rows.
Proof.
  revert s. induction rows as [|r rs IH]; intros s; [reflexivity|].
  simpl. destruct (by_ r); simpl; now rewrite IH.
Qed.

Lemma unkeyed_rows (s : nat) (rows : list A) :
  map snd (unkeyed by_ s rows) = filter (fun r => isna (by_ r)) rows.
Proof.
  revert s. induction rows as [|r rs IH]; intros s; [reflexivity|].
  simpl. destruct (by_ r); simpl; now rewrite IH.
Qed.

Lemma keyed_valid (pre rows : list A) :
  Forall (fun t => nth_error (pre ++ rows) (pos t) = Some (row t) /\
                   by_ (row t) = Some (key_of t))
         (keyed by_ (List.length pre) rows).
Proof.
  revert pre. induction rows as [|r rs IH]; intros pre; [constructor|].
  specialize (IH (pre ++ [r])). rewrite length_app, <- app_assoc in IH.
  simpl in IH. rewrite Nat.add_1_r in IH.
  simpl. destruct (by_ r) eqn:E; [constructor|]; try exact IH.
  unfold pos, row, key_of. simpl.
  rewrite nth_error_app2, Nat.sub_diag by lia. simpl. auto.
Qed.

Lemma unkeyed_valid (pre rows : list A) :
  Forall (fun t => nth_error (pre ++ rows) (fst t) = Some (snd t))
         (unkeyed by_ (List.length pre) rows).
Proof.
  revert pre. induction rows as [|r rs IH]; intros pre; [constructor|].
  specialize (IH (pre ++ [r])). rewrite length_app, <- app_assoc in IH.
  simpl in IH. rewrite Nat.add_1_r in IH.
  simpl. destruct (by_ r) eqn:E; [|constructor]; try exact IH.
  simpl. rewrite nth_error_app2, Nat.sub_diag by lia. reflexivity.
Qed.

Lemma take_valid {B} (f : B -> nat) (g : B -> A) (rows : list A) (l : list B) :
  Forall (fun t => nth_error rows (f t) = Some (g t)) l ->
  take rows (map f l) = map g l.
Proof.
  induction 1 as [|t l Ht _ IH]; [reflexivity|].
  simpl. rewrite Ht. simpl. now rewrite IH.
Qed.

(** What [sort_values(ascending=False)] returns when the argsort
    keeps its contract on the keys it is given: the rows that hold a
    key, in descending order of the key, then the rows without a key
    in their original order. *)
Theorem sort_values_descending
        (le : K -> K -> Prop) (dflt : K) (argsort : list K -> list nat)
        (rows : list A) :
  SortSpec.sorts_on le dflt argsort (rev (keep (map by_ rows))) ->
  exists front ks,
    sort_values argsort by_ false rows
    = front ++ filter (fun r => isna (by_ r)) rows /\
    Permutation front (filter (fun r => negb (isna (by_ r))) rows) /\
    map by_ front = map Some ks /\
    StronglySorted (fun a b => le b a) ks.
Proof.
  intros [Hperm Hsorted].
  set (T := rev (keyed by_ 0 rows)).
  assert (Hkeys : rev (keep (map by_ rows)) = map key_of T).
  { unfold T. rewrite (keyed_keys 0), map_rev. reflexivity. }
  rewrite Hkeys in Hperm, Hsorted. rewrite length_map in Hperm.
  set (perm := argsort (map key_of T)) in *.
  assert (Hbound : Forall (fun i => i < List.length T)%nat perm)
    by now apply perm_seq_bound.
  assert (HT : Permutation (take T perm) T).
  { rewrite (take_perm T _ _ Hperm). now rewrite take_seq. }
  assert (Hvalid : Forall (fun t => nth_error rows (pos t) = Some (row t) /\
                                    by_ (row t) = Some (key_of t)) (take T perm)).
  { eapply Permutation_Forall; [symmetry; exact HT|].
    unfold T. apply Forall_rev. apply (keyed_valid [] rows). }
  exists (map row (rev (take T perm))), (rev (map key_of (take T perm))).
  split; [|split; [|split]].
  - unfold sort_values, nargsort.
    rewrite length_map, (keyed_idx 0), (unkeyed_idx 0), Hkeys.
    fold perm. rewrite <- map_rev. fold T.
    rewrite take_idx_take by (now rewrite length_map).
    rewrite take_map, <- map_rev, take_app. f_equal.
    + apply take_valid. apply Forall_rev.
      eapply Forall_impl; [|exact Hvalid]. now intros t [H _].
    + rewrite <- (unkeyed_rows 0). apply take_valid. apply (unkeyed_valid [] rows).
  - rewrite <- (keyed_rows 0). apply Permutation_map.
    rewrite <- Permutation_rev, HT. unfold T. symmetry. apply Permutation_rev.
  - rewrite map_map, <- !map_rev, map_map. apply map_ext_Forall.
    apply Forall_rev. eapply Forall_impl; [|exact Hvalid]. now intros t [_ H].
  - rewrite <- take_map.
    rewrite <- (map_nth_take dflt) by (now rewrite length_map).
    now apply StronglySorted_rev.
Qed.
End SortValuesFacts.

(** ** The test of the argsort contract on integer keys *)

Section SortsOnB.
Import SortSpec.

Lemma ascending_sorted (l : list Z) :
  ascending l = true -> StronglySorted Z.le l.
Proof.
  induction l as [|x r IH]; simpl; [constructor|].
  intros H. apply andb_prop in H as [Hx Hr]. constructor; [auto|].
  rewrite forallb_forall in Hx. apply Forall_forall.
  intros y Hy. apply Z.leb_le. auto.
Qed.

Lemma nodup_nat_NoDup (l : list nat) : nodup_nat l = true -> NoDup l.
Proof.
  induction l as [|x r IH]; simpl; [constructor|].
  intros H. apply andb_prop in H as [Hx Hr]. constructor; [|auto].
  intros Hin. apply negb_true_iff in Hx.
  assert (existsb (Nat.eqb x) r = true); [|congruence].
  apply existsb_exists. exists x. split; [exact Hin | apply Nat.eqb_refl].
Qed.

Lemma sorts_on_b_true (argsort : list Z -> list nat) (ks : list Z) :
  sorts_on_b argsort ks = true -> sorts_on Z.le 0%Z argsort ks.
Proof.
  unfold sorts_on_b, sorts_on. intros H.
  apply andb_prop in H as [H Hasc]. apply andb_prop in H as [H Hnd].
  apply andb_prop in H as [Hlen Hb].
  apply Nat.eqb_eq in Hlen. split; [|now apply ascending_sorted].
  apply NoDup_Permutation_bis.
  - now apply nodup_nat_NoDup.
  - rewrite length_seq. lia.
  - intros i Hi. rewrite forallb_forall in Hb. apply Hb in Hi.
    apply Nat.ltb_lt in Hi. apply in_seq. lia.
Qed.
End SortsOnB.

Lemma keep_map_Some {A K} (f : A -> K) (l : list A) :
  PdSort.keep (map (fun a => Some (f a)) l) = map f l.
Proof. induction l as [|a l IH]; simpl; [reflexivity | now rewrite IH]. Qed.

Lemma filter_all {A} (p : A -> bool) (l : list A) :
  (forall a, p a = true) -> filter p l = l.
Proof.
  intros H. induction l as [|a l IH]; simpl; [reflexivity|]. now rewrite H, IH.
Qed.

Lemma filter_none {A} (p : A -> bool) (l : list A) :
  (forall a, p a = false) -> filter p l = [].
Proof.
  intros H. induction l as [|a l IH]; simpl; [reflexivity|]. now rewrite H.
Qed.

Lemma map_Some_inj {K} (l l' : list K) : map Some l = map Some l' -> l = l'.
Proof.
  revert l'. induction l as [|a l IH]; intros [|b l']; simpl; try discriminate;
    [reflexivity|].
  intros [= -> H]. f_equal. auto.
Qed.

(** ** Sheet 5: the sorted frame of null counts *)

Section MissingFacts.
Import Pd PdSort Missing.

Lemma nulls_sorted (argsort : list Z -> list nat) (df : DataFrame) :
  SortSpec.sorts_on Z.le 0%Z argsort (sort_keys df) ->
  Permutation (nulls argsort df) (nulls_unsorted df) /\
  StronglySorted (fun a b => (null_count b <= null_count a)%Z) (nulls argsort df).
Proof.
  intros H. unfold sort_keys in H.
  rewrite <- (keep_map_Some null_count) in H.
  destruct (sort_values_descending (fun r => Some (null_count r))
              Z.le 0%Z argsort (nulls_unsorted df) H)
    as (front & ks & Heq & Hperm & Hkeys & Hsorted).
  rewrite filter_none in Heq by reflexivity.
  rewrite filter_all in Hperm by reflexivity.
  rewrite app_nil_r in Heq. unfold nulls. rewrite Heq. split; [exact Hperm|].
  rewrite <- (map_map null_count Some) in Hkeys. apply map_Some_inj in Hkeys.
  subst ks. clear - Hsorted.
  induction front as [|r front IH]; [constructor|].
  simpl in Hsorted. inversion Hsorted as [|? ? Hs Hr]; subst.
  constructor; [auto|]. now rewrite Forall_map in Hr.
Qed.
End MissingFacts.

(** ** [groupby]: the groups partition the rows *)

Section GroupFacts.
Import Py Pd PdGroup.

Lemma scalar_eqb_refl (a : scalar) : scalar_eqb a a = true.
Proof.
  destruct a; simpl.
  - apply Z.eqb_refl.
  - apply Qeq_bool_iff. reflexivity.
  - apply Bool.eqb_reflx.
  - apply String.eqb_refl.
Qed.

Lemma scalar_eqb_sym (a b : scalar) : scalar_eqb a b = scalar_eqb b a.
Proof.
  destruct a, b; simpl; try reflexivity.
  - apply Z.eqb_sym.
  - destruct (Qeq_bool q q0) eqn:E1, (Qeq_bool q0 q) eqn:E2; try reflexivity.
    + apply Qeq_bool_iff in E1. symmetry in E1. apply Qeq_bool_iff in E1. congruence.
    + apply Qeq_bool_iff in E2. symmetry in E2. apply Qeq_bool_iff in E2. congruence.
  - now destruct b0, b.
  - apply String.eqb_sym.
Qed.

Lemma scalar_eqb_trans (a b c : scalar) :
  scalar_eqb a b = true -> scalar_eqb b c = true -> scalar_eqb a c = true.
Proof.
  destruct a, b, c; simpl; try discriminate.
  - intros H1%Z.eqb_eq H2%Z.eqb_eq. apply Z.eqb_eq. congruence.
  - intros H1%Qeq_bool_iff H2%Qeq_bool_iff. apply Qeq_bool_iff.
    now rewrite H1.
  - intros H1%Bool.eqb_prop H2%Bool.eqb_prop. subst. apply Bool.eqb_reflx.
  - intros H1%String.eqb_eq H2%String.eqb_eq. apply String.eqb_eq. congruence.
Qed.

Lemma list_sum_perm (l l' : list nat) :
  Permutation l l' -> list_sum l = list_sum l'.
Proof. induction 1; simpl; lia. Qed.

(** How many of the representatives equal a given key: one if the
    key occurs, none otherwise. *)
Lemma unique_count (a : scalar) (l : list scalar) :
  list_sum (map (fun u => b2n (scalar_eqb u a)) (unique l))
  = b2n (existsb (fun y => scalar_eqb y a) l).
Proof.
  induction l as [|x r IH]; [reflexivity|].
  simpl. destruct (scalar_eqb x a) eqn:E; simpl.
  - f_equal. clear IH. induction (unique r) as [|u us IHu]; [reflexivity|].
    simpl. destruct (scalar_eqb x u) eqn:Exu; simpl; [exact IHu|].
    destruct (scalar_eqb u a) eqn:Eua; simpl; [|exact IHu].
    exfalso. rewrite scalar_eqb_sym in Eua.
    rewrite (scalar_eqb_trans _ _ _ E Eua) in Exu. discriminate.
  - rewrite <- IH. clear IH. induction (unique r) as [|u us IHu]; [reflexivity|].
    simpl. destruct (scalar_eqb x u) eqn:Exu; simpl; [|now rewrite IHu].
    destruct (scalar_eqb u a) eqn:Eua; simpl; [|exact IHu].
    rewrite (scalar_eqb_trans _ _ _ Exu Eua) in E. discriminate.
Qed.

Lemma existsb_self (a : scalar) (l : list scalar) :
  In a l -> existsb (fun y => scalar_eqb y a) l = true.
Proof.
  intros H. apply existsb_exists. exists a. split; [exact H | apply scalar_eqb_refl].
Qed.

Lemma in_keep (a : scalar) (ks : list (option scalar)) :
  In (Some a) ks -> In a (keep ks).
Proof.
  intros H. unfold keep. apply in_flat_map. exists (Some a). split; [exact H | now left].
Qed.

(** Every cell of the key column falls into exactly one group when
    the null group is kept. *)
Lemma group_keys_partition (ks : list (option scalar)) (x : option scalar) :
  In x ks ->
  list_sum (map (fun k => b2n (key_eqb k x)) (group_keys false ks)) = 1%nat.
Proof.
  intros Hin. unfold group_keys. rewrite map_app, list_sum_app, map_map.
  destruct x as [a|].
  - simpl key_eqb.
    rewrite (list_sum_perm _ (map (fun u => b2n (scalar_eqb u a)) (unique (keep ks)))).
    2:{ apply Permutation_map. apply stable_sort_perm. }
    rewrite unique_count, existsb_self by now apply in_keep.
    change (negb false && existsb isna ks) with (existsb isna ks).
    destruct (existsb isna ks); reflexivity.
  - simpl key_eqb.
    assert (E : existsb isna ks = true).
    { apply existsb_exists. exists None. split; [exact Hin | reflexivity]. }
    change (negb false && existsb isna ks) with (existsb isna ks).
    rewrite E. simpl.
    induction (Py.stable_sort scalar_ltb (unique (keep ks))); simpl; auto.
Qed.

Lemma list_sum_map_add {A} (f g : A -> nat) (l : list A) :
  list_sum (map (fun a => f a + g a)%nat l)
  = (list_sum (map f l) + list_sum (map g l))%nat.
Proof. induction l as [|a l IH]; simpl; lia. Qed.

Lemma partition_count (G ks : list (option scalar)) :
  (forall x, In x ks -> list_sum (map (fun k => b2n (key_eqb k x)) G) = 1%nat) ->
  list_sum (map (fun k => List.length (filter (key_eqb k) ks)) G) = List.length ks.
Proof.
  induction ks as [|x ks IH]; intros H.
  - clear H. induction G as [|k G IHG]; [reflexivity | exact IHG].
  - assert (IH' := IH (fun y Hy => H y (or_intror Hy))).
    assert (Hx := H x (or_introl eq_refl)).
    assert (E : list_sum (map (fun k => List.length (filter (key_eqb k) (x :: ks))) G)
                = (list_sum (map (fun k => b2n (key_eqb k x)) G)
                   + list_sum (map (fun k => List.length (filter (key_eqb k) ks)) G))%nat).
    { rewrite <- list_sum_map_add. f_equal. apply map_ext. intros k.
      simpl. destruct (key_eqb k x); reflexivity. }
    etransitivity; [exact E|]. rewrite IH', Hx. reflexivity.
Qed.

Lemma filter_id_map {A} (f : A -> bool) (l : list A) :
  List.length (filter (fun b : bool => b) (map f l)) = List.length (filter f l).
Proof.
  induction l as [|a l IH]; [reflexivity|]. simpl. destruct (f a); simpl; lia.
Qed.

Lemma zsum_of_nat (l : list nat) :
  Sums.zsum (map Z.of_nat l) = Z.of_nat (list_sum l).
Proof. induction l as [|n l IH]; simpl; [reflexivity|]. rewrite IH. lia. Qed.

Lemma zsum_perm (l l' : list Z) : Permutation l l' -> Sums.zsum l = Sums.zsum l'.
Proof. induction 1; simpl; lia. Qed.

(** With a label on every row, the counts of the groups add up to
    the number of rows. *)
Lemma groupby_agg_counts (ks : list (option scalar)) (label : list float) :
  Forall holds label ->
  List.length ks = List.length label ->
  Sums.zsum (map agg_count (groupby_agg false ks label)) = Z.of_nat (List.length ks).
Proof.
  intros Hh Hlen. unfold groupby_agg. rewrite map_map. simpl.
  rewrite <- (partition_count (group_keys false ks) ks)
    by (intros x Hx; now apply group_keys_partition).
  rewrite <- zsum_of_nat, map_map. f_equal. apply map_ext. intros k.
  f_equal. unfold count.
  rewrite dropna_holds by now apply loc_Forall.
  rewrite loc_length_true by now rewrite length_map.
  apply filter_id_map.
Qed.

Lemma values_length (s : Series) : List.length (values s) = len s.
Proof. destruct s; simpl; now rewrite length_map. Qed.
End GroupFacts.

(** ** Sheet 7: the table of one categorical column *)

Section CategoricalFacts.
Import Py Pd PdSort PdGroup Categoricals.

Lemma labelled_label (df : DataFrame) :
  Schema.labelled df = true ->
  well_formed df = true /\
  exists l ls, get df "label"%string = Some l /\ to_float l = Some ls /\
               Forall zero_one ls /\ List.length ls = nrows df.
Proof.
  intros H. apply andb_prop in H as [Hwf Hlab]. split; [exact Hwf|].
  apply binary_column_get in Hlab as (l & ls & Hl & Hls & Bls).
  exists l, ls. repeat split; auto.
  etransitivity; [exact (to_float_length _ _ Hls)|].
  exact (well_formed_len _ _ _ Hwf Hl).
Qed.

Lemma tbl_unsorted_totals (df : DataFrame) (col : string) :
  Schema.labelled df = true ->
  In col (column_names df) ->
  exists t, tbl_unsorted df col = Some t /\
            Sums.zsum (map total t) = Z.of_nat (nrows df).
Proof.
  intros Hl Hin. destruct (labelled_label df Hl) as (Hwf & l & ls & Hg & Hf & Hb & Hlen).
  destruct (in_names_get df col Hin) as [s Hs].
  unfold tbl_unsorted, groupby_label. rewrite Hs, Hg. cbn [bind]. rewrite Hf. cbn [bind].
  eexists. split; [reflexivity|]. rewrite map_map. cbn [total].
  assert (Hks : List.length (values s) = nrows df).
  { rewrite values_length. exact (well_formed_len _ _ _ Hwf Hs). }
  rewrite <- Hks. apply groupby_agg_counts.
  - eapply Forall_impl; [|exact Hb]. apply zero_one_holds.
  - now rewrite Hks.
Qed.

Lemma tbl_totals (argsort : list Z -> list nat) (df : DataFrame) (col : string) :
  Schema.labelled df = true ->
  In col (column_names df) ->
  SortSpec.sorts_on Z.le 0%Z argsort (sort_keys df col) ->
  exists t, tbl argsort df col = Some t /\
            Sums.zsum (map total t) = Z.of_nat (nrows df).
Proof.
  intros Hl Hin Hs. destruct (tbl_unsorted_totals df col Hl Hin) as (u & Hu & Hsum).
  unfold sort_keys in Hs. unfold tbl. rewrite Hu in *. cbn [bind].
  eexists. split; [reflexivity|].
  rewrite <- (keep_map_Some total) in Hs.
  destruct (sort_values_descending (fun r => Some (total r)) Z.le 0%Z argsort u Hs)
    as (front & ks & Heq & Hperm & _).
  rewrite filter_none in Heq by reflexivity.
  rewrite filter_all in Hperm by reflexivity.
  rewrite app_nil_r in Heq. rewrite Heq, <- Hsum.
  apply zsum_perm. now apply Permutation_map.
Qed.

Lemma processed_in (df : DataFrame) (cl : string * string) :
  In cl (processed df) -> In (fst cl) (column_names df).
Proof.
  unfold processed. intros H. apply filter_In in H as [_ H].
  apply existsb_exists in H as (c & Hc & E). apply String.eqb_eq in E. now subst.
Qed.
End CategoricalFacts.

(** ** Sums and means of an integer column *)

Section IntColumnFacts.
Import Py Pd.






End IntColumnFacts.

(** ** Rounding respects the value of a rational *)

Section RoundFacts.
Import Py Pd.

Lemma rint_comp (q q' : Q) : (q == q')%Q -> rint q = rint q'.
Proof.
  intros E. unfold rint.
  assert (Ef : Qfloor q = Qfloor q') by now rewrite E.
  rewrite Ef.
  assert (Ec : (q - inject_Z (Qfloor q') ?= 1 # 2)%Q
               = (q' - inject_Z (Qfloor q') ?= 1 # 2)%Q) by now rewrite E.
  now rewrite Ec.
Qed.

Lemma round_q_comp (nd : nat) (q q' : Q) : (q == q')%Q -> round_q nd q = round_q nd q'.
Proof.
  intros E. unfold round_q. f_equal. f_equal. apply rint_comp. now rewrite E.
Qed.

Lemma qsum_ones (l : list bool) :
  Forall (fun b => b = true) l ->
  (qsum (map (fun b : bool => if b then 1 else 0) l)
   == inject_Z (Z.of_nat (List.length l)))%Q.
Proof.
  induction 1 as [|b l -> _ IH]; [reflexivity|].
  cbn [map qsum fold_right List.length]. fold (qsum (map (fun b : bool => if b then 1 else 0)%Q l)).
  rewrite IH, Nat2Z.inj_succ, <- Z.add_1_l, inject_Z_plus. reflexivity.
Qed.
End RoundFacts.

(** ** Frames: a column name picks one column *)

Section ColumnFacts.
Import Pd.

Lemma distinct_NoDup (l : list string) : distinct l = true -> NoDup l.
Proof.
  induction l as [|x r IH]; simpl; [constructor|].
  intros H. apply andb_prop in H as [Hx Hr]. constructor; [|auto].
  intros Hin. apply negb_true_iff in Hx.
  assert (existsb (String.eqb x) r = true); [|congruence].
  apply existsb_exists. exists x. split; [exact Hin | apply String.eqb_refl].
Qed.

Lemma NoDup_fst_functional {B} (l : list (string * B)) (c : string) (s s' : B) :
  NoDup (map fst l) -> In (c, s) l -> In (c, s') l -> s = s'.
Proof.
  induction l as [|[c0 s0] l IH]; simpl; [contradiction|].
  intros Hnd H1 H2. inversion Hnd as [|? ? Hnotin Hnd']; subst.
  destruct H1 as [E1|H1], H2 as [E2|H2].
  - congruence.
  - exfalso. injection E1 as -> ->. apply Hnotin. apply in_map_iff. now exists (c, s').
  - exfalso. injection E2 as -> ->. apply Hnotin. apply in_map_iff. now exists (c, s).
  - eauto.
Qed.

Lemma well_formed_functional (df : DataFrame) (c : string) (s s' : Series) :
  well_formed df = true -> In (c, s) (columns df) -> In (c, s') (columns df) -> s = s'.
Proof.
  unfold well_formed. intros H. apply andb_prop in H as [H _].
  apply distinct_NoDup in H. now apply NoDup_fst_functional.
Qed.
End ColumnFacts.

(** ** Sheet 4: the row of a column without any value *)

Section DescStatsFacts.
Import Py Pd DescStats.

Lemma dropna_all_null (xs : list float) : Forall (eq None) xs -> dropna xs = [].
Proof. induction 1 as [|x r <- _ IH]; simpl; auto. Qed.

Lemma null_total_all_null (xs : list float) :
  Forall (eq None) xs -> Missing.null_total (Float64 xs) = Z.of_nat (List.length xs).
Proof.
  intros H. unfold Missing.null_total. f_equal. simpl.
  induction H as [|x r <- _ IH]; simpl; auto.
Qed.

Lemma null_pct_all_null (xs : list float) :
  Forall (eq None) xs -> xs <> [] ->
  null_pct_of (Float64 xs) = round 2 (Some 100%Q).
Proof.
  intros H Hne. unfold null_pct_of. cbn [isnull].
  assert (Hall : Forall (fun b => b = true) (map isna xs)).
  { rewrite Forall_map. eapply Forall_impl; [|exact H]. now intros x <-. }
  unfold mean.
  assert (Hd : dropna (map (fun b : bool => Some (if b then 1 else 0)%Q) (map isna xs))
               = map (fun b : bool => if b then 1 else 0)%Q (map isna xs)).
  { clear. induction (map isna xs) as [|b l IH]; simpl; [reflexivity | now rewrite IH]. }
  rewrite Hd.
  destruct (map (fun b : bool => if b then 1 else 0)%Q (map isna xs)) as [|q l] eqn:E.
  - destruct xs; [contradiction | discriminate].
  - cbn [fscale round]. f_equal. apply round_q_comp.
    rewrite <- E, (qsum_ones _ Hall), !length_map.
    field. intros H0.
    change 0%Q with (inject_Z 0) in H0. apply inject_Z_injective in H0.
    destruct xs; [contradiction | discriminate].
Qed.

Lemma describe_row_all_null (c : string) (xs : list float) :
  Forall (eq None) xs -> xs <> [] ->
  exists r, describe_row (c, Float64 xs) = Some r /\
            feature r = c /\ Spec.all_nan r /\
            null_count r = Z.of_nat (List.length xs) /\
            null_pct r = round 2 (Some 100%Q).
Proof.
  intros H Hne. unfold describe_row. cbn [snd fst to_float bind].
  eexists. split; [reflexivity|]. cbn.
  pose proof (dropna_all_null xs H) as Hd.
  unfold Spec.all_nan, count, mean, std, var, min, max, quantile. cbn. rewrite Hd. cbn.
  repeat split.
  - now apply null_total_all_null.
  - now apply null_pct_all_null.
Qed.

Lemma describe_row_total (p : string * Series) :
  is_number (snd p) = true -> exists r, describe_row p = Some r /\ feature r = fst p.
Proof.
  destruct p as [c s]. unfold describe_row.
  destruct s; simpl; try discriminate; intros _; eexists; split; reflexivity.
Qed.

Lemma describe_row_feature (p : string * Series) (r : desc_row) :
  describe_row p = Some r -> feature r = fst p.
Proof.
  unfold describe_row. destruct (to_float (snd p)); cbn [bind]; [|discriminate].
  now intros [= <-].
Qed.

Lemma numeric_cols_in (df : DataFrame) (c : string) (s : Series) :
  get df c = Some s -> is_number s = true ->
  c <> "account_id_x"%string -> c <> "account_id_y"%string ->
  In (c, s) (numeric_cols df).
Proof.
  intros Hg Hn Hx Hy. unfold numeric_cols. apply filter_In. split.
  - now apply get_in.
  - cbn [fst snd existsb]. rewrite Hn.
    apply String.eqb_neq in Hx, Hy. now rewrite Hx, Hy.
Qed.
End DescStatsFacts.

Lemma Forall2_in_l {A B} (R : A -> B -> Prop) (l : list A) (l' : list B) (a : A) :
  Forall2 R l l' -> In a l -> exists b, In b l' /\ R a b.
Proof.
  induction 1 as [|x y l l' Hxy _ IH]; simpl; [contradiction|].
  intros [->|Hin]; [eauto|]. destruct (IH Hin) as (b & Hb & HR). eauto.
Qed.

Lemma Forall2_in_r {A B} (R : A -> B -> Prop) (l : list A) (l' : list B) (b : B) :
  Forall2 R l l' -> In b l' -> exists a, In a l /\ R a b.
Proof.
  induction 1 as [|x y l l' Hxy _ IH]; simpl; [contradiction|].
  intros [->|Hin]; [eauto|]. destruct (IH Hin) as (a & Ha & HR). eauto.
Qed.

(** ** numpy's quicksort on at most 17 keys *)

Section SmallQuicksort.
Context {K : Type} (less : K -> K -> bool) (dflt : K).
Hypothesis less_asym : forall x y, less x y = true -> less y x = false.
Hypothesis less_negtrans :
  forall x y z, less x y = false -> less y z = false -> less x z = false.

Lemma sift_left_insert (v : list K) (vi : nat) (l : list nat) :
  Np.sift_left less dflt v vi l = Py.insert_sorted (Np.key_gt less dflt v) vi l.
Proof.
  induction l as [|k r IH]; [reflexivity|].
  simpl. unfold Np.key_gt at 1. now rewrite IH.
Qed.

Lemma insertion_list_sort (v : list K) (seg : list nat) :
  Np.insertion less dflt v seg = Py.list_sort (Np.key_gt less dflt v) true seg.
Proof.
  unfold Np.insertion, Py.list_sort, Py.stable_sort. f_equal.
  rewrite fold_left_rev_right. generalize (@nil nat) as acc.
  induction seg as [|x r IH]; intros acc; [reflexivity|].
  simpl. now rewrite IH, sift_left_insert.
Qed.

Lemma aquicksort_small (v : list K) :
  (List.length v <= 17)%nat ->
  Np.aquicksort less dflt v = Np.insertion less dflt v (seq 0 (List.length v)).
Proof.
  intros Hlen. unfold Np.aquicksort.
  destruct (List.length v) as [|n] eqn:E; [reflexivity|].
  cbn [Np.introsort pred].
  assert (Hd : (2 * Z.log2 (Z.of_nat (S n)) <? 0)%Z = false).
  { apply Z.ltb_ge. pose proof (Z.log2_nonneg (Z.of_nat (S n))). lia. }
  rewrite Hd. cbn [andb].
  assert (Hs : (Np.SMALL_QUICKSORT <? n - 0)%nat = false).
  { apply Nat.ltb_ge. unfold Np.SMALL_QUICKSORT. lia. }
  rewrite Hs. unfold Np.on_segment.
  rewrite Nat.sub_0_r.
  change (firstn 0 (seq 0 (S n))) with (@nil nat).
  change (skipn 0 (seq 0 (S n))) with (seq 0 (S n)).
  rewrite (firstn_all2 (seq 0 (S n))) by (rewrite length_seq; lia).
  rewrite (skipn_all2 (seq 0 (S n))) by (rewrite length_seq; lia).
  now rewrite app_nil_r.
Qed.

(** Up to 17 keys the quicksort is an insertion sort, and keeps the
    contract of an argsort. *)
Theorem aquicksort_small_sorts (v : list K) :
  (List.length v <= 17)%nat ->
  SortSpec.sorts_on (fun a b => less b a = false) dflt (Np.aquicksort less dflt) v.
Proof.
  intros Hlen. unfold SortSpec.sorts_on.
  rewrite (aquicksort_small v Hlen), insertion_list_sort.
  split; [apply list_sort_perm|].
  unfold Py.list_sort.
  assert (Hdom : Forall (fun _ : nat => True) (rev (seq 0 (List.length v))))
    by (apply Forall_forall; auto).
  destruct (stable_sort_sorted (Np.key_gt less dflt v) (fun _ => True)) with (l := rev (seq 0 (List.length v)))
    as [Hs _].
  - intros x y _ _. unfold Np.key_gt. apply less_asym.
  - intros x y z _ _ _. unfold Np.key_gt. intros H1 H2. eapply less_negtrans; eauto.
  - exact Hdom.
  - apply StronglySorted_rev in Hs.
    clear - Hs. induction Hs as [|i l Hs IH Hi]; simpl; constructor; [exact IH|].
    rewrite Forall_map. eapply Forall_impl; [|exact Hi].
    intros j Hj. unfold Py.not_after, Np.key_gt in Hj. exact Hj.
Qed.
End SmallQuicksort.

(** ** The Pearson coefficient *)

Section CauchySchwarz.
Local Open Scope Q_scope.

Lemma Qsq_nonneg (x : Q) : 0 <= x * x.
Proof. unfold Qle, Qmult. simpl. nia. Qed.

Lemma Qsq_le_cancel (X Y : Q) : 0 <= X -> Y * Y <= X * X -> Y <= X.
Proof.
  intros HX H. destruct (Qlt_le_dec X Y) as [Hlt|Hle]; [|exact Hle]. exfalso.
  assert (X * X < Y * Y).
  { apply Qle_lt_trans with (X * Y); Lqa.nra. }
  Lqa.lra.
Qed.

Lemma cauchy_schwarz_step (a b S A B : Q) :
  0 <= A -> 0 <= B -> S * S <= A * B ->
  (a * b + S) * (a * b + S) <= (a * a + A) * (b * b + B).
Proof.
  intros HA HB HS.
  assert (H1 : 2 * (a * b * S) <= a * a * B + A * (b * b)).
  { apply Qsq_le_cancel.
    - pose proof (Qsq_nonneg a). pose proof (Qsq_nonneg b). Lqa.nra.
    - pose proof (Qsq_nonneg (a * a * B - A * (b * b))).
      pose proof (Qsq_nonneg (a * b)).
      assert ((S * S) * ((a * b) * (a * b)) <= (A * B) * ((a * b) * (a * b)))
        by (now apply Qmult_le_compat_r).
      Lqa.lra. }
  Lqa.lra.
Qed.

Context {T : Type}.

Lemma qsum_squares_nonneg (h : T -> Q) (l : list T) :
  0 <= Pd.qsum (map (fun p => h p * h p) l).
Proof.
  induction l as [|p l IH]; simpl; [discriminate|].
  pose proof (Qsq_nonneg (h p)). Lqa.lra.
Qed.

Lemma cauchy_schwarz (f g : T -> Q) (l : list T) :
  Pd.qsum (map (fun p => f p * g p) l) * Pd.qsum (map (fun p => f p * g p) l)
  <= Pd.qsum (map (fun p => f p * f p) l) * Pd.qsum (map (fun p => g p * g p) l).
Proof.
  induction l as [|p l IH]; simpl; [discriminate|].
  apply cauchy_schwarz_step; auto using qsum_squares_nonneg.
Qed.

Lemma qsum_map_zero (f : T -> Q) (l : list T) :
  Forall (fun p => f p == 0) l -> Pd.qsum (map f l) == 0.
Proof.
  induction 1 as [|p l Hp _ IH]; simpl; [reflexivity|]. rewrite Hp, IH. reflexivity.
Qed.

Lemma qsum_map_const (f : T -> Q) (v : Q) (l : list T) :
  Forall (fun p => f p == v) l ->
  Pd.qsum (map f l) == v * inject_Z (Z.of_nat (List.length l)).
Proof.
  induction 1 as [|p l Hp _ IH]; [simpl; change (inject_Z 0) with 0; ring|].
  cbn [map Pd.qsum fold_right List.length]. fold (Pd.qsum (map f l)).
  rewrite Hp, IH, Nat2Z.inj_succ, <- Z.add_1_l, inject_Z_plus.
  change (inject_Z 1) with 1. ring.
Qed.
End CauchySchwarz.

Section PearsonFacts.
Import Py Pd Corr.
Local Open Scope R_scope.

Lemma Q2R_zero : Q2R 0 = 0.
Proof. unfold Q2R. simpl. lra. Qed.

Lemma moments_cauchy_schwarz (ps : list (Q * Q)) :
  (covxy (moments_of ps) * covxy (moments_of ps)
   <= ssqdm_x (moments_of ps) * ssqdm_y (moments_of ps))%Q.
Proof. unfold moments_of. cbn [covxy ssqdm_x ssqdm_y]. apply cauchy_schwarz. Qed.

(** A coefficient that is defined lies between -1 and 1. *)
Lemma pearson_bounded (xs ys : list float) (r : R) :
  pearson xs ys = Some r -> Rabs r <= 1.
Proof.
  unfold pearson.
  set (m := moments_of (complete_pairs xs ys)).
  destruct (nobs m <? 1)%nat; [discriminate|].
  set (D := Q2R (ssqdm_x m * ssqdm_y m)).
  destruct (Req_EM_T _ 0) as [|Hd]; [discriminate|]. intros E.
  assert (r = Q2R (covxy m) / sqrt D) as -> by congruence. clear E.
  assert (Hpos : 0 < sqrt D).
  { destruct (sqrt_pos D) as [H|H]; [exact H | congruence]. }
  assert (Hcs : Rsqr (Q2R (covxy m)) <= D).
  { unfold Rsqr, D. rewrite <- Q2R_mult. apply Qle_Rle.
    apply moments_cauchy_schwarz. }
  unfold Rdiv. rewrite Rabs_mult, (Rabs_pos_eq (/ sqrt D)).
  2:{ left. now apply Rinv_0_lt_compat. }
  apply Rmult_le_reg_r with (sqrt D); [exact Hpos|].
  rewrite Rmult_assoc, Rinv_l, Rmult_1_r, Rmult_1_l by lra.
  rewrite <- sqrt_Rsqr_abs. now apply sqrt_le_1_alt.
Qed.

Lemma complete_pairs_fst (xs ys : list float) (p : Q * Q) :
  In p (complete_pairs xs ys) -> In (Some (fst p)) xs.
Proof.
  unfold complete_pairs. intros H. apply in_flat_map in H as ([x y] & Hin & Hp).
  apply in_combine_l in Hin.
  destruct x as [a|]; [|contradiction]. destruct y as [b|]; [|contradiction].
  destruct Hp as [<-|[]]. exact Hin.
Qed.

(** A column without variance has no coefficient. *)
Lemma pearson_constant (xs ys : list float) :
  Spec.constant xs -> pearson xs ys = None.
Proof.
  intros [v Hv]. unfold pearson.
  set (ps := complete_pairs xs ys).
  destruct (nobs (moments_of ps) <? 1)%nat eqn:En; [reflexivity|].
  destruct (Req_EM_T _ 0) as [|Hd]; [reflexivity|]. exfalso. apply Hd.
  assert (Hfst : Forall (fun p : Q * Q => (fst p == v)%Q) ps).
  { apply Forall_forall. intros p Hp. apply complete_pairs_fst in Hp.
    rewrite Forall_forall in Hv. exact (Hv _ Hp _ eq_refl). }
  assert (Hn : ~ (inject_Z (Z.of_nat (List.length ps)) == 0)%Q).
  { apply Nat.ltb_ge in En. cbn [moments_of nobs] in En.
    change 0%Q with (inject_Z 0). rewrite inject_Z_injective. lia. }
  assert (Hss : (ssqdm_x (moments_of ps) == 0)%Q).
  { cbn [moments_of ssqdm_x]. apply qsum_map_zero.
    eapply Forall_impl; [|exact Hfst]. intros p Hp. cbn beta.
    rewrite (qsum_map_const fst v ps Hfst), Hp. field. exact Hn. }
  assert (H0 : (ssqdm_x (moments_of ps) * ssqdm_y (moments_of ps) == 0)%Q)
    by (rewrite Hss; ring).
  rewrite (Qeq_eqR _ _ H0), Q2R_zero. apply sqrt_0.
Qed.

(** A coefficient is defined as soon as both columns vary over at
    least one complete pair. *)
Lemma pearson_defined (xs ys : list float) :
  let m := moments_of (complete_pairs xs ys) in
  (1 <= nobs m)%nat ->
  (0 < ssqdm_x m * ssqdm_y m)%Q ->
  pearson xs ys = Some (Q2R (covxy m) / sqrt (Q2R (ssqdm_x m * ssqdm_y m))).
Proof.
  intros m Hn Hpos. unfold pearson. fold m.
  apply Nat.ltb_ge in Hn. rewrite Hn.
  destruct (Req_EM_T _ 0) as [H0|]; [|reflexivity]. exfalso.
  apply Qlt_Rlt in Hpos. rewrite Q2R_zero in Hpos.
  apply sqrt_lt_R0 in Hpos. lra.
Qed.
End PearsonFacts.

(** ** Rounding a real to decimals *)

Section RealRoundFacts.
Local Open Scope R_scope.

Lemma Rabs_le_between (x b : R) : Rabs x <= b -> - b <= x <= b.
Proof. unfold Rabs. destruct (Rcase_abs x); lra. Qed.

Lemma Int_part_frac (x : R) : x = IZR (Int_part x) + frac_part x.
Proof. unfold frac_part. lra. Qed.

(** The rounded integer is a nearest integer. *)
Lemma rint_nearest (x : R) : Rabs (IZR (PyR.rint x) - x) <= 1 / 2.
Proof.
  pose proof (Int_part_frac x) as Hx.
  destruct (base_fp x) as [H0 H1]. apply Rge_le in H0.
  unfold PyR.rint.
  destruct (Rlt_dec (frac_part x) (1 / 2)) as [Hlt|Hge].
  - apply Rabs_le. lra.
  - destruct (Rlt_dec (1 / 2) (frac_part x)) as [Hgt|Hle].
    + rewrite plus_IZR. apply Rabs_le. lra.
    + destruct (Z.even (Int_part x)); [|rewrite plus_IZR]; apply Rabs_le; lra.
Qed.

Lemma rint_monotone (x y : R) : x <= y -> (PyR.rint x <= PyR.rint y)%Z.
Proof.
  intros Hxy. destruct (Z_le_gt_dec (PyR.rint x) (PyR.rint y)) as [H|H]; [exact H|].
  exfalso.
  assert (Hz : (PyR.rint y + 1 <= PyR.rint x)%Z) by lia.
  apply IZR_le in Hz. rewrite plus_IZR in Hz.
  pose proof (rint_nearest x) as Hx. pose proof (rint_nearest y) as Hy.
  apply Rabs_le_between in Hx, Hy.
  assert (E : x = y) by lra. subst y. lia.
Qed.

Lemma rint_IZR (k : Z) : PyR.rint (IZR k) = k.
Proof.
  pose proof (rint_nearest (IZR k)) as H. apply Rabs_le_between in H.
  rewrite <- minus_IZR in H.
  destruct H as [H1 H2].
  assert (H1' : (-1 < PyR.rint (IZR k) - k)%Z).
  { apply lt_IZR. lra. }
  assert (H2' : (PyR.rint (IZR k) - k < 1)%Z).
  { apply lt_IZR. lra. }
  lia.
Qed.

Lemma pow10_pos (nd : nat) : 0 < IZR (Py.pow10 nd).
Proof.
  apply IZR_lt. unfold Py.pow10. apply Z.pow_pos_nonneg; lia.
Qed.

Lemma round_r_monotone (nd : nat) (x y : R) :
  x <= y -> PyR.round_r nd x <= PyR.round_r nd y.
Proof.
  intros Hxy. unfold PyR.round_r. pose proof (pow10_pos nd) as Hp.
  apply Rmult_le_compat_r; [left; now apply Rinv_0_lt_compat|].
  apply IZR_le, rint_monotone. now apply Rmult_le_compat_r; [left|].
Qed.

Lemma round_r_IZR (nd : nat) (k : Z) : PyR.round_r nd (IZR k) = IZR k.
Proof.
  unfold PyR.round_r. pose proof (pow10_pos nd) as Hp.
  rewrite <- mult_IZR, rint_IZR, mult_IZR. field. lra.
Qed.

Lemma round_r_unit (nd : nat) (x : R) :
  Rabs x <= 1 -> Rabs (PyR.round_r nd x) <= 1.
Proof.
  intros H. apply Rabs_le_between in H as [H1 H2]. apply Rabs_le. split.
  - apply Rle_trans with (PyR.round_r nd (IZR (-1))).
    + rewrite round_r_IZR. lra.
    + apply round_r_monotone. lra.
  - apply Rle_trans with (PyR.round_r nd (IZR 1)).
    + apply round_r_monotone. lra.
    + rewrite round_r_IZR. lra.
Qed.
End RealRoundFacts.

(** ** Sheet 11: the ranked coefficients *)

Section EnumerateFacts.
Context {A B : Type} (f : nat -> A -> B).

Lemma enumerate_app (s : nat) (l l' : list A) :
  Corr.enumerate f s (l ++ l')
  = Corr.enumerate f s l ++ Corr.enumerate f (s + List.length l) l'.
Proof.
  revert s. induction l as [|a l IH]; intros s; simpl.
  - now rewrite Nat.add_0_r.
  - rewrite IH. do 3 f_equal. lia.
Qed.

Lemma enumerate_Forall (P : A -> Prop) (Q : B -> Prop) (s : nat) (l : list A) :
  (forall k a, P a -> Q (f k a)) -> Forall P l -> Forall Q (Corr.enumerate f s l).
Proof.
  intros H Hl. revert s. induction Hl as [|a l Ha _ IH]; intros s; simpl;
    constructor; auto.
Qed.

Lemma enumerate_sorted (R : A -> A -> Prop) (S : B -> B -> Prop) (s : nat) (l : list A) :
  (forall k k' a b, R a b -> S (f k a) (f k' b)) ->
  StronglySorted R l -> StronglySorted S (Corr.enumerate f s l).
Proof.
  intros H Hl. revert s. induction Hl as [|a l Hs IH Ha]; intros s; simpl;
    constructor; auto.
  apply (enumerate_Forall (R a)); auto.
Qed.

Lemma enumerate_map {C} (g : B -> C) (g' : A -> C) (s : nat) (l : list A) :
  (forall k a, g (f k a) = g' a) ->
  map g (Corr.enumerate f s l) = map g' l.
Proof.
  intros H. revert s. induction l as [|a l IH]; intros s; simpl; [reflexivity|].
  now rewrite H, IH.
Qed.

Lemma enumerate_length (s : nat) (l : list A) :
  List.length (Corr.enumerate f s l) = List.length l.
Proof.
  revert s. induction l as [|a l IH]; intros s; simpl; [reflexivity|]. now rewrite IH.
Qed.

Lemma enumerate_in (s : nat) (l : list A) (a : A) :
  In a l -> exists k, In (f k a) (Corr.enumerate f s l).
Proof.
  revert s. induction l as [|x l IH]; intros s; simpl; [contradiction|].
  intros [->|Hin]; [eauto|]. destruct (IH (S s) Hin) as [k Hk]. eauto.
Qed.
End EnumerateFacts.

Section CorrFacts.
Import Py Pd PdSort Corr.
Local Open Scope R_scope.

Lemma corr_with_label_total (df : DataFrame) :
  Schema.labelled df = true ->
  exists label corr,
    corr_with_label df = Some corr /\
    Forall2 (coefficient_of label) (numeric_cols df) corr.
Proof.
  intros Hl. destruct (labelled_label df Hl) as (_ & l & ls & Hg & Hf & _).
  exists ls. unfold corr_with_label. rewrite Hg. cbn [bind]. rewrite Hf. cbn [bind].
  assert (Hnum : Forall (fun p => is_number (snd p) = true) (numeric_cols df)).
  { apply Forall_forall. intros p Hp. apply filter_In in Hp as [_ Hp].
    now apply andb_prop in Hp as [Hp _]. }
  induction Hnum as [|p cols Hp _ (corr & Hc & HF)]; simpl.
  - exists []. split; [reflexivity | constructor].
  - destruct (to_float (snd p)) as [xs|] eqn:E.
    2:{ destruct (snd p); simpl in *; discriminate. }
    cbn [bind]. rewrite Hc. cbn [bind]. eexists. split; [reflexivity|].
    constructor; [|exact HF]. split; [reflexivity|]. exists xs. split; auto.
Qed.

Lemma isna_abs (x : PyR.rfloat) : isna (PyR.abs x) = isna x.
Proof. now destruct x. Qed.

(** The sorted coefficients: those that are defined first, in
    descending order of their absolute value and all within
    [-1, 1]; then the undefined ones, in the order of the columns. *)
Lemma corr_sorted (argsort : list R -> list nat) (df : DataFrame) :
  Schema.labelled df = true ->
  SortSpec.sorts_on Rle 0 argsort (sort_keys df) ->
  exists label corr front back,
    corr_with_label df = Some corr /\
    Forall2 (coefficient_of label) (numeric_cols df) corr /\
    corr_df argsort df = Some (map corr_stat_of (front ++ back)) /\
    Permutation (front ++ back) corr /\
    back = filter (fun p : string * PyR.rfloat => isna (snd p)) corr /\
    Forall (fun p : string * PyR.rfloat =>
              exists r, snd p = Some r /\ Rabs r <= 1) front /\
    StronglySorted
      (fun p q => Spec.rge (PyR.abs (snd p)) (PyR.abs (snd q))) front.
Proof.
  intros Hl Hs.
  destruct (corr_with_label_total df Hl) as (label & corr & Hc & HF).
  unfold sort_keys in Hs. rewrite Hc in Hs.
  destruct (sort_values_descending
              (fun p : string * PyR.rfloat => PyR.abs (snd p)) Rle 0 argsort corr Hs)
    as (front & ks & Heq & Hperm & Hkeys & Hsorted).
  rewrite (filter_ext _ (fun p : string * PyR.rfloat => isna (snd p))) in Heq
    by (intros p; apply isna_abs).
  rewrite (filter_ext _ (fun p : string * PyR.rfloat => negb (isna (snd p)))) in Hperm
    by (intros p; now rewrite isna_abs).
  exists label, corr, front,
    (filter (fun p : string * PyR.rfloat => isna (snd p)) corr).
  split; [exact Hc|]. split; [exact HF|].
  split; [unfold corr_df; rewrite Hc; cbn [bind]; now rewrite Heq|].
  split.
  { rewrite Hperm. clear. induction corr as [|p l IH]; [constructor|].
    simpl. destruct (isna (snd p)); simpl.
    - apply Permutation_sym, Permutation_cons_app, Permutation_sym, IH.
    - now constructor. }
  split; [reflexivity|]. split.
  - apply Forall_forall. intros p Hp.
    apply (Permutation_in _ Hperm) in Hp. apply filter_In in Hp as [Hin Hna].
    destruct (Forall2_in_r _ _ _ _ HF Hin) as (col & _ & _ & xs & _ & Hpear).
    destruct (snd p) as [r|] eqn:E; [|discriminate].
    exists r. split; [reflexivity|]. symmetry in Hpear.
    exact (pearson_bounded _ _ _ Hpear).
  - clear - Hkeys Hsorted. revert ks Hkeys Hsorted.
    induction front as [|p front IH]; intros [|k ks] Hkeys Hsorted;
      try discriminate; [constructor|].
    cbn [map] in Hkeys. injection Hkeys as Hk Hkeys.
    inversion Hsorted as [|? ? Hs' Hk']; subst.
    constructor; [eauto|].
    apply Forall_forall. intros q Hq.
    assert (H : In (PyR.abs (snd q)) (map Some ks)).
    { pose proof (in_map (fun p : string * PyR.rfloat => PyR.abs (snd p))
                         front q Hq) as H0.
      exact (eq_ind _ (In (PyR.abs (snd q))) H0 _ Hkeys). }
    apply in_map_iff in H as (y & Hy & Hin).
    rewrite Forall_forall in Hk'. specialize (Hk' y Hin).
    rewrite Hk, <- Hy. exact Hk'.
Qed.
End CorrFacts.

Section CorrSheetFacts.
Import Py Pd PdSort Corr.
Local Open Scope R_scope.

Lemma sorts_on_weaken {K} (le le' : K -> K -> Prop) (d : K)
      (argsort : list K -> list nat) (ks : list K) :
  (forall a b, le a b -> le' a b) ->
  SortSpec.sorts_on le d argsort ks -> SortSpec.sorts_on le' d argsort ks.
Proof.
  intros H [Hp Hs]. split; [exact Hp|].
  eapply StronglySorted_weaken; [|exact Hs]. auto.
Qed.

Lemma quicksort_real_small (ks : list R) :
  (List.length ks <= 17)%nat -> SortSpec.sorts_on Rle 0 quicksort_real ks.
Proof.
  intros Hlen. unfold quicksort_real.
  apply sorts_on_weaken with (le := fun a b => PyR.ltb b a = false).
  - intros a b. unfold PyR.ltb. destruct (Rlt_dec b a); [discriminate | lra].
  - apply aquicksort_small_sorts; [| |exact Hlen].
    + intros x y. unfold PyR.ltb.
      destruct (Rlt_dec x y), (Rlt_dec y x); try reflexivity; try discriminate. lra.
    + intros x y z. unfold PyR.ltb.
      destruct (Rlt_dec x y), (Rlt_dec y z), (Rlt_dec x z);
        try reflexivity; try discriminate. lra.
Qed.

Lemma keep_length {A} (l : list (option A)) :
  (List.length (keep l) <= List.length l)%nat.
Proof.
  induction l as [|[a|] l IH]; simpl; lia.
Qed.

Lemma sort_keys_length (df : DataFrame) :
  (List.length (sort_keys df) <= List.length (numeric_cols df))%nat.
Proof.
  unfold sort_keys, corr_with_label.
  destruct (get df "label"%string) as [l|]; cbn [bind]; [|simpl; lia].
  destruct (to_float l) as [ls|]; cbn [bind]; [|simpl; lia].
  destruct (traverse _ (numeric_cols df)) as [corr|] eqn:E; [|simpl; lia].
  apply traverse_some, Forall2_length in E.
  rewrite length_rev, E. etransitivity; [apply keep_length|].
  now rewrite length_map.
Qed.

(** On a frame with at most 17 numeric columns the quicksort keeps
    its contract on the keys of the ranking. *)
Lemma quicksort_real_sorts (df : DataFrame) :
  (List.length (numeric_cols df) <= 17)%nat ->
  SortSpec.sorts_on Rle 0 quicksort_real (sort_keys df).
Proof.
  intros H. apply quicksort_real_small. pose proof (sort_keys_length df). lia.
Qed.

Lemma render_defined (k : nat) (p : string * PyR.rfloat) :
  (exists r, snd p = Some r /\ Rabs r <= 1) ->
  Spec.bounded_row (render k (corr_stat_of p)).
Proof.
  intros (r & Hr & Hb). unfold Spec.bounded_row, render, corr_stat_of.
  cbn. rewrite Hr. cbn.
  exists (PyR.round_r 4 r), (PyR.round_r 4 (Rabs r)).
  split; [reflexivity|]. split; [reflexivity|].
  split; [now apply round_r_unit|].
  pose proof (Rabs_pos r) as H0. split.
  - apply Rle_trans with (PyR.round_r 4 (IZR 0)).
    + rewrite round_r_IZR. lra.
    + now apply round_r_monotone.
  - apply Rle_trans with (PyR.round_r 4 (IZR 1)).
    + now apply round_r_monotone.
    + rewrite round_r_IZR. lra.
Qed.

Lemma render_nan (k : nat) (p : string * PyR.rfloat) :
  snd p = None -> Spec.nan_row (render k (corr_stat_of p)).
Proof.
  intros H. unfold Spec.nan_row, render, corr_stat_of. cbn. rewrite H. cbn.
  repeat split.
Qed.

Lemma render_order (k k' : nat) (p q : string * PyR.rfloat) :
  Spec.rge (PyR.abs (snd p)) (PyR.abs (snd q)) ->
  Spec.rge (abs_cell (render k (corr_stat_of p)))
           (abs_cell (render k' (corr_stat_of q))).
Proof.
  unfold render, corr_stat_of. cbn.
  destruct (snd p) as [a|], (snd q) as [b|]; cbn; try contradiction.
  apply round_r_monotone.
Qed.

Lemma enumerate_rank (s : nat) (l : list corr_stat) :
  map rank (enumerate render s l) = seq s (List.length l).
Proof.
  revert s. induction l as [|a l IH]; intros s; simpl; [reflexivity|].
  now rewrite IH.
Qed.

(** The sheet: the rows of the defined coefficients, sorted and
    bounded, then the rows of the undefined ones. *)
Lemma sheet_correlations_sorted (argsort : list R -> list nat) (df : DataFrame) :
  Schema.labelled df = true ->
  SortSpec.sorts_on Rle 0 argsort (sort_keys df) ->
  exists label corr front back,
    Forall2 (coefficient_of label) (numeric_cols df) corr /\
    back = filter (fun p : string * PyR.rfloat => isna (snd p)) corr /\
    Permutation (front ++ back) corr /\
    sheet_correlations argsort df
    = Some (enumerate render 1 (map corr_stat_of front) ++
            enumerate render (1 + List.length front) (map corr_stat_of back)) /\
    Forall Spec.bounded_row (enumerate render 1 (map corr_stat_of front)) /\
    StronglySorted (fun x y => Spec.rge (abs_cell x) (abs_cell y))
                   (enumerate render 1 (map corr_stat_of front)) /\
    Forall Spec.nan_row
           (enumerate render (1 + List.length front) (map corr_stat_of back)).
Proof.
  intros Hl Hs.
  destruct (corr_sorted argsort df Hl Hs)
    as (label & corr & front & back & Hc & HF & Hdf & Hperm & Hback & Hb & Hsorted).
  exists label, corr, front, back.
  split; [exact HF|]. split; [exact Hback|]. split; [exact Hperm|].
  split.
  { unfold sheet_correlations. rewrite Hdf. cbn [bind].
    now rewrite map_app, enumerate_app, length_map. }
  split.
  { apply (enumerate_Forall render
             (fun s => exists p, s = corr_stat_of p /\
                                 exists r, snd p = Some r /\ Rabs r <= 1)).
    - intros k s (p & -> & Hp). now apply render_defined.
    - rewrite Forall_map. eapply Forall_impl; [|exact Hb]. intros p Hp. eauto. }
  split.
  { apply (enumerate_sorted render
             (fun s s' => exists p q, s = corr_stat_of p /\ s' = corr_stat_of q /\
                                      Spec.rge (PyR.abs (snd p)) (PyR.abs (snd q)))).
    - intros k k' s s' (p & q & -> & -> & H). now apply render_order.
    - clear - Hsorted. induction Hsorted as [|p l Hs IH Hp]; simpl; constructor.
      + exact IH.
      + rewrite Forall_map. eapply Forall_impl; [|exact Hp]. intros q Hq. eauto. }
  apply (enumerate_Forall render (fun s => exists p, s = corr_stat_of p /\ snd p = None)).
  - intros k s (p & -> & Hp). now apply render_nan.
  - rewrite Forall_map. subst back. apply Forall_forall. intros p Hp.
    apply filter_In in Hp as [_ Hp]. exists p. split; [reflexivity|].
    destruct (snd p); [discriminate | reflexivity].
Qed.

(** The row of a column without variance is among the undefined
    ones. *)
Lemma constant_column_coefficient (df : DataFrame) (c : string)
      (label : list float) (corr : list (string * PyR.rfloat)) :
  well_formed df = true ->
  Forall2 (coefficient_of label) (numeric_cols df) corr ->
  In c (map fst (numeric_cols df)) ->
  Spec.constant_column df c ->
  In (c, None) (filter (fun p : string * PyR.rfloat => isna (snd p)) corr).
Proof.
  intros Hwf HF Hin (s & xs & Hg & Hf & Hconst).
  apply in_map_iff in Hin as ([c' s'] & Hc & Hin). simpl in Hc. subst c'.
  assert (s' = s).
  { apply (well_formed_functional df c); [exact Hwf| |now apply get_in].
    apply filter_In in Hin. tauto. }
  subst s'.
  destruct (Forall2_in_l _ _ _ _ HF Hin) as ([c' r] & Hcin & Hname & xs' & Hf' & Hr).
  simpl in Hname, Hf', Hr. subst c'.
  rewrite Hf in Hf'. injection Hf' as <-.
  rewrite (pearson_constant xs label Hconst) in Hr. subst r.
  apply filter_In. split; [exact Hcin | reflexivity].
Qed.
End CorrSheetFacts.

(* ================================================================== *)
(** * The properties of the report                                    *)
(* ================================================================== *)

Local Open Scope string_scope.

Example sheet_rules_scenario :
  option_map (map (fun r => (Rules.rule_name r, Rules.trigger_rate_pct r,
                             Rules.fraud_rate_triggered r,
                             Rules.fraud_rate_not_triggered r,
                             Rules.lift_ratio r)))
             (Rules.sheet_rules df_rules)
  = Some [ ("rule_a", "40.00%", "75.0%", "50.0%", "1.50x");
           ("rule_c", "100.00%", "60.0%", "nan%", "N/A");
           ("rule_b", "20.00%", "50.0%", "62.5%", "0.80x");
           ("rule_d", "20.00%", "50.0%", "62.5%", "0.80x");
           ("rule_e", "40.00%", "0.0%", "100.0%", "0.00x") ].
Proof. vm_compute. reflexivity. Qed.



(** C5. The per-rule table of a labelled frame with binary rule
    columns is sorted in descending order of the fraud rate when
    triggered, and rules with the same rate (50%, say) appear in the
    order of their columns in the frame. *)
Theorem rule_stats_sorted_descending_stable (df : Pd.DataFrame) :
  Schema.labelled df = true ->
  Schema.rules_binary df = true ->
  exists unsorted stats,
    Rules.rule_stats_unsorted df = Some unsorted /\
    map Rules.rule unsorted = Rules.rule_cols df /\
    Rules.rule_stats df = Some stats /\
    Rules.sheet_rules df = Some (map Rules.render stats) /\
    Permutation stats unsorted /\
    StronglySorted
      (fun a b => Spec.fge (Rules.f_triggered a) (Rules.f_triggered b)) stats /\
    forall k, filter (Spec.rate_is k) stats = filter (Spec.rate_is k) unsorted.
Proof.
  intros Hl Hr.
  destruct (rule_stats_unsorted_binary df Hl Hr) as (u & Hu & Hn & Hd & _).
  unfold Rules.sheet_rules, Rules.rule_stats. rewrite Hu. cbn [Pd.bind].
  exists u. eexists. repeat split; try reflexivity.
  - exact Hn.
  - apply list_sort_perm.
  - now apply list_sort_by_rate_descending.
  - intros k. apply list_sort_filter. intros x y. apply rate_is_tie.
Qed.

Lemma rule_stats_sorted_descending_stable_witness :
  Schema.labelled df_rules = true /\
  Schema.rules_binary df_rules = true /\
  exists unsorted stats,
    Rules.rule_stats_unsorted df_rules = Some unsorted /\
    map Rules.rule unsorted = Rules.rule_cols df_rules /\
    Rules.rule_stats df_rules = Some stats /\
    Rules.sheet_rules df_rules = Some (map Rules.render stats) /\
    Permutation stats unsorted /\
    StronglySorted
      (fun a b => Spec.fge (Rules.f_triggered a) (Rules.f_triggered b)) stats /\
    forall k, filter (Spec.rate_is k) stats = filter (Spec.rate_is k) unsorted.
Proof.
  split; [reflexivity|]. split; [reflexivity|].
  apply (rule_stats_sorted_descending_stable df_rules); reflexivity.
Defined.

Example sheet_missing_nulls :
  map (fun r => (Missing.col_name r, Missing.data_type_cell r,
                 Missing.count_cell r, Missing.pct_cell r, Missing.group_cell r))
      (Missing.sheet_missing quicksort_int df_nulls)
  = [ ("beneficiary_id", "object", 3, "100.0%", "Transaction Base");
      ("receiver_account_id", "object", 2, "66.67%", "Transaction Base");
      ("avg_time_gap_in_out", "float64", 2, "66.67%", "Graph – Timing");
      ("label", "int64", 0, "0.0%", "Labels");
      ("channel", "object", 0, "0.0%", "Transaction Base") ].
Proof. vm_compute. reflexivity. Qed.




Example sheet_categoricals_kyc :
  option_map
    (map (fun b => (fst b, map (fun r => (Categoricals.value_cell r,
                                          Categoricals.total_cell r,
                                          Categoricals.pct_cell r,
                                          Categoricals.fraud_rate_cell r)) (snd b))))
    (Categoricals.sheet_categoricals quicksort_int df_cats)
  = Some [ ("Channel  [channel]",
            [ (Some (PdGroup.StrKey "web"), 10, "100.0%", "60.0%") ]);
           ("KYC Level  [kyc_level]",
            [ (Some (PdGroup.StrKey "low"), 6, "60.0%", "33.3%");
              (None, 2, "20.0%", "100.0%");
              (Some (PdGroup.StrKey "high"), 1, "10.0%", "100.0%");
              (Some (PdGroup.StrKey "medium"), 1, "10.0%", "100.0%") ]);
           ("Beneficiary Type  [beneficiary_type]",
            [ (None, 10, "100.0%", "60.0%") ]) ].
Proof. vm_compute. reflexivity. Qed.

(** C4. On a labelled frame, and with an argsort that keeps its
    contract on the totals of each table, the sheet has one block per
    categorical column of the frame, and in every block the total
    counts of the rows (the null group is one of them) add up to the
    number of rows of the frame. *)
Theorem categorical_totals_sum_to_row_count
        (argsort : list Z -> list nat) (df : Pd.DataFrame) :
  Schema.labelled df = true ->
  Forall (fun cl => SortSpec.sorts_on Z.le 0 argsort
                      (Categoricals.sort_keys df (fst cl)))
         (Categoricals.processed df) ->
  exists blocks,
    Categoricals.sheet_categoricals argsort df = Some blocks /\
    map fst blocks = map Categoricals.title (Categoricals.processed df) /\
    Forall (fun b => Sums.zsum (map Categoricals.total_cell (snd b))
                     = Z.of_nat (Pd.nrows df)) blocks.
Proof.
  intros Hl Hs. unfold Categoricals.sheet_categoricals.
  assert (Hin := processed_in df).
  induction (Categoricals.processed df) as [|cl cls IH]; simpl.
  - exists []. repeat split; constructor.
  - inversion Hs as [|? ? Hcl Hcls]; subst.
    destruct (tbl_totals argsort df (fst cl) Hl (Hin cl (or_introl eq_refl)) Hcl)
      as (t & Ht & Hsum).
    destruct (IH Hcls (fun c Hc => Hin c (or_intror Hc))) as (bs & Hbs & Hn & Hall).
    rewrite Ht. cbn [Pd.bind]. rewrite Hbs. cbn [Pd.bind].
    eexists. split; [reflexivity|]. split; [simpl; now rewrite Hn|].
    constructor; [|exact Hall].
    simpl. rewrite map_map. exact Hsum.
Qed.

Lemma categorical_totals_sum_to_row_count_witness :
  Schema.labelled df_cats = true /\
  Forall (fun cl => SortSpec.sorts_on Z.le 0 quicksort_int
                      (Categoricals.sort_keys df_cats (fst cl)))
         (Categoricals.processed df_cats) /\
  exists blocks,
    Categoricals.sheet_categoricals quicksort_int df_cats = Some blocks /\
    map fst blocks = map Categoricals.title (Categoricals.processed df_cats) /\
    Forall (fun b => Sums.zsum (map Categoricals.total_cell (snd b))
                     = Z.of_nat (Pd.nrows df_cats)) blocks.
Proof.
  assert (H : Forall (fun cl => SortSpec.sorts_on Z.le 0 quicksort_int
                                  (Categoricals.sort_keys df_cats (fst cl)))
                     (Categoricals.processed df_cats)).
  { assert (E : Categoricals.processed df_cats
                 = [ ("channel", "Channel"); ("kyc_level", "KYC Level");
                     ("beneficiary_type", "Beneficiary Type") ])
      by (vm_compute; reflexivity).
    rewrite E.
    repeat (apply Forall_cons; [apply sorts_on_b_true; vm_compute; reflexivity|]).
    apply Forall_nil. }
  split; [reflexivity|]. split; [exact H|].
  apply (categorical_totals_sum_to_row_count quicksort_int df_cats); [reflexivity | exact H].
Defined.



Example sheet_desc_stats_all_null :
  option_map
    (map (fun r => (DescStats.feature r, DescStats.count_ r, DescStats.mean_ r,
                    DescStats.min_ r, DescStats.p25 r, DescStats.p50 r,
                    DescStats.p90 r, DescStats.max_ r, DescStats.null_count r,
                    Py.format_f 2 (DescStats.null_pct r))))
    (DescStats.sheet_desc_stats df_all_null)
  = Some [ ("label", 5, Some 0.8000%Q, Some 0.0000%Q, Some 1.0000%Q,
            Some 1.0000%Q, Some 1.0000%Q, Some 1.0000%Q, 0, "0.00");
           ("sender_in_degree_30d", 0, None, None, None, None, None, None, 5, "100.00");
           ("amount", 4, Some 4.2500%Q, Some 1.0000%Q, Some 1.7500%Q,
            Some 3.0000%Q, Some 8.2000%Q, Some 10.0000%Q, 1, "20.00") ].
Proof. vm_compute. reflexivity. Qed.

(** C8. On a well formed frame with at least one row, a [float64]
    column that is entirely null (and is not one of the two join keys)
    gets exactly one row in the descriptive statistics: its non-null
    count is 0, its mean, standard deviation, minimum, percentiles and
    maximum are all NaN, its null count is the number of rows and its
    null percentage is 100.00; the sheet is computed without error. *)
Theorem desc_stats_all_null_column
        (df : Pd.DataFrame) (c : string) (xs : list Py.float) :
  Pd.well_formed df = true ->
  (0 < Pd.nrows df)%nat ->
  Pd.get df c = Some (Pd.Float64 xs) ->
  Forall (eq None) xs ->
  c <> "account_id_x" ->
  c <> "account_id_y" ->
  exists rows r,
    DescStats.sheet_desc_stats df = Some rows /\
    map DescStats.feature rows = map fst (DescStats.numeric_cols df) /\
    In r rows /\
    DescStats.feature r = c /\
    Spec.all_nan r /\
    DescStats.null_count r = Z.of_nat (Pd.nrows df) /\
    DescStats.null_pct r = Py.round 2 (Some 100%Q) /\
    Py.format_f 2 (DescStats.null_pct r) = "100.00" /\
    forall r', In r' rows -> DescStats.feature r' = c -> r' = r.
Proof.
  intros Hwf Hpos Hg Hnull Hx Hy.
  assert (Hlen : List.length xs = Pd.nrows df) by exact (well_formed_len _ _ _ Hwf Hg).
  assert (Hne : xs <> []) by (intros ->; simpl in Hlen; lia).
  assert (Hin : In (c, Pd.Float64 xs) (DescStats.numeric_cols df))
    by (now apply numeric_cols_in).
  destruct (traverse_total DescStats.describe_row (DescStats.numeric_cols df))
    as [rows Hrows].
  { apply Forall_forall. intros p Hp.
    apply filter_In in Hp as [_ Hp]. apply andb_prop in Hp as [Hp _].
    destruct (describe_row_total p Hp) as (r & Hr & _). eauto. }
  pose proof (traverse_some _ _ _ Hrows) as HF.
  destruct (describe_row_all_null c xs Hnull Hne) as (r & Hr & Hf & Hnan & Hcount & Hpct).
  exists rows, r.
  split.
  { unfold DescStats.sheet_desc_stats.
    destruct (DescStats.numeric_cols df); [contradiction | exact Hrows]. }
  split.
  { clear - HF. induction HF as [|p r' l l' Hp _ IH]; [reflexivity|].
    simpl. now rewrite IH, (describe_row_feature _ _ Hp). }
  split.
  { destruct (Forall2_in_l _ _ _ _ HF Hin) as (r0 & Hr0 & E).
    rewrite Hr in E. now injection E as <-. }
  split; [exact Hf|]. split; [exact Hnan|].
  split; [rewrite Hcount, Hlen; reflexivity|].
  split; [exact Hpct|].
  split; [rewrite Hpct; reflexivity|].
  intros r' Hr' Hf'.
  destruct (Forall2_in_r _ _ _ _ HF Hr') as ([c' s'] & Hp & E).
  pose proof (describe_row_feature _ _ E) as Hc. simpl in Hc.
  rewrite Hf' in Hc. subst c'.
  assert (s' = Pd.Float64 xs).
  { apply (well_formed_functional df c); [exact Hwf| |].
    - apply filter_In in Hp. tauto.
    - now apply get_in. }
  subst s'. rewrite Hr in E. now injection E as <-.
Qed.

Lemma desc_stats_all_null_column_witness :
  exists rows r,
    DescStats.sheet_desc_stats df_all_null = Some rows /\
    map DescStats.feature rows = map fst (DescStats.numeric_cols df_all_null) /\
    In r rows /\
    DescStats.feature r = "sender_in_degree_30d" /\
    Spec.all_nan r /\
    DescStats.null_count r = Z.of_nat (Pd.nrows df_all_null) /\
    DescStats.null_pct r = Py.round 2 (Some 100%Q) /\
    Py.format_f 2 (DescStats.null_pct r) = "100.00" /\
    forall r', In r' rows -> DescStats.feature r' = "sender_in_degree_30d" -> r' = r.
Proof.
  apply (desc_stats_all_null_column df_all_null "sender_in_degree_30d"
           [None; None; None; None; None]);
    try reflexivity; try discriminate.
  - simpl. lia.
  - repeat (apply Forall_cons; [reflexivity|]). apply Forall_nil.
Defined.

Lemma df_corr_pep_flag_constant : Spec.constant_column df_corr "pep_flag".
Proof.
  eexists _, _. split; [reflexivity|]. split; [reflexivity|].
  exists 0%Q. repeat (apply Forall_cons; [now intros q [= <-]|]). apply Forall_nil.
Qed.

(** C2, as stated, fails: the column [pep_flag] of [df_corr] has zero
    variance, and the sheet has a row for it, whose coefficient is
    NaN. *)
Lemma constant_column_row_is_kept :
  Spec.constant_column df_corr "pep_flag" /\
  exists rows row,
    Corr.sheet_correlations quicksort_real df_corr = Some rows /\
    In row rows /\
    Corr.feature_cell row = "pep_flag" /\
    Corr.pearson_cell row = None.
Proof.
  split; [exact df_corr_pep_flag_constant|].
  destruct (sheet_correlations_sorted quicksort_real df_corr eq_refl)
    as (label & corr & front & back & HF & Hback & _ & Hsheet & _ & _ & Hnan).
  { apply quicksort_real_sorts. simpl. lia. }
  pose proof (constant_column_coefficient df_corr "pep_flag" label corr eq_refl HF)
    as Hin.
  rewrite <- Hback in Hin.
  specialize (Hin (or_introl eq_refl) df_corr_pep_flag_constant).
  destruct (enumerate_in Corr.render (1 + List.length front) _ _
              (in_map Corr.corr_stat_of _ _ Hin)) as [k Hk].
  eexists _, _. split; [exact Hsheet|]. split; [apply in_or_app; right; exact Hk|].
  split; reflexivity.
Qed.

(** C2, amended. On a labelled frame, and with an argsort that keeps
    its contract on the coefficients, the sheet has exactly one row
    per numeric column (the label and the two join keys apart).  The
    rows whose coefficient is defined come first; a column with zero
    variance is not excluded: its row is among the last rows, with a
    NaN coefficient, the direction "Negative" and the signal
    "Negligible". *)
Theorem correlations_keep_zero_variance_columns
        (argsort : list R -> list nat) (df : Pd.DataFrame) :
  Schema.labelled df = true ->
  SortSpec.sorts_on Rle 0%R argsort (Corr.sort_keys df) ->
  exists front back,
    Corr.sheet_correlations argsort df = Some (front ++ back)%list /\
    Permutation (map Corr.feature_cell (front ++ back)%list)
                (map fst (Corr.numeric_cols df)) /\
    Forall (fun row => exists r, Corr.pearson_cell row = Some r) front /\
    Forall Spec.nan_row back /\
    forall c, In c (map fst (Corr.numeric_cols df)) ->
              Spec.constant_column df c ->
              exists row, In row back /\ Corr.feature_cell row = c.
Proof.
  intros Hl Hs.
  destruct (sheet_correlations_sorted argsort df Hl Hs)
    as (label & corr & front & back & HF & Hback & Hperm & Hsheet & Hb & _ & Hnan).
  eexists _, _. split; [exact Hsheet|]. split; [|split; [|split]].
  - rewrite map_app, !(enumerate_map Corr.render Corr.feature_cell Corr.feature)
      by reflexivity.
    rewrite !map_map, <- map_app.
    rewrite (Permutation_map _ Hperm).
    clear - HF. induction HF as [|p c cols corr [Hn _] _ IH]; [constructor|].
    simpl. rewrite Hn. now constructor.
  - eapply Forall_impl; [|exact Hb]. intros row (r & a & Hr & _). eauto.
  - exact Hnan.
  - intros c Hin Hconst. apply andb_prop in Hl as [Hwf _].
    pose proof (constant_column_coefficient df c label corr Hwf HF Hin Hconst) as Hc.
    rewrite <- Hback in Hc.
    destruct (enumerate_in Corr.render (1 + List.length front) _ _
                (in_map Corr.corr_stat_of _ _ Hc)) as [k Hk].
    eexists. split; [exact Hk | reflexivity].
Qed.

Lemma correlations_keep_zero_variance_columns_witness :
  exists front back,
    Corr.sheet_correlations quicksort_real df_corr = Some (front ++ back)%list /\
    Permutation (map Corr.feature_cell (front ++ back)%list)
                (map fst (Corr.numeric_cols df_corr)) /\
    Forall (fun row => exists r, Corr.pearson_cell row = Some r) front /\
    Forall Spec.nan_row back /\
    forall c, In c (map fst (Corr.numeric_cols df_corr)) ->
              Spec.constant_column df_corr c ->
              exists row, In row back /\ Corr.feature_cell row = c.
Proof.
  apply (correlations_keep_zero_variance_columns quicksort_real df_corr).
  - reflexivity.
  - apply quicksort_real_sorts. simpl. lia.
Defined.

Lemma df_corr_three_emulator_constant :
  Spec.constant_column df_corr_three "emulator_flag".
Proof.
  eexists _, _. split; [reflexivity|]. split; [reflexivity|].
  exists 1%Q. repeat (apply Forall_cons; [now intros q [= <-]|]). apply Forall_nil.
Qed.

(** C6, as stated, fails: the sheet of [df_corr_three] has a row, the
    one of the constant column [emulator_flag], whose coefficient and
    absolute coefficient are NaN, so that not every coefficient of the
    sheet is at most 1.0 in absolute value. *)
Lemma abs_column_holds_nan :
  exists rows row,
    Corr.sheet_correlations quicksort_real df_corr_three = Some rows /\
    In row rows /\
    Corr.feature_cell row = "emulator_flag" /\
    Corr.abs_cell row = None /\
    ~ Forall (fun row => exists a, Corr.abs_cell row = Some a /\ (a <= 1)%R) rows.
Proof.
  destruct (sheet_correlations_sorted quicksort_real df_corr_three eq_refl)
    as (label & corr & front & back & HF & Hback & _ & Hsheet & _ & _ & Hnan).
  { apply quicksort_real_sorts. simpl. lia. }
  pose proof (constant_column_coefficient df_corr_three "emulator_flag" label corr
                eq_refl HF) as Hin.
  rewrite <- Hback in Hin.
  specialize (Hin (or_intror (or_introl eq_refl)) df_corr_three_emulator_constant).
  destruct (enumerate_in Corr.render (1 + List.length front) _ _
              (in_map Corr.corr_stat_of _ _ Hin)) as [k Hk].
  eexists _, _. split; [exact Hsheet|].
  split; [apply in_or_app; right; exact Hk|].
  split; [reflexivity|]. split; [reflexivity|].
  intros Hall. rewrite Forall_forall in Hall.
  destruct (Hall _ (in_or_app _ _ _ (or_intror Hk))) as (a & Ha & _).
  discriminate.
Qed.

(** C6, amended. On a labelled frame, and with an argsort that keeps
    its contract on the coefficients, the sheet consists of the rows
    whose coefficient is defined, followed by the rows whose
    coefficient is NaN.  Among the former the absolute-correlation
    column is non-increasing from the first row to the last, and every
    coefficient and absolute coefficient is at most 1.0 in absolute
    value; the ranks count the rows from 1. *)
Theorem correlations_sorted_and_bounded_where_defined
        (argsort : list R -> list nat) (df : Pd.DataFrame) :
  Schema.labelled df = true ->
  SortSpec.sorts_on Rle 0%R argsort (Corr.sort_keys df) ->
  exists front back,
    Corr.sheet_correlations argsort df = Some (front ++ back)%list /\
    Forall Spec.bounded_row front /\
    StronglySorted (fun x y => Spec.rge (Corr.abs_cell x) (Corr.abs_cell y)) front /\
    Forall Spec.nan_row back /\
    map Corr.rank (front ++ back)%list = seq 1 (List.length (front ++ back)%list).
Proof.
  intros Hl Hs.
  destruct (sheet_correlations_sorted argsort df Hl Hs)
    as (label & corr & front & back & _ & _ & _ & Hsheet & Hb & Hsorted & Hnan).
  eexists _, _. split; [exact Hsheet|]. split; [exact Hb|].
  split; [exact Hsorted|]. split; [exact Hnan|].
  rewrite map_app, !enumerate_rank, length_app, !enumerate_length, !length_map.
  now rewrite seq_app.
Qed.

Lemma correlations_sorted_and_bounded_where_defined_witness :
  exists front back,
    Corr.sheet_correlations quicksort_real df_corr_three = Some (front ++ back)%list /\
    Forall Spec.bounded_row front /\
    StronglySorted (fun x y => Spec.rge (Corr.abs_cell x) (Corr.abs_cell y)) front /\
    Forall Spec.nan_row back /\
    map Corr.rank (front ++ back)%list = seq 1 (List.length (front ++ back)%list).
Proof.
  apply (correlations_sorted_and_bounded_where_defined quicksort_real df_corr_three).
  - reflexivity.
  - apply quicksort_real_sorts. simpl. lia.
Defined.

Example zero_coefficient_of_is_night :
  Corr.corr_with_label df_zero = Some [("is_night", Some 0%R)] /\
  Corr.direction_label (Corr.direction_of (Some 0%R)) = "Negative (↓ with fraud)".
Proof.
  split.
  - change (Corr.corr_with_label df_zero)
      with (Some [("is_night",
                   Corr.pearson (map (fun z => Some (inject_Z z)) [0; 1; 0; 1])
                                (map (fun z => Some (inject_Z z)) [0; 0; 1; 1]))]).
    rewrite pearson_defined; [|vm_compute; lia|vm_compute; reflexivity].
    match goal with
    | |- context [(Q2R ?c / ?d)%R] =>
        assert (E : (c == 0)%Q) by (vm_compute; reflexivity);
        rewrite (Qeq_eqR _ _ E), Q2R_zero
    end.
    unfold Rdiv. now rewrite Rmult_0_l.
  - unfold Corr.direction_of, PyR.gt. destruct (Rlt_dec 0 0); [lra | reflexivity].
Qed.

(** C10. In the ranking a coefficient that is exactly zero gets the
    direction "Negative (↓ with fraud)": the direction is "Positive (↑
    with fraud)" only for a coefficient that is strictly positive.  The
    sheet shows the direction of each row of the ranking unchanged. *)
Theorem zero_correlation_gets_negative_direction
        (argsort : list R -> list nat) (df : Pd.DataFrame) (t : list Corr.corr_stat) :
  Corr.corr_df argsort df = Some t ->
  Corr.sheet_correlations argsort df = Some (Corr.enumerate Corr.render 1 t) /\
  map Corr.direction_cell (Corr.enumerate Corr.render 1 t) = map Corr.direction_ t /\
  Forall (fun s =>
            (Corr.pearson_r s = Some 0%R ->
             Corr.direction_ s = "Negative (↓ with fraud)") /\
            (Corr.direction_ s = "Positive (↑ with fraud)" <->
             exists r, Corr.pearson_r s = Some r /\ (0 < r)%R)) t.
Proof.
  intros Hdf. split; [|split].
  - unfold Corr.sheet_correlations. now rewrite Hdf.
  - now apply enumerate_map.
  - unfold Corr.corr_df in Hdf. apply bind_some in Hdf as (corr & _ & Hdf).
    injection Hdf as <-. rewrite Forall_map. apply Forall_forall. intros p _.
    unfold Corr.corr_stat_of. cbn [Corr.pearson_r Corr.direction_].
    unfold Corr.direction_of, PyR.gt.
    destruct (snd p) as [r|].
    + destruct (Rlt_dec 0 r) as [Hpos|Hneg]; cbn [Corr.direction_label].
      * split; [intros [= ->]; lra|]. split; [eauto | reflexivity].
      * split; [reflexivity|]. split; [discriminate|].
        intros (r' & [= <-] & Hr). contradiction.
    + cbn [Corr.direction_label]. split; [discriminate|].
      split; [discriminate|]. intros (r & Hr & _). discriminate.
Qed.

Lemma zero_correlation_gets_negative_direction_witness :
  exists t,
    Corr.corr_df quicksort_real df_zero = Some t /\
    Corr.sheet_correlations quicksort_real df_zero
    = Some (Corr.enumerate Corr.render 1 t) /\
    map Corr.direction_cell (Corr.enumerate Corr.render 1 t) = map Corr.direction_ t /\
    Forall (fun s =>
              (Corr.pearson_r s = Some 0%R ->
               Corr.direction_ s = "Negative (↓ with fraud)") /\
              (Corr.direction_ s = "Positive (↑ with fraud)" <->
               exists r, Corr.pearson_r s = Some r /\ (0 < r)%R)) t.
Proof.
  destruct (corr_sorted quicksort_real df_zero eq_refl) as
    (label & corr & front & back & _ & _ & Hdf & _).
  { apply quicksort_real_sorts. simpl. lia. }
  eexists. split; [exact Hdf|].
  apply (zero_correlation_gets_negative_direction quicksort_real df_zero _ Hdf).
Defined.

(** C7 fails on the code: with a zero baseline the comparison tables
    of the fraud types still carry a ratio, which reads "infx" (a
    non-zero mean over a zero baseline) or "nanx" (zero over zero). *)
Lemma fraud_type_ratios_over_zero_baseline :
  option_map
    (map (fun b : string * list FraudTypes.metric_row * list (string * string) =>
            (fst (fst b),
             map (fun r => (FraudTypes.metric r, FraudTypes.normal_value r,
                            FraudTypes.ratio r))
                 (filter (fun r => negb (String.eqb (FraudTypes.ratio r) ""))
                         (snd (fst b))))))
    (FraudTypes.sheet_fraud_types quicksort_float df_zero_baseline)
  = Some [
      ("mule_ring",
       [ ("Average Amount", FraudTypes.StrCell "0.00", "infx");
         ("Avg devices_per_account", FraudTypes.StrCell "1.00", "2.00x");
         ("Avg accounts_per_device", FraudTypes.StrCell "0.00", "infx") ]);
      ("layering",
       [ ("Average Amount", FraudTypes.StrCell "0.00", "infx");
         ("Avg devices_per_account", FraudTypes.StrCell "1.00", "1.00x");
         ("Avg accounts_per_device", FraudTypes.StrCell "0.00", "infx") ]);
      ("smurfing",
       [ ("Average Amount", FraudTypes.StrCell "0.00", "infx");
         ("Avg devices_per_account", FraudTypes.StrCell "1.00", "1.00x");
         ("Avg accounts_per_device", FraudTypes.StrCell "0.00", "infx") ]);
      ("ATO",
       [ ("Average Amount", FraudTypes.StrCell "0.00", "infx");
         ("Avg devices_per_account", FraudTypes.StrCell "1.00", "3.00x");
         ("Avg accounts_per_device", FraudTypes.StrCell "0.00", "nanx") ]);
      ("identity_fraud",
       [ ("Average Amount", FraudTypes.StrCell "0.00", "nanx");
         ("Avg devices_per_account", FraudTypes.StrCell "1.00", "1.00x");
         ("Avg accounts_per_device", FraudTypes.StrCell "0.00", "infx") ]) ].
Proof. vm_compute. reflexivity. Qed.

(** The comparison of the graph features does test the baseline: a
    zero mean of the legitimate rows gives the ratio NaN, which the
    sheet shows as "nanx". *)
Example graph_ratio_over_zero_baseline :
  option_map (option_map GraphEDA.ratio_cell)
             (GraphEDA.compare_col df_zero_baseline "accounts_per_device")
  = Some (Some "nanx").
Proof. vm_compute. reflexivity. Qed.

(* ================================================================== *)
(** * Further properties of the sheets                                *)
(* ================================================================== *)

(** ** Option and list facts *)

Lemma traverse_none {A B} (f : A -> option B) (l : list A) (a : A) :
  In a l -> f a = None -> Pd.traverse f l = None.
Proof.
  induction l as [|x l IH]; simpl; [contradiction|].
  intros [->|Hin] Ha.
  - now rewrite Ha.
  - destruct (f x); simpl; [|reflexivity]. now rewrite (IH Hin Ha).
Qed.

Lemma traverse_none_inv {A B} (f : A -> option B) (l : list A) :
  Pd.traverse f l = None -> exists a, In a l /\ f a = None.
Proof.
  induction l as [|x l IH]; simpl; [discriminate|].
  destruct (f x) eqn:E; simpl.
  - destruct (Pd.traverse f l); simpl; [discriminate|].
    intros _. destruct (IH eq_refl) as (a & Ha & Hn). eauto.
  - eauto.
Qed.

Lemma existsb_false_find {A} (f : A -> bool) (l : list A) :
  find f l = None -> existsb f l = false.
Proof.
  intros H. destruct (existsb f l) eqn:E; [|reflexivity].
  apply existsb_exists in E as (x & Hx & Hf).
  now rewrite (find_none _ _ H _ Hx) in Hf.
Qed.

(** ** Sheet 2: the data dictionary *)

Section DataDictFacts.
Import Py Pd Catalog DataDict.
Local Open Scope string_scope.

Lemma catalog_groups_have_fill :
  Forall (fun q : string * entry =>
            dict_get group_colors (group (snd q)) "FFFFFF" <> "FFFFFF" /\
            group (snd q) <> "Other" /\ group (snd q) <> "")
         DATA_DICT.
Proof.
  apply Forall_forall. intros q Hq.
  assert (H : forallb (fun q : string * entry =>
                         negb (String.eqb (dict_get group_colors (group (snd q)) "FFFFFF")
                                          "FFFFFF") &&
                         negb (String.eqb (group (snd q)) "Other") &&
                         negb (String.eqb (group (snd q)) "")) DATA_DICT = true)
    by (vm_compute; reflexivity).
  rewrite forallb_forall in H. specialize (H q Hq).
  apply andb_prop in H as [H H3]. apply andb_prop in H as [H1 H2].
  apply negb_true_iff in H1, H2, H3.
  apply String.eqb_neq in H1, H2, H3. auto.
Qed.

(** What the dictionary holds for a column. *)
Lemma catalog_lookup (c : string) :
  (exists e, documented c = true /\ In (c, e) DATA_DICT /\
             forall d, dict_get DATA_DICT c d = e) \/
  (documented c = false /\ forall d : entry, dict_get DATA_DICT c d = d).
Proof.
  unfold documented, dict_get.
  destruct (find (fun p : string * entry => String.eqb (fst p) c) DATA_DICT) as [q|] eqn:E.
  - left. apply find_some in E as [Hin Hq]. apply String.eqb_eq in Hq.
    exists (snd q). split; [|split; [|reflexivity]].
    + apply existsb_exists. exists q. split; [exact Hin|]. now apply String.eqb_eq.
    + rewrite <- Hq. now destruct q.
  - right. split; [|reflexivity]. now apply existsb_false_find.
Qed.
End DataDictFacts.

(** ** [groupby] on a key column, the null keys dropped *)

Section GroupDropna.
Import Py Pd PdGroup.

Lemma unique_incl (a : scalar) (l : list scalar) : In a (unique l) -> In a l.
Proof.
  revert a. induction l as [|x r IH]; simpl; intros a; [tauto|].
  intros [->|H]; [now left|]. right. apply IH. now apply filter_In in H.
Qed.

Lemma unique_NoDup (l : list scalar) : NoDup (unique l).
Proof.
  induction l as [|x r IH]; simpl; constructor.
  - intros H. apply filter_In in H as [_ H].
    now rewrite scalar_eqb_refl in H.
  - now apply NoDup_filter.
Qed.

Lemma unique_complete (a : scalar) (l : list scalar) :
  In a l -> exists b, In b (unique l) /\ scalar_eqb b a = true.
Proof.
  induction l as [|x r IH]; simpl; [contradiction|].
  intros [->|H].
  - exists a. split; [now left | apply scalar_eqb_refl].
  - destruct (IH H) as (b & Hb & E).
    destruct (scalar_eqb x b) eqn:Exb.
    + exists x. split; [now left|]. eapply scalar_eqb_trans; eauto.
    + exists b. split; [|exact E]. right. apply filter_In. now rewrite Exb.
Qed.

(** The keys of an integer column: its distinct values, in
    strictly ascending order. *)
Lemma int_group_keys (dropna : bool) (hs : list Z) :
  exists zs,
    group_keys dropna (values (Int64 hs)) = map (fun z => Some (IntKey z)) zs /\
    StronglySorted Z.lt zs /\
    forall z, In z zs <-> In z hs.
Proof.
  unfold group_keys. cbn [values].
  assert (Hk : keep (map (fun z => Some (IntKey z)) hs) = map IntKey hs).
  { induction hs as [|h hs IH]; simpl; [reflexivity | now rewrite IH]. }
  assert (Hn : existsb isna (map (fun z => Some (IntKey z)) hs) = false).
  { clear. induction hs as [|h hs IH]; simpl; [reflexivity | exact IH]. }
  rewrite Hk, Hn, andb_false_r, app_nil_r.
  set (u := stable_sort scalar_ltb (unique (map IntKey hs))).
  assert (Hperm : Permutation u (unique (map IntKey hs))) by apply stable_sort_perm.
  assert (Hdom : Forall (fun k => exists z, k = IntKey z) (unique (map IntKey hs))).
  { apply Forall_forall. intros k Hin. apply unique_incl in Hin.
    apply in_map_iff in Hin as (z & <- & _). eauto. }
  destruct (stable_sort_sorted scalar_ltb (fun k => exists z, k = IntKey z))
    with (l := unique (map IntKey hs)) as [Hs Hd].
  { intros x y [a ->] [b ->]. simpl. intros H%Z.ltb_lt. apply Z.ltb_ge. lia. }
  { intros x y z [a ->] [b ->] [c ->]. simpl.
    intros H1%Z.ltb_ge H2%Z.ltb_ge. apply Z.ltb_ge. lia. }
  { exact Hdom. }
  fold u in Hs, Hd.
  exists (map (fun k => match k with IntKey z => z | _ => 0%Z end) u).
  assert (Hu : map IntKey (map (fun k => match k with IntKey z => z | _ => 0%Z end) u) = u).
  { rewrite map_map. rewrite <- (map_id u) at 2. apply map_ext_in.
    intros k Hin. rewrite Forall_forall in Hd. now destruct (Hd k Hin) as [z ->]. }
  set (zs := map (fun k => match k with IntKey z => z | _ => 0%Z end) u) in *.
  split; [|split].
  - rewrite <- Hu at 1. now rewrite map_map.
  - assert (Hnd : NoDup zs).
    { apply (NoDup_map_inv IntKey). rewrite Hu.
      eapply Permutation_NoDup; [symmetry; exact Hperm | apply unique_NoDup]. }
    assert (Hle : StronglySorted Z.le zs).
    { rewrite <- Hu in Hs. clear - Hs.
      induction zs as [|z zs IH]; [constructor|].
      inversion Hs as [|? ? Hs' Hz]; subst. constructor; [auto|].
      rewrite Forall_map in Hz. eapply Forall_impl; [|exact Hz].
      intros a Ha. unfold not_after in Ha. simpl in Ha.
      apply Z.ltb_ge in Ha. exact Ha. }
    clear - Hnd Hle. induction Hle as [|z zs Hs IH Hz]; [constructor|].
    inversion Hnd as [|? ? Hni Hnd']; subst. constructor; [auto|].
    rewrite Forall_forall in *. intros a Ha.
    specialize (Hz a Ha). assert (a <> z) by (intros ->; contradiction). lia.
  - intros z. split.
    + intros Hin. apply (in_map IntKey) in Hin. rewrite Hu in Hin.
      apply (Permutation_in _ Hperm) in Hin. apply unique_incl in Hin.
      apply in_map_iff in Hin as (z' & [= ->] & Hz). exact Hz.
    + intros Hin. apply (in_map IntKey) in Hin.
      destruct (unique_complete _ _ Hin) as (b & Hb & E).
      assert (b = IntKey z).
      { destruct b; simpl in E; try discriminate. apply Z.eqb_eq in E. now subst. }
      subst b. apply (Permutation_in _ (Permutation_sym Hperm)) in Hb.
      rewrite <- Hu in Hb. apply in_map_iff in Hb as (z' & [= ->] & Hz). exact Hz.
Qed.

(** The size of the group of an integer key. *)
Lemma int_group_count (hs : list Z) (label : list float) (z : Z) :
  Forall holds label ->
  List.length hs = List.length label ->
  count (loc (map (key_eqb (Some (IntKey z))) (values (Int64 hs))) label)
  = count_occ Z.eq_dec hs z.
Proof.
  intros Hh Hlen. unfold count.
  rewrite dropna_holds by now apply loc_Forall.
  rewrite loc_length_true by (cbn [values]; now rewrite !length_map).
  cbn [values]. rewrite map_map, filter_id_map. cbn [key_eqb scalar_eqb]. clear.
  induction hs as [|h hs IH]; [reflexivity|].
  cbn [filter count_occ]. destruct (Z.eq_dec h z) as [->|Hne].
  - rewrite Z.eqb_refl. simpl. now rewrite IH.
  - assert (E : (z =? h)%Z = false) by (apply Z.eqb_neq; congruence).
    rewrite E. exact IH.
Qed.

Lemma isna_values (s : Series) : map isna (values s) = isnull s.
Proof.
  destruct s; cbn [values isnull]; rewrite map_map; apply map_ext; intros a;
    try reflexivity; now destruct a.
Qed.

Lemma group_keys_dropna (ks : list (option scalar)) :
  group_keys false ks
  = (group_keys true ks ++ (if existsb isna ks then [None] else []))%list.
Proof.
  unfold group_keys. simpl. now rewrite app_nil_r.
Qed.

Lemma count_null_group (ks : list (option scalar)) (label : list float) :
  Forall holds label ->
  List.length ks = List.length label ->
  count (loc (map (key_eqb None) ks) label)
  = List.length (filter (fun b : bool => b) (map isna ks)).
Proof.
  intros Hh Hlen. unfold count.
  rewrite dropna_holds by now apply loc_Forall.
  rewrite loc_length_true by now rewrite length_map.
  reflexivity.
Qed.

(** Without the null group, the counts of the groups add up to the
    number of rows that hold a key. *)
Lemma groupby_agg_counts_dropna (ks : list (option scalar)) (label : list float) :
  Forall holds label ->
  List.length ks = List.length label ->
  (Sums.zsum (map agg_count (groupby_agg true ks label))
   = Z.of_nat (List.length ks)
     - Z.of_nat (List.length (filter (fun b : bool => b) (map isna ks))))%Z.
Proof.
  intros Hh Hlen.
  pose proof (groupby_agg_counts ks label Hh Hlen) as H.
  unfold groupby_agg in *. rewrite group_keys_dropna in H.
  rewrite !map_app in H.
  assert (Happ : forall a b, Sums.zsum (a ++ b) = (Sums.zsum a + Sums.zsum b)%Z).
  { intros a b. induction a as [|x a IH]; simpl; [reflexivity | rewrite IH; lia]. }
  rewrite Happ in H.
  destruct (existsb isna ks) eqn:E.
  - cbn [map Sums.zsum fold_right agg_count] in H.
    rewrite (count_null_group ks label Hh Hlen) in H.
    unfold Sums.zsum in *. lia.
  - assert (E0 : filter (fun b : bool => b) (map isna ks) = []).
    { clear - E. induction ks as [|k ks IH]; [reflexivity|].
      simpl in *. apply orb_false_iff in E as [E1 E2]. rewrite E1. auto. }
    rewrite E0. cbn [map Sums.zsum fold_right] in H. simpl List.length.
    unfold Sums.zsum in *. lia.
Qed.

(** The aggregated frame of an integer key column. *)
Lemma groupby_int_column (df : DataFrame) (col : string) (hs : list Z) :
  Schema.labelled df = true ->
  get df col = Some (Int64 hs) ->
  exists zs g,
    groupby_label df col true = Some g /\
    map key g = map (fun z => Some (IntKey z)) zs /\
    StronglySorted Z.lt zs /\
    (forall z, In z zs <-> In z hs) /\
    Forall (fun a => exists z, key a = Some (IntKey z) /\
                               agg_count a = Z.of_nat (count_occ Z.eq_dec hs z)) g /\
    Sums.zsum (map agg_count g) = Z.of_nat (nrows df).
Proof.
  intros Hl Hg.
  destruct (labelled_label df Hl) as (Hwf & l & ls & Hlab & Hls & Hzo & Hlen).
  assert (Hh : Forall holds ls).
  { eapply Forall_impl; [|exact Hzo]. intros x. apply zero_one_holds. }
  assert (Hhs : List.length hs = nrows df) by exact (well_formed_len _ _ _ Hwf Hg).
  destruct (int_group_keys true hs) as (zs & Hk & Hs & Hin).
  exists zs. eexists. unfold groupby_label.
  rewrite Hg, Hlab. cbn [bind]. rewrite Hls. cbn [bind].
  split; [reflexivity|]. split; [|split; [exact Hs|split; [exact Hin|split]]].
  - unfold groupby_agg. rewrite map_map. cbn [key]. rewrite map_id. exact Hk.
  - unfold groupby_agg. rewrite Hk, Forall_map, Forall_map.
    apply Forall_forall. intros z _. exists z. cbn [key agg_count].
    split; [reflexivity|]. f_equal. apply int_group_count; [exact Hh | lia].
  - rewrite groupby_agg_counts_dropna; [|exact Hh|rewrite values_length; simpl; lia].
    rewrite values_length. cbn [len].
    assert (E : filter (fun b : bool => b) (map isna (values (Int64 hs))) = []).
    { cbn [values]. rewrite map_map. clear. induction hs; simpl; auto. }
    rewrite E. simpl List.length. lia.
Qed.
End GroupDropna.

(** ** Sheet 9: the temporal tables *)

Lemma Forall2_Forall_l {A B} (P : A -> Prop) (R : A -> B -> Prop)
      (l : list A) (l' : list B) :
  Forall P l -> Forall2 R l l' -> Forall2 (fun a b => P a /\ R a b) l l'.
Proof.
  intros HP HR. induction HR as [|a b l l' Hab _ IH]; constructor;
    inversion HP; subst; auto.
Qed.

Lemma Forall2_map_eq {A B C} (F : A -> C) (G : B -> C) (l : list A) (l' : list B) :
  Forall2 (fun a b => F a = G b) l l' -> map F l = map G l'.
Proof. induction 1; simpl; congruence. Qed.

Lemma Forall2_Forall_r {A B} (Q : B -> Prop) (R : A -> B -> Prop)
      (l : list A) (l' : list B) :
  (forall a b, R a b -> Q b) -> Forall2 R l l' -> Forall Q l'.
Proof. intros H. induction 1; constructor; eauto. Qed.

Section TemporalFacts.
Import Py Pd PdGroup Temporal.
Local Open Scope Z_scope.

Lemma list_index_days (d : Z) :
  (list_index days d = None <-> d < -7 \/ 6 < d) /\
  (forall s, list_index days d = Some s ->
             nth_error days (Z.to_nat (d mod 7)) = Some s).
Proof.
  unfold list_index. change (Z.of_nat (List.length days)) with 7.
  change (Z.opp 7) with (-7).
  destruct (Z.leb_spec 0 d) as [H0|H0]; destruct (Z.ltb_spec d 7) as [H7|H7];
    cbn [andb].
  - split.
    + split; [|lia]. intros H. apply nth_error_None in H.
      change (List.length days) with 7%nat in H. lia.
    + intros s Hs. now rewrite Z.mod_small by lia.
  - destruct (Z.leb_spec (-7) d); destruct (Z.ltb_spec d 0); cbn [andb]; try lia.
    split; [split; [lia | reflexivity] | discriminate].
  - destruct (Z.leb_spec (-7) d) as [Hm|Hm]; destruct (Z.ltb_spec d 0); cbn [andb];
      try lia.
    + split.
      * split; [|lia]. intros Hn. apply nth_error_None in Hn.
        change (List.length days) with 7%nat in Hn. lia.
      * intros s Hs. replace (d mod 7) with (7 + d); [exact Hs|].
        apply (Z.mod_unique_pos d 7 (-1) (7 + d)); lia.
    + split; [split; [lia | reflexivity] | discriminate].
  - lia.
Qed.

Lemma dict_item_months (m : Z) :
  dict_item months m = None <-> m < 1 \/ 12 < m.
Proof.
  split.
  - intros H.
    destruct (Z_lt_dec m 1) as [|H1]; [now left|].
    destruct (Z_lt_dec 12 m) as [|H12]; [now right|].
    exfalso.
    assert (E : m = 1 \/ m = 2 \/ m = 3 \/ m = 4 \/ m = 5 \/ m = 6 \/
                m = 7 \/ m = 8 \/ m = 9 \/ m = 10 \/ m = 11 \/ m = 12) by lia.
    repeat (destruct E as [->|E]; [discriminate H|]). subst m. discriminate H.
  - intros H. unfold dict_item, months. cbn [find fst].
    repeat match goal with
           | |- context [(?a =? m)] =>
               destruct (Z.eqb_spec a m); [lia|]
           end.
    reflexivity.
Qed.

Variable int_of_str : string -> option Z.


(** Such a table fails exactly when the lookup of one of the
    values of the column fails. *)
Lemma int_keyed_fails {B} (f : agg_row -> option B) (look : Z -> bool)
      (df : DataFrame) (col : string) (hs : list Z) :
  Schema.labelled df = true ->
  get df col = Some (Int64 hs) ->
  (forall a z, key a = Some (IntKey z) -> (f a = None <-> look z = false)) ->
  ((g <- groupby_label df col true ;; traverse f g) = None <->
   exists z, In z hs /\ look z = false).
Proof.
  intros Hl Hg Hf.
  destruct (groupby_int_column df col hs Hl Hg)
    as (zs & g & Hgb & Hkeys & Hs & Hin & Hcnt & Hsum).
  rewrite Hgb. cbn [bind]. split.
  - intros H. apply traverse_none_inv in H as (a & Ha & Hn).
    rewrite Forall_forall in Hcnt. destruct (Hcnt a Ha) as (z & Hk & _).
    exists z. split; [|now apply (Hf a z Hk)].
    apply Hin. apply (in_map key) in Ha. rewrite Hkeys, Hk in Ha.
    apply in_map_iff in Ha as (z' & [= ->] & Hz). exact Hz.
  - intros (z & Hz & Hlook). apply Hin in Hz.
    apply (in_map (fun z => Some (IntKey z))) in Hz. rewrite <- Hkeys in Hz.
    apply in_map_iff in Hz as (a & Hk & Ha).
    apply (traverse_none _ _ a Ha). now apply (Hf a z Hk).
Qed.
End TemporalFacts.

Lemma hour_table_rows (int_of_str : string -> option Z)
      (df : Pd.DataFrame) (hs : list Z) :
  Schema.labelled df = true ->
  Pd.get df "hour"%string = Some (Pd.Int64 hs) ->
  exists rows, Temporal.hour_tbl int_of_str df = Some rows.
Proof.
  intros Hl Hg.
  destruct (Temporal.hour_tbl int_of_str df) as [rows|] eqn:E; [eauto|].
  exfalso. unfold Temporal.hour_tbl in E.
  apply (int_keyed_fails _ (fun _ => true) df "hour"%string hs Hl Hg) in E
    as (z & _ & Hz); [discriminate|].
  intros a z Hk. rewrite Hk. cbn. split; discriminate.
Qed.

(** ** Sheet 1: the key metrics *)

Section MetricsFacts.
Import Py Pd PdGroup Metrics.

Lemma key_eqb_refl (a : option scalar) : key_eqb a a = true.
Proof. destruct a; simpl; [apply scalar_eqb_refl | reflexivity]. Qed.

Lemma key_eqb_trans (a b c : option scalar) :
  key_eqb a b = true -> key_eqb b c = true -> key_eqb a c = true.
Proof.
  destruct a, b, c; simpl; try discriminate; try reflexivity.
  apply scalar_eqb_trans.
Qed.

Lemma unique_values_incl (a : option scalar) (l : list (option scalar)) :
  In a (unique_values l) -> In a l.
Proof.
  revert a. induction l as [|x r IH]; simpl; intros a; [tauto|].
  intros [->|H]; [now left|]. right. apply IH. now apply filter_In in H.
Qed.

Lemma unique_values_NoDup (l : list (option scalar)) : NoDup (unique_values l).
Proof.
  induction l as [|x r IH]; simpl; constructor.
  - intros H. apply filter_In in H as [_ H]. now rewrite key_eqb_refl in H.
  - now apply NoDup_filter.
Qed.

Lemma unique_values_complete (a : option scalar) (l : list (option scalar)) :
  In a l -> exists b, In b (unique_values l) /\ key_eqb b a = true.
Proof.
  induction l as [|x r IH]; simpl; [contradiction|].
  intros [->|H].
  - exists a. split; [now left | apply key_eqb_refl].
  - destruct (IH H) as (b & Hb & E).
    destruct (key_eqb x b) eqn:Exb.
    + exists x. split; [now left|]. eapply key_eqb_trans; eauto.
    + exists b. split; [|exact E]. right. apply filter_In. now rewrite Exb.
Qed.

(** The first value of a column is the first of its distinct
    values. *)
Lemma unique_values_head (x : option scalar) (l : list (option scalar)) :
  exists r, unique_values (x :: l) = x :: r.
Proof. simpl. eauto. Qed.



Lemma filter_length_perm {A} (f : A -> bool) (l l' : list A) :
  Permutation l l' -> List.length (filter f l) = List.length (filter f l').
Proof.
  induction 1; simpl; try congruence.
  - destruct (f x); simpl; congruence.
  - destruct (f x), (f y); reflexivity.
Qed.
End MetricsFacts.

(** ** Sheet 6: the graph features *)

Section GraphFacts.
Import Py Pd.

Lemma format_f_comp (nd : nat) (q q' : Q) :
  (q == q')%Q -> format_f nd (Some q) = format_f nd (Some q').
Proof.
  intros E. unfold format_f.
  assert (E1 : Qle_bool 0 q = Qle_bool 0 q').
  { destruct (Qle_bool 0 q) eqn:A, (Qle_bool 0 q') eqn:B; try reflexivity.
    - apply Qle_bool_iff in A. rewrite E in A. apply Qle_bool_iff in A. congruence.
    - apply Qle_bool_iff in B. rewrite <- E in B. apply Qle_bool_iff in B. congruence. }
  rewrite E1. do 2 f_equal. apply rint_comp. now rewrite E.
Qed.

(** The share of nulls of a column without any value. *)
Lemma null_share_all_null (xs : list float) :
  Forall (eq None) xs -> xs <> [] ->
  exists q,
    fscale (mean (map (fun b : bool => Some (if b then 1 else 0)%Q) (map isna xs))) 100
    = Some q /\ (q == 100)%Q.
Proof.
  intros H Hne.
  assert (Hall : Forall (fun b => b = true) (map isna xs)).
  { rewrite Forall_map. eapply Forall_impl; [|exact H]. now intros x <-. }
  unfold mean.
  assert (Hd : dropna (map (fun b : bool => Some (if b then 1 else 0)%Q) (map isna xs))
               = map (fun b : bool => if b then 1 else 0)%Q (map isna xs)).
  { clear. induction (map isna xs) as [|b l IH]; simpl; [reflexivity | now rewrite IH]. }
  rewrite Hd.
  destruct (map (fun b : bool => if b then 1 else 0)%Q (map isna xs)) as [|q l] eqn:E.
  - destruct xs; [contradiction | discriminate].
  - cbn [fscale]. eexists. split; [reflexivity|].
    rewrite <- E, (qsum_ones _ Hall), !length_map.
    field. intros H0.
    change 0%Q with (inject_Z 0) in H0. apply inject_Z_injective in H0.
    destruct xs; [contradiction | discriminate].
Qed.

Lemma no_value_test (l : list bool) :
  (List.length (filter (fun b : bool => b) (map negb l)) =? 0)%nat
  = negb (existsb negb l).
Proof.
  induction l as [|b l IH]; [reflexivity|]. destruct b; simpl; auto.
Qed.

(** What the comparison makes of a column: nothing when the column
    holds no value, a row named after the column otherwise. *)
Lemma compare_col_cases (df : DataFrame) (c : string) (r : option GraphEDA.compare_row) :
  GraphEDA.compare_col df c = Some r ->
  exists s, get df c = Some s /\
            ((r = None /\ existsb negb (isnull s) = false) \/
             (exists row, r = Some row /\ GraphEDA.feature row = c /\
                          existsb negb (isnull s) = true)).
Proof.
  unfold GraphEDA.compare_col.
  destruct (get df c) as [s|]; cbn [bind]; [|discriminate].
  rewrite no_value_test. intros H. exists s. split; [reflexivity|].
  destruct (existsb negb (isnull s)); cbn [negb] in H.
  - right.
    destruct (get df "label"%string); cbn [bind] in H; [|discriminate].
    destruct (to_float s); cbn [bind] in H; [|discriminate].
    injection H as <-. eexists. repeat split.
  - left. injection H as <-. auto.
Qed.
End GraphFacts.

Lemma graph_sections_rows (df : Pd.DataFrame) (s1 : list GraphStats.stats_row)
      (s2 : list GraphEDA.compare_row) :
  GraphStats.sheet_graph_eda df = Some (s1, s2) ->
  exists rs,
    Forall2 (fun c r => GraphEDA.compare_col df c = Some r) GraphEDA.graph_cols rs /\
    s2 = flat_map (fun r => match r with Some x => [x] | None => [] end) rs.
Proof.
  unfold GraphStats.sheet_graph_eda, GraphEDA.fraud_vs_legit. intros H.
  apply bind_some in H as (r1 & _ & H).
  apply bind_some in H as (r2 & H2 & H). injection H as _ <-.
  apply bind_some in H2 as (rs & H2 & H). injection H as <-.
  exists rs. split; [now apply traverse_some | reflexivity].
Qed.

(** ** Sheet 10: the fraud types *)

Section FraudTypeFacts.
Import Py Pd PdSort PdGroup FraudTypes.

Lemma loc_no_row {A} (mask : list bool) (xs : list A) :
  existsb (fun b : bool => b) mask = false -> loc mask xs = [].
Proof.
  revert xs. induction mask as [|m mask IH]; intros xs H; [reflexivity|].
  simpl in H. apply orb_false_iff in H as [-> H].
  destruct xs; simpl; auto.
Qed.

(** [mode()[0]] over no row raises, whatever the other metrics
    are. *)
Lemma key_metrics_no_row (df : DataFrame) (ftc : Series) (ft : string) :
  get df "fraud_type"%string = Some ftc ->
  existsb (fun b : bool => b) (is_type ftc ft) = false \/
  existsb (fun b : bool => b) (is_type ftc "normal"%string) = false ->
  key_metrics df ft = None.
Proof.
  intros Hg H. unfold key_metrics. rewrite Hg. cbn [bind].
  repeat match goal with
         | |- bind (column_of ?d ?m ?c) _ = None =>
             destruct (column_of d m c); cbn [bind]; [|reflexivity]
         end.
  destruct (get df "channel"%string) as [ch|]; cbn [bind]; [|reflexivity].
  destruct (get df "transaction_type"%string) as [tt|]; cbn [bind]; [|reflexivity].
  destruct H as [H|H]; rewrite !(loc_no_row _ _ H).
  - reflexivity.
  - destruct (mode0 (loc (is_type ftc ft) (values ch))); reflexivity.
Qed.

Lemma top_rules_means (argsort : list Q -> list nat) (df : DataFrame) (ft : string) :
  top_rules argsort df ft
  = (means <- rule_means df ft ;;
     Some (map (fun p : string * float =>
                  (fst p, Py.format_f 1 (fscale (snd p) 100) ++ "%")%string)
               (firstn 5 (sort_values argsort snd false means)))).
Proof.
  unfold top_rules, rule_means. now destruct (get df "fraud_type"%string).
Qed.

Lemma rule_means_names (df : DataFrame) (ft : string) (means : list (string * float)) :
  rule_means df ft = Some means -> map fst means = Rules.rule_cols df.
Proof.
  unfold rule_means. intros H. apply bind_some in H as (ftc & _ & H).
  apply traverse_some in H. symmetry.
  rewrite <- (map_id (Rules.rule_cols df)). apply Forall2_map_eq.
  eapply Forall2_impl; [|exact H].
  intros c m Hm. apply bind_some in Hm as (xs & _ & Hm). now injection Hm as <-.
Qed.

Lemma filter_split_perm {A} (p : A -> bool) (l : list A) :
  Permutation (filter (fun a => negb (p a)) l ++ filter p l) l.
Proof.
  induction l as [|a l IH]; simpl; [constructor|].
  destruct (p a); simpl.
  - symmetry. apply Permutation_cons_app. now symmetry.
  - now constructor.
Qed.

Lemma NoDup_firstn {A} (n : nat) (l : list A) : NoDup l -> NoDup (firstn n l).
Proof.
  intros H. rewrite <- (firstn_skipn n l) in H. now apply NoDup_app_remove_r in H.
Qed.

Lemma rule_cols_NoDup (df : DataFrame) : well_formed df = true -> NoDup (Rules.rule_cols df).
Proof.
  unfold well_formed. intros H. apply andb_prop in H as [H _].
  apply distinct_NoDup in H. unfold Rules.rule_cols. now apply NoDup_filter.
Qed.

(** The rows sorted on a float key, descending: the keys decrease
    and the NaNs come last. *)
Lemma sort_values_nan_last {A} (by_ : A -> float) (argsort : list Q -> list nat)
      (rows : list A) :
  SortSpec.sorts_on Qle 0%Q argsort (rev (PdSort.keep (map by_ rows))) ->
  Permutation (sort_values argsort by_ false rows) rows /\
  StronglySorted (fun a b => nan_last_descending (by_ a) (by_ b))
                 (sort_values argsort by_ false rows).
Proof.
  intros Hs.
  destruct (sort_values_descending by_ Qle 0%Q argsort rows Hs)
    as (front & ks & -> & Hperm & Hk & Hsorted).
  split.
  - rewrite Hperm. apply filter_split_perm.
  - assert (Hnan : Forall (fun r => by_ r = None) (filter (fun r => isna (by_ r)) rows)).
    { apply Forall_forall. intros r Hr. apply filter_In in Hr as [_ Hr].
      now destruct (by_ r). }
    revert Hnan. generalize (filter (fun r => isna (by_ r)) rows) as nans.
    clear Hperm Hs. intros nans Hnan. revert ks Hk Hsorted.
    induction front as [|a front IH]; intros ks Hk Hsorted.
    + simpl. clear - Hnan. induction Hnan as [|r l Hr Hl IH]; constructor; [exact IH|].
      eapply Forall_impl; [|exact Hl]. intros b Hb. unfold nan_last_descending.
      rewrite Hr, Hb. exact I.
    + destruct ks as [|k ks]; [discriminate|]. simpl in Hk. injection Hk as Ha Hk.
      inversion Hsorted as [|? ? Hs' Hall]; subst.
      simpl. constructor; [now apply (IH ks)|].
      apply Forall_app. split.
      * assert (Hf : Forall (fun b => exists y, by_ b = Some y /\ (y <= k)%Q) front).
        { clear - Hk Hall. revert ks Hk Hall.
          induction front as [|b front IH]; intros ks Hk Hall; [constructor|].
          destruct ks as [|y ks]; [discriminate|]. simpl in Hk. injection Hk as Hb Hk.
          inversion Hall; subst. constructor; [eauto|]. now apply (IH ks). }
        eapply Forall_impl; [|exact Hf]. intros b (y & Hb & Hy).
        unfold nan_last_descending. now rewrite Ha, Hb.
      * eapply Forall_impl; [|exact Hnan]. intros b Hb.
        unfold nan_last_descending. now rewrite Ha, Hb.
Qed.

Lemma quicksort_float_small (ks : list Q) :
  (List.length ks <= 17)%nat -> SortSpec.sorts_on Qle 0%Q quicksort_float ks.
Proof.
  intros Hlen. unfold quicksort_float.
  apply sorts_on_weaken with (le := fun a b => DescStats.qlt b a = false).
  - intros a b. unfold DescStats.qlt. intros H. apply negb_false_iff in H.
    now apply Qle_bool_iff in H.
  - apply aquicksort_small_sorts; [| |exact Hlen].
    + intros x y. unfold DescStats.qlt. intros H. apply negb_true_iff in H.
      apply negb_false_iff. apply Qle_bool_iff.
      destruct (Qlt_le_dec y x) as [Hlt|Hle]; [|exact Hle].
      exfalso. apply Qlt_le_weak in Hlt. apply Qle_bool_iff in Hlt. congruence.
    + intros x y z. unfold DescStats.qlt. intros H1 H2.
      apply negb_false_iff in H1, H2. apply negb_false_iff.
      apply Qle_bool_iff in H1, H2. apply Qle_bool_iff.
      now apply Qle_trans with y.
Qed.
End FraudTypeFacts.

(** ** Rounding of rationals is monotone *)

Section RoundQ.
Import Py.
Local Open Scope Q_scope.

Lemma rint_bounds (q : Q) :
  (Qfloor q <= rint q <= Qfloor q + 1)%Z.
Proof.
  unfold rint. destruct (q - inject_Z (Qfloor q) ?= 1 # 2); [|lia|lia].
  destruct (Z.even (Qfloor q)); lia.
Qed.

Lemma rint_q_monotone (q q' : Q) : q <= q' -> (rint q <= rint q')%Z.
Proof.
  intros Hle.
  pose proof (Qfloor_resp_le _ _ Hle) as Hf.
  destruct (Z.eq_dec (Qfloor q) (Qfloor q')) as [E|E].
  - unfold rint. rewrite <- E.
    destruct (Qcompare_spec (q - inject_Z (Qfloor q)) (1 # 2)) as [H|H|H];
      destruct (Qcompare_spec (q' - inject_Z (Qfloor q)) (1 # 2)) as [H'|H'|H'];
      try (destruct (Z.even (Qfloor q))); try lia; exfalso; lra.
  - pose proof (rint_bounds q). pose proof (rint_bounds q'). lia.
Qed.

Lemma rint_inject_Z (k : Z) : rint (inject_Z k) = k.
Proof.
  unfold rint. rewrite Qfloor_Z.
  destruct (Qcompare_spec (inject_Z k - inject_Z k) (1 # 2)) as [H|H|H];
    [exfalso; lra | reflexivity | exfalso; lra].
Qed.

Lemma pow10_q_pos (nd : nat) : 0 < inject_Z (pow10 nd).
Proof.
  unfold pow10. change 0 with (inject_Z 0). rewrite <- Zlt_Qlt.
  apply Z.pow_pos_nonneg; lia.
Qed.

Lemma round_q_monotone (nd : nat) (q q' : Q) :
  q <= q' -> round_q nd q <= round_q nd q'.
Proof.
  intros H. unfold round_q. pose proof (pow10_q_pos nd) as Hp.
  apply Qmult_le_compat_r; [|apply Qlt_le_weak, Qinv_lt_0_compat, Hp].
  rewrite <- Zle_Qle. apply rint_q_monotone.
  apply Qmult_le_compat_r; [exact H | now apply Qlt_le_weak].
Qed.

Lemma round_q_inject_Z (nd : nat) (k : Z) : round_q nd (inject_Z k) == inject_Z k.
Proof.
  unfold round_q. pose proof (pow10_q_pos nd) as Hp.
  rewrite <- inject_Z_mult, rint_inject_Z, inject_Z_mult.
  field. intros H. rewrite H in Hp. now apply Qlt_irrefl in Hp.
Qed.

End RoundQ.

(** ** Sheet 4: the order statistics of a column *)

Section OrderStatistics.
Import Py Pd DescStats.
Local Open Scope Q_scope.









Lemma qsum_bounds (l : list Q) (lo hi : Q) :
  Forall (fun y => lo <= y <= hi) l ->
  inject_Z (Z.of_nat (List.length l)) * lo <= qsum l
  <= inject_Z (Z.of_nat (List.length l)) * hi.
Proof.
  induction 1 as [|y l [H1 H2] _ [IH1 IH2]].
  - cbn [List.length qsum fold_right]. change (inject_Z (Z.of_nat 0)) with 0. lra.
  - cbn [List.length qsum fold_right]. fold (qsum l).
    rewrite Nat2Z.inj_succ. unfold Z.succ. rewrite inject_Z_plus.
    change (inject_Z 1) with 1. lra.
Qed.

Lemma mean_between (xs : list float) (lo hi : Q) :
  dropna xs <> [] ->
  Forall (fun y => lo <= y <= hi) (dropna xs) ->
  exists m, mean xs = Some m /\ lo <= m <= hi.
Proof.
  unfold mean. destruct (dropna xs) as [|x r] eqn:E; [contradiction|].
  intros _ H. eexists. split; [reflexivity|].
  pose proof (qsum_bounds _ _ _ H) as [H1 H2].
  set (n := inject_Z (Z.of_nat (List.length (x :: r)))) in *.
  assert (Hn : 0 < n).
  { unfold n. change 0 with (inject_Z 0). rewrite <- Zlt_Qlt. simpl. lia. }
  split.
  - apply Qle_shift_div_l; [exact Hn|]. lra.
  - apply Qle_shift_div_r; [exact Hn|]. lra.
Qed.
End OrderStatistics.

Section Quantiles.
Import Py Pd DescStats.
Local Open Scope Q_scope.






End Quantiles.

Section OrderedRow.
Import Py Pd DescStats.
Local Open Scope Q_scope.



End OrderedRow.

(** ** The nulls of a column, as two sheets count them *)

Section NullCounts.
Import Py Pd.
Local Open Scope Q_scope.

Lemma count_plus_nulls (s : Series) (xs : list float) :
  to_float s = Some xs ->
  (Z.of_nat (count xs) + Missing.null_total s = Z.of_nat (len s))%Z.
Proof.
  unfold Missing.null_total, count.
  destruct s as [l|l|l|l]; cbn [to_float isnull len]; intros [= <-].
  - rewrite filter_id_map, (filter_none _ _ (fun _ => eq_refl)).
    assert (E : dropna (map (fun z => Some (inject_Z z)) l) = map inject_Z l).
    { induction l as [|z l IH]; simpl; [reflexivity | now rewrite IH]. }
    rewrite E, length_map. simpl. lia.
  - rewrite filter_id_map.
    induction l as [|[q|] l IH]; cbn [dropna flat_map filter isna app List.length] in *;
      [reflexivity| |]; unfold dropna in IH; lia.
  - rewrite filter_id_map, (filter_none _ _ (fun _ => eq_refl)).
    assert (E : List.length (dropna (map (fun b : bool => Some (if b then 1 else 0)) l))
                = List.length l).
    { induction l as [|z l IH]; simpl; [reflexivity | now rewrite IH]. }
    rewrite E. simpl. lia.
Qed.

Lemma dropna_indicator (bs : list bool) :
  dropna (map (fun b : bool => Some (if b then 1 else 0)) bs)
  = map (fun b : bool => if b then 1 else 0) bs.
Proof. induction bs as [|b bs IH]; simpl; [reflexivity | now rewrite IH]. Qed.

Lemma qsum_indicator (bs : list bool) :
  qsum (map (fun b : bool => if b then 1 else 0) bs)
  == inject_Z (Z.of_nat (List.length (filter (fun b : bool => b) bs))).
Proof.
  induction bs as [|b bs IH]; [reflexivity|].
  cbn [map qsum fold_right filter]. fold (qsum (map (fun b : bool => if b then 1 else 0) bs)).
  rewrite IH. destruct b.
  - cbn [List.length]. rewrite Nat2Z.inj_succ. unfold Z.succ.
    rewrite inject_Z_plus. change (inject_Z 1) with 1. ring.
  - ring.
Qed.

(** The share of nulls of a column is the same, whether it is
    taken as the mean of the null mask or as the null count over
    the number of rows. *)
Lemma null_pct_two_ways (s : Series) :
  DescStats.null_pct_of s = Missing.pct_of_rows (Missing.null_total s) (len s).
Proof.
  unfold DescStats.null_pct_of, Missing.pct_of_rows, Missing.null_total, mean.
  rewrite dropna_indicator.
  assert (Hl : List.length (isnull s) = len s).
  { destruct s; cbn [isnull len]; apply length_map. }
  destruct (len s) as [|n] eqn:En.
  - destruct (isnull s); [reflexivity | discriminate].
  - destruct (isnull s) as [|b bs] eqn:Eb; [discriminate|].
    cbn [map fscale round]. f_equal. apply round_q_comp.
    change ((if b then 1 else 0) :: map (fun b : bool => if b then 1 else 0) bs)
      with (map (fun b : bool => if b then 1 else 0) (b :: bs)).
    rewrite qsum_indicator, length_map, Hl. reflexivity.
Qed.
End NullCounts.

(** ** Sheet 11: the labels of a coefficient *)

Lemma StronglySorted_app {A} (R : A -> A -> Prop) (l l' : list A) :
  StronglySorted R l -> StronglySorted R l' ->
  (forall a b, In a l -> In b l' -> R a b) ->
  StronglySorted R (l ++ l').
Proof.
  intros Hl Hl' H. induction Hl as [|a l Hs IH Ha]; simpl; [exact Hl'|].
  constructor.
  - apply IH. intros x y Hx Hy. apply H; [now right | exact Hy].
  - apply Forall_app. split; [exact Ha|].
    apply Forall_forall. intros b Hb. apply H; [now left | exact Hb].
Qed.

Section CorrLabels.
Import Py Pd Corr.
Local Open Scope R_scope.

Lemma signal_monotone (x y : PyR.rfloat) :
  Spec.rge x y ->
  (signal_level (signal_strength y) <= signal_level (signal_strength x))%nat.
Proof.
  destruct x as [a|], y as [b|]; simpl; try contradiction. intros Hba.
  unfold signal_strength, PyR.gt.
  repeat match goal with
         | |- context [Rlt_dec ?c ?v] => destruct (Rlt_dec c v)
         end; cbn; try lia; exfalso; lra.
Qed.

Lemma signal_of_nan : signal_level (signal_strength None) = 0%nat.
Proof. reflexivity. Qed.

Lemma round_r_decimal (k : Z) : PyR.round_r 4 (IZR k / 10000) = IZR k / 10000.
Proof.
  unfold PyR.round_r. change (IZR (pow10 4)) with 10000.
  replace (IZR k / 10000 * 10000) with (IZR k) by (field; lra).
  now rewrite rint_IZR.
Qed.

(** Rounding to four decimals does not move a value across a
    bound that has four decimals. *)
Lemma round_r_above (k : Z) (x : R) :
  IZR k / 10000 < PyR.round_r 4 x -> IZR k / 10000 < x.
Proof.
  intros H. apply Rnot_le_lt. intros Hle.
  apply (round_r_monotone 4) in Hle. rewrite round_r_decimal in Hle. lra.
Qed.

Lemma round_r_below (k : Z) (x : R) :
  PyR.round_r 4 x < IZR k / 10000 -> x < IZR k / 10000.
Proof.
  intros H. apply Rnot_le_lt. intros Hle.
  apply (round_r_monotone 4) in Hle. rewrite round_r_decimal in Hle. lra.
Qed.

Lemma gt_rounded (k : Z) (x : R) :
  PyR.round_r 4 x <> IZR k / 10000 ->
  PyR.gt (Some (PyR.round_r 4 x)) (IZR k / 10000) = PyR.gt (Some x) (IZR k / 10000).
Proof.
  intros Hne. unfold PyR.gt.
  destruct (Rlt_dec (IZR k / 10000) (PyR.round_r 4 x)) as [H|H];
    destruct (Rlt_dec (IZR k / 10000) x) as [H'|H']; try reflexivity; exfalso.
  - apply H'. now apply round_r_above.
  - assert (PyR.round_r 4 x < IZR k / 10000) by lra.
    apply round_r_below in H0. lra.
Qed.
End CorrLabels.

Lemma StronglySorted_always {A} (R : A -> A -> Prop) (l : list A) :
  (forall a b, In b l -> R a b) -> StronglySorted R l.
Proof.
  intros H. induction l as [|x l IH]; constructor.
  - apply IH. intros a b Hb. apply H. now right.
  - apply Forall_forall. intros b Hb. apply H. now right.
Qed.

Lemma StronglySorted_map {A B} (f : A -> B) (R : B -> B -> Prop) (l : list A) :
  StronglySorted (fun a b => R (f a) (f b)) l -> StronglySorted R (map f l).
Proof.
  induction 1 as [|a l Hs IH Ha]; simpl; constructor; [exact IH|].
  now rewrite Forall_map.
Qed.

Section CorrSheetLabels.
Import Py Pd Corr.
Local Open Scope R_scope.

Lemma sheet_correlations_rows (argsort : list R -> list nat) (df : DataFrame)
      (rows : list corr_row) :
  sheet_correlations argsort df = Some rows ->
  exists ps : list (string * PyR.rfloat),
    rows = enumerate render 1 (map corr_stat_of ps).
Proof.
  unfold sheet_correlations, corr_df. intros H.
  apply bind_some in H as (t & Ht & H). injection H as <-.
  apply bind_some in Ht as (corr & _ & Ht). injection Ht as <-.
  eauto.
Qed.

Lemma signal_of_rounded (x : R) :
  PyR.round_r 4 x <> 5 / 10 -> PyR.round_r 4 x <> 3 / 10 ->
  PyR.round_r 4 x <> 15 / 100 -> PyR.round_r 4 x <> 5 / 100 ->
  signal_strength (Some (PyR.round_r 4 x)) = signal_strength (Some x).
Proof.
  intros H1 H2 H3 H4. unfold signal_strength.
  replace (5 / 10) with (IZR 5000 / 10000) in * by lra.
  replace (3 / 10) with (IZR 3000 / 10000) in * by lra.
  replace (15 / 100) with (IZR 1500 / 10000) in * by lra.
  replace (5 / 100) with (IZR 500 / 10000) in * by lra.
  now rewrite !gt_rounded.
Qed.
End CorrSheetLabels.

(** ** Sheet 8: the ranges of the per-rule statistics *)

Section RuleRanges.
Import Py Pd Rules.
Local Open Scope Q_scope.

Lemma strength_cell_level_label (s : strength) :
  strength_cell_level (strength_label s) = strength_level s.
Proof. destruct s; vm_compute; reflexivity. Qed.

Lemma fgt_true (x : float) (k : Q) : fgt x k = true <-> exists q, x = Some q /\ k < q.
Proof.
  destruct x as [q|]; simpl.
  - rewrite negb_true_iff. split.
    + intros H. exists q. split; [reflexivity|]. apply Qnot_le_lt.
      intros Hle. apply Qle_bool_iff in Hle. congruence.
    + intros (q' & [= <-] & H). destruct (Qle_bool q k) eqn:E; [|reflexivity].
      apply Qle_bool_iff in E. exfalso. eapply Qlt_irrefl, Qlt_le_trans; eauto.
  - split; [discriminate | intros (q & H & _); discriminate].
Qed.

Lemma strength_monotone (x y : float) :
  Spec.fge x y ->
  (strength_level (signal_strength y) <= strength_level (signal_strength x))%nat.
Proof.
  destruct x as [a|], y as [b|]; simpl; try contradiction. intros Hba.
  unfold signal_strength.
  repeat match goal with
         | |- context [fgt (Some ?v) ?c] =>
             let E := fresh "E" in
             destruct (fgt (Some v) c) eqn:E;
             [apply fgt_true in E as (? & [= <-] & E)
             |assert (v <= c) by
                 (apply Qnot_lt_le; intros Hlt;
                  assert (Ht : fgt (Some v) c = true)
                    by (apply fgt_true; eauto);
                  congruence);
              clear E]
         end; cbn; try lia; exfalso; lra.
Qed.
End RuleRanges.

Section RuleRates.
Import Py Pd Rules.
Local Open Scope Q_scope.

Lemma zero_one_range (xs : list float) :
  Forall zero_one xs -> Forall (fun y => 0 <= y <= 1) (dropna xs).
Proof.
  intros H. apply dropna_Forall. eapply Forall_impl; [|exact H].
  intros x (q & -> & [E|E]) q' [= <-]; rewrite E; split; discriminate.
Qed.

Lemma mean_zero_one (xs : list float) (m : Q) :
  Forall zero_one xs -> mean xs = Some m -> 0 <= m <= 1.
Proof.
  intros H Hm.
  destruct (mean_between xs 0 1) as (m' & Hm' & Hr).
  - intros E. apply mean_none in E. congruence.
  - now apply zero_one_range.
  - rewrite Hm in Hm'. now injection Hm' as <-.
Qed.

Lemma sum_zero_one_count (xs : list float) :
  Forall zero_one xs ->
  sum xs == inject_Z (Z.of_nat (List.length (filter (fun b : bool => b)
                                                    (eq_scalar xs 1)))).
Proof.
  unfold sum, eq_scalar.
  induction 1 as [|x xs (q & -> & [E|E]) _ IH].
  - reflexivity.
  - cbn [dropna flat_map app map qsum fold_right]. fold (dropna xs). fold (qsum (dropna xs)).
    assert (Hb : Qeq_bool q 1 = false).
    { destruct (Qeq_bool q 1) eqn:B; [|reflexivity].
      apply Qeq_bool_iff in B. rewrite E in B. discriminate. }
    rewrite Hb. cbn [filter]. rewrite IH, E. ring.
  - cbn [dropna flat_map app map qsum fold_right]. fold (dropna xs). fold (qsum (dropna xs)).
    assert (Hb : Qeq_bool q 1 = true) by now apply Qeq_bool_iff.
    rewrite Hb. cbn [filter List.length]. rewrite IH, E, Nat2Z.inj_succ.
    unfold Z.succ. rewrite inject_Z_plus. change (inject_Z 1) with 1. ring.
Qed.

Lemma int_integer (q : Q) (c : Z) : q == inject_Z c -> int q = c.
Proof.
  unfold Qeq, int. simpl. rewrite Z.mul_1_r. intros ->.
  apply Z.quot_mul. discriminate.
Qed.

(** The statistics of a binary rule column of a labelled frame. *)
Lemma rule_stat_of_ranges (df : DataFrame) (c : string) :
  Schema.labelled df = true ->
  Schema.binary_column df c = true ->
  (0 < nrows df)%nat ->
  exists s, rule_stat_of df c = Some s /\
            (0 <= total_triggered s <= Z.of_nat (nrows df))%Z /\
            (exists tr, trigger_rate s = Some tr /\
                        tr == inject_Z (total_triggered s)
                              / inject_Z (Z.of_nat (nrows df)) * 100 /\
                        0 <= tr <= 100) /\
            (exists ft, f_triggered s = Some ft /\ 0 <= ft <= 100) /\
            (forall fn, f_not_triggered s = Some fn -> 0 <= fn <= 100).
Proof.
  intros Hl Hc Hn.
  destruct (rule_stat_of_binary df c Hl Hc) as (s & Hs & _ & [ft Hft] & _).
  exists s. split; [exact Hs|].
  apply andb_prop in Hl as [Hwf Hlab].
  apply binary_column_get in Hc as (col & xs & Hcol & Hxs & Bxs).
  apply binary_column_get in Hlab as (l & ls & Hlb & Hls & Bls).
  unfold rule_stat_of in Hs. rewrite Hcol in Hs. cbn [bind] in Hs.
  rewrite Hxs in Hs. cbn [bind] in Hs. rewrite Hlb in Hs. cbn [bind] in Hs.
  rewrite Hls in Hs. cbn [bind] in Hs. injection Hs as <-.
  cbn [total_triggered trigger_rate f_triggered f_not_triggered] in *.
  assert (Hlen : List.length xs = nrows df).
  { etransitivity; [exact (to_float_length _ _ Hxs)|].
    exact (well_formed_len _ _ _ Hwf Hcol). }
  pose proof (sum_zero_one_count xs Bxs) as Hsum.
  set (k := List.length (filter (fun b : bool => b) (eq_scalar xs 1))) in *.
  assert (Hk : (k <= nrows df)%nat).
  { unfold k. rewrite <- Hlen.
    etransitivity; [apply filter_length_le|]. unfold eq_scalar. now rewrite length_map. }
  rewrite (int_integer _ _ Hsum) in *.
  split; [lia|]. split; [|split].
  - assert (Hd : List.length (dropna xs) = nrows df).
    { rewrite <- Hlen. apply dropna_holds.
      eapply Forall_impl; [|exact Bxs]. apply zero_one_holds. }
    unfold mean. fold (sum xs).
    destruct (dropna xs) as [|q r] eqn:E; [simpl in Hd; lia|].
    cbn [fscale]. eexists. split; [reflexivity|].
    unfold sum in Hsum. rewrite E in Hsum.
    assert (Hpos : 0 < inject_Z (Z.of_nat (nrows df))).
    { change 0 with (inject_Z 0). rewrite <- Zlt_Qlt. lia. }
    rewrite Hd, Hsum. split; [reflexivity|].
    assert (Hk0 : 0 <= inject_Z (Z.of_nat k)).
    { change 0 with (inject_Z 0). rewrite <- Zle_Qle. lia. }
    assert (Hk1 : inject_Z (Z.of_nat k) <= inject_Z (Z.of_nat (nrows df))).
    { rewrite <- Zle_Qle. lia. }
    assert (H1 : 0 <= inject_Z (Z.of_nat k) / inject_Z (Z.of_nat (nrows df))).
    { apply Qle_shift_div_l; [exact Hpos | lra]. }
    assert (H2 : inject_Z (Z.of_nat k) / inject_Z (Z.of_nat (nrows df)) <= 1).
    { apply Qle_shift_div_r; [exact Hpos | lra]. }
    lra.
  - exists ft. split; [exact Hft|].
    destruct (Z.of_nat k >? 0)%Z.
    + destruct (mean (loc (eq_scalar xs 1) ls)) as [m|] eqn:Em; [|discriminate].
      cbn [fscale] in Hft. injection Hft as <-.
      pose proof (mean_zero_one _ m (loc_Forall _ _ _ Bls) Em). lra.
    + injection Hft as <-. lra.
  - intros fn Hfn.
    destruct (mean (loc (eq_scalar xs 0) ls)) as [m|] eqn:Em; [|discriminate].
    cbn [fscale] in Hfn. injection Hfn as <-.
    pose proof (mean_zero_one _ m (loc_Forall _ _ _ Bls) Em). lra.
Qed.
End RuleRates.

(** ** Sheets 1 and 7: the groups of a column, with and without the nulls *)


Section GroupsWithNulls.
Import Py Pd PdGroup.

End GroupsWithNulls.

(** ** Sheet 5: the null percentages *)

Section MissingRanges.
Import Py Pd Missing.
Local Open Scope Q_scope.

Lemma null_total_le (s : Series) : (0 <= null_total s <= Z.of_nat (len s))%Z.
Proof.
  unfold null_total. split; [lia|]. apply inj_le.
  etransitivity; [apply filter_length_le|].
  destruct s; cbn [isnull len]; now rewrite length_map.
Qed.

Lemma pct_of_rows_range (c : Z) (n : nat) :
  (0 < n)%nat -> (0 <= c <= Z.of_nat n)%Z ->
  exists p, pct_of_rows c n = Some p /\ 0 <= p <= 100 /\
            (c = 0%Z -> p == 0) /\ (c = Z.of_nat n -> p == 100).
Proof.
  intros Hn Hc. unfold pct_of_rows. destruct n as [|n']; [lia|].
  set (n := S n') in *. eexists. split; [reflexivity|].
  assert (Hpos : 0 < inject_Z (Z.of_nat n)).
  { change 0 with (inject_Z 0). rewrite <- Zlt_Qlt. lia. }
  assert (Hc0 : 0 <= inject_Z c).
  { change 0 with (inject_Z 0). rewrite <- Zle_Qle. lia. }
  assert (Hc1 : inject_Z c <= inject_Z (Z.of_nat n)) by (rewrite <- Zle_Qle; lia).
  assert (H0 : 0 <= inject_Z c / inject_Z (Z.of_nat n))
    by (apply Qle_shift_div_l; [exact Hpos | lra]).
  assert (H1 : inject_Z c / inject_Z (Z.of_nat n) <= 1)
    by (apply Qle_shift_div_r; [exact Hpos | lra]).
  pose proof (round_q_inject_Z 2 0) as R0. pose proof (round_q_inject_Z 2 100) as R100.
  change (inject_Z 0) with 0 in R0. change (inject_Z 100) with 100 in R100.
  assert (L0 : 0 <= round_q 2 0) by (apply Qle_lteq; right; now symmetry).
  assert (L100 : round_q 2 100 <= 100) by (apply Qle_lteq; right; exact R100).
  split; [split|split].
  - apply Qle_trans with (round_q 2 0); [exact L0|]. apply round_q_monotone. lra.
  - apply Qle_trans with (round_q 2 100); [|exact L100]. apply round_q_monotone. lra.
  - intros ->.
    rewrite (round_q_comp 2 (inject_Z 0 / inject_Z (Z.of_nat n) * 100) 0);
      [exact R0|]. change (inject_Z 0) with 0. field. lra.
  - intros ->.
    rewrite (round_q_comp 2 (inject_Z (Z.of_nat n) / inject_Z (Z.of_nat n) * 100) 100);
      [exact R100|]. field. lra.
Qed.
End MissingRanges.



Lemma existsb_id_map {A} (f : A -> bool) (l : list A) :
  existsb (fun b : bool => b) (map f l) = existsb f l.
Proof. induction l as [|a l IH]; simpl; [reflexivity | now rewrite IH]. Qed.

(** ** Sheet 1: the counts of the fraud types *)

Section SortIntKey.
Import Pd PdSort.

(** A descending sort on an integer column that holds no null. *)
Lemma sort_values_int_key {A} (f : A -> Z) (argsort : list Z -> list nat)
      (rows : list A) :
  SortSpec.sorts_on Z.le 0%Z argsort (rev (map f rows)) ->
  Permutation (sort_values argsort (fun r => Some (f r)) false rows) rows /\
  StronglySorted (fun a b => (f b <= f a)%Z)
                 (sort_values argsort (fun r => Some (f r)) false rows).
Proof.
  intros H. rewrite <- (keep_map_Some f) in H.
  destruct (sort_values_descending (fun r => Some (f r)) Z.le 0%Z argsort rows H)
    as (front & ks & Heq & Hperm & Hkeys & Hsorted).
  rewrite filter_none in Heq by reflexivity.
  rewrite filter_all in Hperm by reflexivity.
  rewrite app_nil_r in Heq. rewrite Heq. split; [exact Hperm|].
  rewrite <- (map_map f Some) in Hkeys. apply map_Some_inj in Hkeys.
  subst ks. clear - Hsorted.
  induction front as [|r front IH]; [constructor|].
  simpl in Hsorted. inversion Hsorted as [|? ? Hs Hr]; subst.
  constructor; [auto|]. now rewrite Forall_map in Hr.
Qed.
End SortIntKey.

Section ValueCounts.
Import Py Pd PdGroup FraudTypeDistribution.



End ValueCounts.

Section TypeCounts.
Import Py Pd PdGroup FraudTypeDistribution.

Lemma filter_keep_key (k : scalar) (vs : list (option scalar)) :
  List.length (filter (scalar_eqb k) (keep vs))
  = List.length (filter (key_eqb (Some k)) vs).
Proof.
  unfold keep.
  induction vs as [|[x|] vs IH]; cbn [flat_map app filter key_eqb];
    [reflexivity| |exact IH].
  destruct (scalar_eqb k x); simpl; now rewrite IH.
Qed.

(** The row of a fraud type that occurs in the frame. *)
Lemma ft_row_of_type (argsort : list Z -> list nat) (df : DataFrame) (s : Series)
      (rows : list type_row) (k : string) :
  get df "fraud_type"%string = Some s ->
  SortSpec.sorts_on Z.le 0%Z argsort (sort_keys (values s)) ->
  ft argsort df = Some rows ->
  In (Some (StrKey k)) (values s) ->
  exists r, In r rows /\ fraud_type r = StrKey k /\
            count r = Z.of_nat (List.length
                                  (filter (fun b : bool => b)
                                          (FraudTypes.is_type s k))).
Proof.
  intros Hg Hs Hft Hin. unfold ft in Hft. rewrite Hg in Hft. cbn [bind] in Hft.
  apply bind_some in Hft as (g & _ & Hft).
  apply (f_equal (fun o => match o with Some x => x | None => rows end)) in Hft.
  cbv beta iota in Hft. subst rows.
  unfold sort_keys in Hs.
  destruct (sort_values_int_key snd argsort _ Hs) as [Hperm _].
  fold (value_counts argsort (values s)) in Hperm.
  apply in_keep in Hin.
  destruct (unique_complete _ _ Hin) as (b & Hb & E).
  assert (b = StrKey k).
  { destruct b; simpl in E; try discriminate. apply String.eqb_eq in E. now subst. }
  subst b.
  assert (Hp : In (StrKey k,
                   Z.of_nat (List.length (filter (scalar_eqb (StrKey k))
                                                 (keep (values s)))))
                  (value_counts argsort (values s))).
  { apply (Permutation_in _ (Permutation_sym Hperm)).
    unfold value_counts_unsorted.
    exact (in_map (fun k0 => (k0, Z.of_nat (List.length
                                              (filter (scalar_eqb k0)
                                                      (keep (values s))))))
                  _ _ Hb). }
  eexists. split; [exact (in_map _ _ _ Hp)|]. cbn [fraud_type count fst snd].
  split; [reflexivity|]. f_equal. unfold FraudTypes.is_type.
  rewrite filter_id_map. apply filter_keep_key.
Qed.

Lemma is_type_some_row (s : Series) (k : string) :
  existsb (fun b : bool => b) (FraudTypes.is_type s k) = true ->
  In (Some (StrKey k)) (values s).
Proof.
  unfold FraudTypes.is_type. rewrite existsb_id_map. intros H.
  apply existsb_exists in H as (x & Hx & E).
  destruct x as [x|]; simpl in E; [|discriminate].
  destruct x; simpl in E; try discriminate. apply String.eqb_eq in E. now subst.
Qed.

(** The first of the key metrics, once they are computed. *)
Lemma key_metrics_counts (df : DataFrame) (s : Series) (ft : string)
      (km : list FraudTypes.metric_row) :
  get df "fraud_type"%string = Some s ->
  FraudTypes.key_metrics df ft = Some km ->
  hd_error km
  = Some {| FraudTypes.metric := "Transaction Count";
            FraudTypes.fraud_value :=
              FraudTypes.IntCell
                (Z.of_nat (List.length (filter (fun b : bool => b)
                                               (FraudTypes.is_type s ft))));
            FraudTypes.normal_value :=
              FraudTypes.IntCell
                (Z.of_nat (List.length (filter (fun b : bool => b)
                                               (FraudTypes.is_type s "normal"))));
            FraudTypes.ratio := "" |}.
Proof.
  intros Hg. unfold FraudTypes.key_metrics. rewrite Hg. cbn [bind].
  repeat match goal with
         | |- bind ?x _ = Some _ -> _ =>
             destruct x; cbn [bind]; [|discriminate]
         end.
  now intros [= <-].
Qed.
End TypeCounts.

(* ================================================================== *)
(** * Properties of the sheets the report also has                    *)
(* ================================================================== *)

Local Open Scope string_scope.

(** X1. The data dictionary has one row per column of the frame, in
    the order of the columns.  The row of a column that [DATA_DICT]
    documents shows the type, group, definition and formula of its
    entry, and its fill is the one of the group, never the default;
    the row of any other column shows the dtype of the column, the
    group "Other", an empty definition and formula, and the default
    fill "FFFFFF". *)
Theorem data_dict_row_per_column (df : Pd.DataFrame) :
  Forall2
    (fun (p : string * Pd.Series) (r : DataDict.dict_row) =>
       DataDict.column_name r = fst p /\
       ((exists e,
           DataDict.documented (fst p) = true /\
           In (fst p, e) Catalog.DATA_DICT /\
           DataDict.data_type_cell r = Catalog.data_type e /\
           DataDict.group_cell r = Catalog.group e /\
           DataDict.definition_cell r = Catalog.definition e /\
           DataDict.formula_cell r = Catalog.formula e /\
           DataDict.bg r <> "FFFFFF") \/
        (DataDict.documented (fst p) = false /\
         DataDict.data_type_cell r = Pd.dtype (snd p) /\
         DataDict.group_cell r = "Other" /\
         DataDict.definition_cell r = "" /\
         DataDict.formula_cell r = "" /\
         DataDict.bg r = "FFFFFF")))
    (Pd.columns df) (DataDict.sheet_data_dict df).
Proof.
  unfold DataDict.sheet_data_dict.
  induction (Pd.columns df) as [|p cols IH]; simpl; constructor; [|exact IH].
  split; [reflexivity|]. unfold DataDict.row_of. cbn [DataDict.column_name
    DataDict.data_type_cell DataDict.group_cell DataDict.definition_cell
    DataDict.formula_cell DataDict.bg].
  destruct (catalog_lookup (fst p)) as [(e & Hd & Hin & He)|[Hd He]]; rewrite He.
  - left. exists e. repeat (split; [first [exact Hd | exact Hin | reflexivity]|]).
    pose proof catalog_groups_have_fill as H. rewrite Forall_forall in H.
    exact (proj1 (H _ Hin)).
  - right. repeat (split; [first [exact Hd | reflexivity]|]). reflexivity.
Qed.

(** X2. The feature group of a column is read from the same
    dictionary by the missing-value sheet and by the data dictionary:
    for a documented column both sheets show the group of its entry;
    for any other column the missing-value sheet shows an empty group
    where the data dictionary shows "Other", and both show the dtype
    of the column as its data type. *)
Theorem missing_group_matches_data_dict
        (argsort : list Z -> list nat) (df : Pd.DataFrame) :
  SortSpec.sorts_on Z.le 0 argsort (Missing.sort_keys df) ->
  Forall
    (fun m : Missing.missing_row =>
       exists d,
         In d (DataDict.sheet_data_dict df) /\
         DataDict.column_name d = Missing.col_name m /\
         if DataDict.documented (Missing.col_name m)
         then Missing.group_cell m = DataDict.group_cell d /\
              Missing.group_cell m <> ""
         else Missing.group_cell m = "" /\
              DataDict.group_cell d = "Other" /\
              DataDict.data_type_cell d = Missing.data_type_cell m)
    (Missing.sheet_missing argsort df).
Proof.
  intros Hs. destruct (nulls_sorted argsort df Hs) as [Hperm _].
  unfold Missing.sheet_missing. rewrite Forall_map.
  eapply Permutation_Forall; [symmetry; exact Hperm|].
  unfold Missing.nulls_unsorted. rewrite Forall_map.
  apply Forall_forall. intros p Hp.
  exists (DataDict.row_of p). split; [now apply in_map|].
  split; [reflexivity|].
  cbn [Missing.render Missing.col_name Missing.group_cell Missing.data_type_cell
       Missing.column Missing.group_name Missing.dtype_name].
  unfold DataDict.row_of.
  cbn [DataDict.group_cell DataDict.data_type_cell].
  destruct (catalog_lookup (fst p)) as [(e & Hd & Hin & He)|[Hd He]];
    rewrite Hd, !He.
  - split; [reflexivity|].
    pose proof catalog_groups_have_fill as H. rewrite Forall_forall in H.
    exact (proj2 (proj2 (H _ Hin))).
  - repeat split.
Qed.

Lemma missing_group_matches_data_dict_witness :
  Forall
    (fun m : Missing.missing_row =>
       exists d,
         In d (DataDict.sheet_data_dict df_nulls) /\
         DataDict.column_name d = Missing.col_name m /\
         if DataDict.documented (Missing.col_name m)
         then Missing.group_cell m = DataDict.group_cell d /\
              Missing.group_cell m <> ""
         else Missing.group_cell m = "" /\
              DataDict.group_cell d = "Other" /\
              DataDict.data_type_cell d = Missing.data_type_cell m)
    (Missing.sheet_missing quicksort_int df_nulls).
Proof.
  apply (missing_group_matches_data_dict quicksort_int df_nulls).
  apply sorts_on_b_true. vm_compute. reflexivity.
Defined.

Example sheet_temporal_six_rows :
  Temporal.sheet_temporal (fun _ => None) df_temporal
  = Some
      ([ {| Temporal.hour := 3; Temporal.hour_total := 2; Temporal.hour_fraud := 1;
            Temporal.hour_rate := "50.0%"; Temporal.hour_period := "Night (22-05)";
            Temporal.hour_flagged := true |};
         {| Temporal.hour := 14; Temporal.hour_total := 2; Temporal.hour_fraud := 1;
            Temporal.hour_rate := "50.0%"; Temporal.hour_period := "Business (9-17)";
            Temporal.hour_flagged := true |};
         {| Temporal.hour := 17; Temporal.hour_total := 1; Temporal.hour_fraud := 1;
            Temporal.hour_rate := "100.0%"; Temporal.hour_period := "Evening (17-21)";
            Temporal.hour_flagged := true |};
         {| Temporal.hour := 23; Temporal.hour_total := 1; Temporal.hour_fraud := 0;
            Temporal.hour_rate := "0.0%"; Temporal.hour_period := "Night (22-05)";
            Temporal.hour_flagged := false |} ],
       [ {| Temporal.number := -1; Temporal.name := "Sunday"; Temporal.total := 1;
            Temporal.fraud_count := 1; Temporal.fraud_rate := "100.0%" |};
         {| Temporal.number := 0; Temporal.name := "Monday"; Temporal.total := 1;
            Temporal.fraud_count := 0; Temporal.fraud_rate := "0.0%" |};
         {| Temporal.number := 3; Temporal.name := "Thursday"; Temporal.total := 2;
            Temporal.fraud_count := 1; Temporal.fraud_rate := "50.0%" |};
         {| Temporal.number := 5; Temporal.name := "Saturday"; Temporal.total := 1;
            Temporal.fraud_count := 0; Temporal.fraud_rate := "0.0%" |};
         {| Temporal.number := 6; Temporal.name := "Sunday"; Temporal.total := 1;
            Temporal.fraud_count := 1; Temporal.fraud_rate := "100.0%" |} ],
       [ {| Temporal.number := 1; Temporal.name := "Jan"; Temporal.total := 2;
            Temporal.fraud_count := 0; Temporal.fraud_rate := "0.0%" |};
         {| Temporal.number := 6; Temporal.name := "Jun"; Temporal.total := 2;
            Temporal.fraud_count := 1; Temporal.fraud_rate := "50.0%" |};
         {| Temporal.number := 7; Temporal.name := "Jul"; Temporal.total := 1;
            Temporal.fraud_count := 1; Temporal.fraud_rate := "100.0%" |};
         {| Temporal.number := 12; Temporal.name := "Dec"; Temporal.total := 1;
            Temporal.fraud_count := 1; Temporal.fraud_rate := "100.0%" |} ]).
Proof. vm_compute. reflexivity. Qed.



(** X4. On a labelled frame whose [hour], [day_of_week] and [month]
    columns hold integers, the temporal sheet raises exactly when some
    day of the week lies outside -7 .. 6 or some month lies outside
    1 .. 12.  When it does not raise, the name of a day [d] is the
    entry [d mod 7] of the list of days (a negative day counts from
    Sunday backwards), and the name of a month is its entry in the
    table of months. *)
Theorem sheet_temporal_raises_iff_day_or_month_out_of_range
        (int_of_str : string -> option Z) (df : Pd.DataFrame) (hs ds ms : list Z) :
  Schema.labelled df = true ->
  Pd.get df "hour" = Some (Pd.Int64 hs) ->
  Pd.get df "day_of_week" = Some (Pd.Int64 ds) ->
  Pd.get df "month" = Some (Pd.Int64 ms) ->
  (Temporal.sheet_temporal int_of_str df = None <->
   (exists d, In d ds /\ (d < -7 \/ 6 < d)) \/
   (exists m, In m ms /\ (m < 1 \/ 12 < m))) /\
  (forall h d m,
     Temporal.sheet_temporal int_of_str df = Some (h, d, m) ->
     Forall (fun r => nth_error Temporal.days (Z.to_nat (Temporal.number r mod 7))
                      = Some (Temporal.name r)) d /\
     Forall (fun r => In (Temporal.number r, Temporal.name r) Temporal.months) m).
Proof.
  intros Hl Hh Hd Hm.
  assert (Hdow : forall a z, PdGroup.key a = Some (PdGroup.IntKey z) ->
            forall r,
              (d <- Temporal.int_of int_of_str (PdGroup.key a) ;;
               day <- Temporal.list_index Temporal.days d ;;
               Some {| Temporal.number := d; Temporal.name := day;
                       Temporal.total := PdGroup.agg_count a;
                       Temporal.fraud_count := PdGroup.agg_sum a;
                       Temporal.fraud_rate := Temporal.rate_cell a |}) = r ->
              (r = None <-> z < -7 \/ 6 < z) /\
              (forall x, r = Some x ->
                         nth_error Temporal.days (Z.to_nat (Temporal.number x mod 7))
                         = Some (Temporal.name x))).
  { intros a z Hk r <-. rewrite Hk. cbn [Temporal.int_of Pd.bind].
    destruct (list_index_days z) as [Hnone Hsome].
    destruct (Temporal.list_index Temporal.days z) as [s|]; cbn [Pd.bind].
    - split; [split; [discriminate|]|].
      + intros H. apply Hnone in H. discriminate.
      + intros x [= <-]. cbn. now apply Hsome.
    - split; [split; [intros _; now apply Hnone | reflexivity] | discriminate]. }
  assert (Hmo : forall a z, PdGroup.key a = Some (PdGroup.IntKey z) ->
            forall r,
              (m <- Temporal.int_of int_of_str (PdGroup.key a) ;;
               month <- Temporal.dict_item Temporal.months m ;;
               Some {| Temporal.number := m; Temporal.name := month;
                       Temporal.total := PdGroup.agg_count a;
                       Temporal.fraud_count := PdGroup.agg_sum a;
                       Temporal.fraud_rate := Temporal.rate_cell a |}) = r ->
              (r = None <-> z < 1 \/ 12 < z) /\
              (forall x, r = Some x ->
                         In (Temporal.number x, Temporal.name x) Temporal.months)).
  { intros a z Hk r <-. rewrite Hk. cbn [Temporal.int_of Pd.bind].
    pose proof (dict_item_months z) as Hnone.
    unfold Temporal.dict_item in *.
    destruct (find (fun p : Z * string => (fst p =? z)%Z) Temporal.months)
      as [p|] eqn:E; cbn [option_map Pd.bind].
    - split; [split; [discriminate|]|].
      + intros H. apply Hnone in H. discriminate.
      + intros x [= <-]. cbn. apply find_some in E as [Hin Hp].
        apply Z.eqb_eq in Hp. rewrite <- Hp. now destruct p.
    - split; [split; [intros _; now apply Hnone | reflexivity] | discriminate]. }
  destruct (hour_table_rows int_of_str df hs Hl Hh) as [hrows Hhour].
  unfold Temporal.sheet_temporal. rewrite Hhour. cbn [Pd.bind].
  pose proof (int_keyed_fails
                (fun a =>
                   d <- Temporal.int_of int_of_str (PdGroup.key a) ;;
                   day <- Temporal.list_index Temporal.days d ;;
                   Some {| Temporal.number := d; Temporal.name := day;
                           Temporal.total := PdGroup.agg_count a;
                           Temporal.fraud_count := PdGroup.agg_sum a;
                           Temporal.fraud_rate := Temporal.rate_cell a |})
                (fun z => negb ((z <? -7) || (6 <? z))%Z)
                df "day_of_week" ds Hl Hd) as Fd.
  pose proof (int_keyed_fails
                (fun a =>
                   m <- Temporal.int_of int_of_str (PdGroup.key a) ;;
                   month <- Temporal.dict_item Temporal.months m ;;
                   Some {| Temporal.number := m; Temporal.name := month;
                           Temporal.total := PdGroup.agg_count a;
                           Temporal.fraud_count := PdGroup.agg_sum a;
                           Temporal.fraud_rate := Temporal.rate_cell a |})
                (fun z => negb ((z <? 1) || (12 <? z))%Z)
                df "month" ms Hl Hm) as Fm.
  assert (Bd : forall z, negb ((z <? -7) || (6 <? z))%Z = false <-> z < -7 \/ 6 < z).
  { intros z. rewrite negb_false_iff, orb_true_iff, !Z.ltb_lt. tauto. }
  assert (Bm : forall z, negb ((z <? 1) || (12 <? z))%Z = false <-> z < 1 \/ 12 < z).
  { intros z. rewrite negb_false_iff, orb_true_iff, !Z.ltb_lt. tauto. }
  specialize (Fd (fun a z Hk => iff_trans (proj1 (Hdow a z Hk _ eq_refl))
                                          (iff_sym (Bd z)))).
  specialize (Fm (fun a z Hk => iff_trans (proj1 (Hmo a z Hk _ eq_refl))
                                          (iff_sym (Bm z)))).
  fold (Temporal.dow int_of_str df) in Fd. fold (Temporal.mo int_of_str df) in Fm.
  split.
  - split.
    + intros H.
      destruct (Temporal.dow int_of_str df) as [d|] eqn:Ed; cbn [Pd.bind] in H.
      * destruct (Temporal.mo int_of_str df) as [m|] eqn:Em; cbn [Pd.bind] in H;
          [discriminate|].
        right. destruct (proj1 Fm eq_refl) as (z & Hz & Hb). exists z.
        split; [exact Hz | now apply Bm].
      * left. destruct (proj1 Fd eq_refl) as (z & Hz & Hb). exists z.
        split; [exact Hz | now apply Bd].
    + intros [(z & Hz & Hb)|(z & Hz & Hb)].
      * assert (E : Temporal.dow int_of_str df = None).
        { apply Fd. exists z. split; [exact Hz | now apply Bd]. }
        now rewrite E.
      * assert (E : Temporal.mo int_of_str df = None).
        { apply Fm. exists z. split; [exact Hz | now apply Bm]. }
        rewrite E. now destruct (Temporal.dow int_of_str df).
  - intros h d m H.
    destruct (Temporal.dow int_of_str df) as [d'|] eqn:Ed; cbn [Pd.bind] in H;
      [|discriminate].
    destruct (Temporal.mo int_of_str df) as [m'|] eqn:Em; cbn [Pd.bind] in H;
      [|discriminate].
    injection H as <- <- <-.
    destruct (groupby_int_column df "day_of_week" ds Hl Hd)
      as (zs & g & Hgb & _ & _ & _ & Hcnt & _).
    destruct (groupby_int_column df "month" ms Hl Hm)
      as (zs' & g' & Hgb' & _ & _ & _ & Hcnt' & _).
    unfold Temporal.dow in Ed. unfold Temporal.mo in Em.
    rewrite Hgb in Ed. rewrite Hgb' in Em. cbn [Pd.bind] in Ed, Em.
    split.
    + eapply Forall2_Forall_r;
        [|exact (Forall2_Forall_l _ _ _ _ Hcnt (traverse_some _ _ _ Ed))].
      intros a r [(z & Hk & _) Har]. exact (proj2 (Hdow a z Hk _ eq_refl) r Har).
    + eapply Forall2_Forall_r;
        [|exact (Forall2_Forall_l _ _ _ _ Hcnt' (traverse_some _ _ _ Em))].
      intros a r [(z & Hk & _) Har]. exact (proj2 (Hmo a z Hk _ eq_refl) r Har).
Qed.

Lemma sheet_temporal_raises_iff_day_or_month_out_of_range_witness :
  (Temporal.sheet_temporal (fun _ => None) df_temporal = None <->
   (exists d, In d [0; 6; -1; 3; 3; 5] /\ (d < -7 \/ 6 < d)) \/
   (exists m, In m [1; 12; 6; 6; 7; 1] /\ (m < 1 \/ 12 < m))) /\
  (forall h d m,
     Temporal.sheet_temporal (fun _ => None) df_temporal = Some (h, d, m) ->
     Forall (fun r => nth_error Temporal.days (Z.to_nat (Temporal.number r mod 7))
                      = Some (Temporal.name r)) d /\
     Forall (fun r => In (Temporal.number r, Temporal.name r) Temporal.months) m).
Proof.
  apply (sheet_temporal_raises_iff_day_or_month_out_of_range
           (fun _ => None) df_temporal
           [23; 3; 14; 14; 17; 3] [0; 6; -1; 3; 3; 5] [1; 12; 6; 6; 7; 1]);
    reflexivity.
Defined.

Example rule_sections_six_rows :
  option_map (map (fun r => (RuleSections.trigger_count r, RuleSections.total r,
                             RuleSections.pct_all r, RuleSections.fraud_rate r)))
             (RuleSections.tc df_temporal)
  = Some [ (Some (PdGroup.FloatKey 0), 2, "33.3%", "0.0%");
           (Some (PdGroup.FloatKey 1), 1, "16.7%", "100.0%");
           (Some (PdGroup.FloatKey 2), 2, "33.3%", "50.0%") ] /\
  option_map (map (fun r => (RuleSections.level r, RuleSections.description r,
                             RuleSections.transactions r, RuleSections.rate r)))
             (RuleSections.ms (fun _ => None) df_temporal)
  = Some [ (0, "No rules triggered", 2, "0.0%");
           (1, "Low-severity rule(s) only", 1, "0.0%");
           (3, "High-severity rule(s)", 2, "100.0%");
           (5, "", 1, "100.0%") ].
Proof. split; vm_compute; reflexivity. Qed.

(** X5. The distribution of the trigger count leaves out the
    transactions whose trigger count is null: on a labelled frame it
    is computed without error, no row of it has a null trigger count,
    and its totals add up to the number of rows of the frame minus the
    number of nulls of the column [rule_trigger_count]. *)
Theorem trigger_count_distribution_drops_nulls (df : Pd.DataFrame) (s : Pd.Series) :
  Schema.labelled df = true ->
  Pd.get df "rule_trigger_count" = Some s ->
  exists rows,
    RuleSections.tc df = Some rows /\
    Forall (fun r => RuleSections.trigger_count r <> None) rows /\
    Sums.zsum (map RuleSections.total rows)
    = Z.of_nat (Pd.nrows df) - Missing.null_total s.
Proof.
  intros Hl Hg.
  destruct (labelled_label df Hl) as (Hwf & l & ls & Hlab & Hls & Hzo & Hlen).
  assert (Hh : Forall holds ls).
  { eapply Forall_impl; [|exact Hzo]. intros x. apply zero_one_holds. }
  assert (Hs : Pd.len s = Pd.nrows df) by exact (well_formed_len _ _ _ Hwf Hg).
  unfold RuleSections.tc, PdGroup.groupby_label.
  rewrite Hg, Hlab. cbn [Pd.bind]. rewrite Hls. cbn [Pd.bind].
  eexists. split; [reflexivity|]. split.
  - rewrite Forall_map. unfold PdGroup.groupby_agg. rewrite Forall_map.
    cbn [RuleSections.trigger_count PdGroup.key].
    unfold PdGroup.group_keys. cbn [negb andb]. rewrite app_nil_r, Forall_map.
    apply Forall_forall. intros k _. discriminate.
  - rewrite map_map. cbn [RuleSections.total].
    transitivity (Sums.zsum (map PdGroup.agg_count
                               (PdGroup.groupby_agg true (PdGroup.values s) ls)));
      [reflexivity|].
    rewrite (groupby_agg_counts_dropna (PdGroup.values s) ls Hh)
      by (rewrite values_length; lia).
    rewrite values_length, isna_values, Hs. reflexivity.
Qed.

Lemma trigger_count_distribution_drops_nulls_witness :
  exists rows,
    RuleSections.tc df_temporal = Some rows /\
    Forall (fun r => RuleSections.trigger_count r <> None) rows /\
    Sums.zsum (map RuleSections.total rows)
    = Z.of_nat (Pd.nrows df_temporal)
      - Missing.null_total
          (Pd.Float64 [Some 0%Q; Some 2%Q; None; Some 2%Q; Some 1%Q; Some 0%Q]).
Proof.
  apply (trigger_count_distribution_drops_nulls df_temporal); reflexivity.
Defined.





(** X8. The two null metrics of the overview agree with the
    missing-value sheet: "Total Missing Cells" is the sum of the null
    counts of the rows of that sheet, and "Columns with Nulls" is the
    number of its rows whose null count is not zero. *)
Theorem overview_null_metrics_match_missing_sheet
        (argsort : list Z -> list nat) (df : Pd.DataFrame) :
  SortSpec.sorts_on Z.le 0 argsort (Missing.sort_keys df) ->
  Metrics.total_missing_cells df
  = ("Total Missing Cells",
     Metrics.format_comma
       (Sums.zsum (map Missing.count_cell (Missing.sheet_missing argsort df)))) /\
  Metrics.columns_with_nulls df
  = ("Columns with Nulls",
     Py.str_int
       (Z.of_nat (List.length
                    (filter (fun r => negb (Missing.count_cell r =? 0)%Z)
                            (Missing.sheet_missing argsort df))))).
Proof.
  intros Hs. destruct (nulls_sorted argsort df Hs) as [Hperm _].
  assert (E1 : Metrics.missing_cells df
               = Sums.zsum (map Missing.count_cell (Missing.sheet_missing argsort df))).
  { unfold Metrics.missing_cells, Missing.sheet_missing. rewrite map_map.
    rewrite (zsum_perm _ _ (Permutation_map
                              (fun x => Missing.count_cell (Missing.render x)) Hperm)).
    unfold Missing.nulls_unsorted. now rewrite map_map. }
  assert (E2 : Metrics.null_columns df
               = Z.of_nat (List.length
                             (filter (fun r => negb (Missing.count_cell r =? 0)%Z)
                                     (Missing.sheet_missing argsort df)))).
  { unfold Metrics.null_columns, Missing.sheet_missing. f_equal.
    rewrite <- (filter_id_map (fun r => negb (Missing.count_cell r =? 0)%Z)), map_map.
    rewrite filter_id_map.
    rewrite (filter_length_perm _ _ _ Hperm).
    unfold Missing.nulls_unsorted.
    rewrite <- (filter_id_map _ (map _ _)), map_map, filter_id_map.
    f_equal. apply filter_ext. intros p. cbn.
    unfold Missing.null_total.
    destruct (List.length (filter (fun b : bool => b) (Pd.isnull (snd p)))); reflexivity. }
  unfold Metrics.total_missing_cells, Metrics.columns_with_nulls.
  now rewrite E1, E2.
Qed.

Lemma overview_null_metrics_match_missing_sheet_witness :
  Metrics.total_missing_cells df_nulls
  = ("Total Missing Cells",
     Metrics.format_comma
       (Sums.zsum (map Missing.count_cell (Missing.sheet_missing quicksort_int df_nulls)))) /\
  Metrics.columns_with_nulls df_nulls
  = ("Columns with Nulls",
     Py.str_int
       (Z.of_nat (List.length
                    (filter (fun r => negb (Missing.count_cell r =? 0)%Z)
                            (Missing.sheet_missing quicksort_int df_nulls))))).
Proof.
  apply (overview_null_metrics_match_missing_sheet quicksort_int df_nulls).
  apply sorts_on_b_true. vm_compute. reflexivity.
Defined.

(** X9. With a [channel] column of strings, the metric "Channels"
    raises exactly when some channel is null.  Otherwise it joins, with
    ", ", the distinct channels of the frame, each named once, the
    channel of the first row first. *)
Theorem channels_metric_raises_iff_null_channel
        (df : Pd.DataFrame) (xs : list (option string)) :
  Pd.get df "channel" = Some (Pd.Object xs) ->
  (Metrics.channels df = None <-> In None xs) /\
  (forall cs,
     Metrics.channel_names df = Some cs ->
     Metrics.channels df = Some ("Channels", String.concat ", " cs) /\
     NoDup cs /\
     (forall c, In c cs <-> In (Some c) xs) /\
     hd_error cs = match xs with x :: _ => x | [] => None end).
Proof.
  intros Hg.
  assert (Hnames : Metrics.channel_names df
                   = Pd.traverse Metrics.str_item
                       (Metrics.unique_values (map (option_map PdGroup.StrKey) xs))).
  { unfold Metrics.channel_names. now rewrite Hg. }
  assert (Hin : forall v, In v (Metrics.unique_values (map (option_map PdGroup.StrKey) xs))
                          <-> In v (map (option_map PdGroup.StrKey) xs)).
  { intros v. split; [apply unique_values_incl|].
    intros H. destruct (unique_values_complete _ _ H) as (b & Hb & E).
    assert (b = v); [|now subst].
    apply unique_values_incl in Hb.
    apply in_map_iff in Hb as (x & <- & _). apply in_map_iff in H as (y & <- & _).
    destruct x, y; simpl in E; try discriminate; [|reflexivity].
    apply String.eqb_eq in E. now subst. }
  split.
  - unfold Metrics.channels. rewrite Hnames. split.
    + intros H.
      destruct (Pd.traverse Metrics.str_item _) eqn:E; [discriminate|].
      apply traverse_none_inv in E as (v & Hv & Hn).
      apply Hin in Hv. apply in_map_iff in Hv as (x & <- & Hx).
      destruct x; [discriminate | exact Hx].
    + intros H.
      rewrite (traverse_none Metrics.str_item _ None); [reflexivity| |reflexivity].
      apply Hin. apply in_map_iff. exists None. now split.
  - intros cs Hcs. unfold Metrics.channels. rewrite Hcs. cbn [Pd.bind].
    split; [reflexivity|].
    rewrite Hnames in Hcs. pose proof (traverse_some _ _ _ Hcs) as HF.
    assert (Hu : Metrics.unique_values (map (option_map PdGroup.StrKey) xs)
                 = map (fun c => Some (PdGroup.StrKey c)) cs).
    { rewrite <- (map_id (Metrics.unique_values _)). apply Forall2_map_eq.
      eapply Forall2_impl; [|exact HF].
      intros v c. destruct v as [[| | |s]|]; simpl; try discriminate.
      now intros [= ->]. }
    split; [|split].
    + apply (NoDup_map_inv (fun c => Some (PdGroup.StrKey c))). rewrite <- Hu.
      apply unique_values_NoDup.
    + intros c. split.
      * intros H. apply (in_map (fun c => Some (PdGroup.StrKey c))) in H.
        rewrite <- Hu in H. apply Hin in H.
        apply in_map_iff in H as (x & Hx & Hxs).
        destruct x as [s|]; simpl in Hx; [|discriminate].
        injection Hx as ->. exact Hxs.
      * intros H. apply (in_map (option_map PdGroup.StrKey)) in H.
        apply Hin in H. rewrite Hu in H.
        apply in_map_iff in H as (c' & [= ->] & Hc). exact Hc.
    + destruct xs as [|x xs'].
      * simpl in Hu. now destruct cs.
      * cbn [map] in Hu. destruct (unique_values_head (option_map PdGroup.StrKey x)
                                     (map (option_map PdGroup.StrKey) xs')) as [r Hr].
        rewrite Hr in Hu. destruct cs as [|c cs']; [discriminate|].
        simpl in Hu. injection Hu as Hx _.
        destruct x as [s|]; simpl in Hx; [|discriminate].
        injection Hx as ->. reflexivity.
Qed.

Lemma channels_metric_raises_iff_null_channel_witness :
  (Metrics.channels df_channels = None <->
   In None [Some "web"; Some "atm"; Some "web"; Some "mobile"; Some "atm"]) /\
  (forall cs,
     Metrics.channel_names df_channels = Some cs ->
     Metrics.channels df_channels = Some ("Channels", String.concat ", " cs) /\
     NoDup cs /\
     (forall c, In c cs
                <-> In (Some c) [Some "web"; Some "atm"; Some "web"; Some "mobile"; Some "atm"]) /\
     hd_error cs = Some "web").
Proof.
  apply (channels_metric_raises_iff_null_channel df_channels
           [Some "web"; Some "atm"; Some "web"; Some "mobile"; Some "atm"]).
  reflexivity.
Defined.

Example channels_of_five_rows :
  Metrics.channels df_channels = Some ("Channels", "web, atm, mobile").
Proof. vm_compute. reflexivity. Qed.

Example graph_comparison_of_four_rows :
  option_map (fun s =>
                (map (fun r => (GraphStats.feature r, GraphStats.non_null r,
                                GraphStats.mean_ r, GraphStats.median r,
                                GraphStats.null_pct r))
                     (firstn 6 (fst s)),
                 map (fun r => (GraphEDA.feature r, GraphEDA.ratio_cell r))
                     (firstn 6 (snd s))))
             (GraphStats.sheet_graph_eda df_graph)
  = Some
      ([ ("sender_out_degree_30d", 4, Some 3.2500%Q, Some 3.0000%Q, "0.0%");
         ("sender_total_outflow_30d", 4, Some 437.5000%Q, Some 400.0000%Q, "0.0%");
         ("sender_unique_counterparties_30d", 4, Some 2.5000%Q, Some 2.0000%Q, "0.0%");
         ("sender_repeat_counterparty_ratio", 3, Some 0.2500%Q, Some 0.2500%Q, "25.0%");
         ("sender_in_degree_30d", 0, None, None, "100.0%");
         ("sender_total_inflow_30d", 1, Some 10.0000%Q, Some 10.0000%Q, "75.0%") ],
       [ ("sender_out_degree_30d", "3.33x");
         ("sender_total_outflow_30d", "10.67x");
         ("sender_unique_counterparties_30d", "4.00x");
         ("sender_repeat_counterparty_ratio", "1.00x");
         ("sender_total_inflow_30d", "nanx");
         ("receiver_in_degree_30d", "0.08x") ]).
Proof. vm_compute. reflexivity. Qed.

(** X10. The graph sheet reads every one of its eighteen columns: as
    soon as one of them is missing from the frame, the sheet raises. *)
Theorem graph_sheet_raises_on_missing_column (df : Pd.DataFrame) (c : string) :
  In c GraphEDA.graph_cols ->
  Pd.get df c = None ->
  GraphStats.sheet_graph_eda df = None.
Proof.
  intros Hin Hg. unfold GraphStats.sheet_graph_eda, GraphStats.descriptive.
  rewrite (traverse_none (GraphStats.stats_col df) _ c Hin); [reflexivity|].
  unfold GraphStats.stats_col. now rewrite Hg.
Qed.

Lemma graph_sheet_raises_on_missing_column_witness :
  GraphStats.sheet_graph_eda df_overview = None.
Proof.
  apply (graph_sheet_raises_on_missing_column df_overview "accounts_per_device").
  - simpl. tauto.
  - reflexivity.
Defined.

(** X11. When the graph sheet is computed, its first section has one
    row per graph column, in the order of [graph_cols], and its second
    section has one row per graph column that holds at least one
    value, in the same order: a column without any value is passed
    over there. *)
Theorem graph_sections_follow_graph_cols
        (df : Pd.DataFrame) (s1 : list GraphStats.stats_row)
        (s2 : list GraphEDA.compare_row) :
  GraphStats.sheet_graph_eda df = Some (s1, s2) ->
  map GraphStats.feature s1 = GraphEDA.graph_cols /\
  map GraphEDA.feature s2
  = filter (fun c => match Pd.get df c with
                     | Some s => existsb negb (Pd.isnull s)
                     | None => false
                     end)
           GraphEDA.graph_cols.
Proof.
  unfold GraphStats.sheet_graph_eda, GraphStats.descriptive, GraphEDA.fraud_vs_legit.
  intros H.
  apply bind_some in H as (r1 & H1 & H).
  apply bind_some in H as (r2 & H2 & H). injection H as <- <-.
  apply bind_some in H2 as (rs & H2 & H). injection H as <-.
  apply traverse_some in H1. apply traverse_some in H2.
  split.
  - symmetry. rewrite <- (map_id GraphEDA.graph_cols) at 1. apply Forall2_map_eq.
    eapply Forall2_impl; [|exact H1].
    intros c r. unfold GraphStats.stats_col.
    destruct (Pd.get df c) as [s|]; cbn [Pd.bind]; [|discriminate].
    destruct (GraphStats.numeric_values s); cbn [Pd.bind]; [|discriminate].
    now intros [= <-].
  - clear H1. induction H2 as [|c r cols rs' Hc _ IH]; [reflexivity|].
    destruct (compare_col_cases df c r Hc) as (s & Hs & [[-> Hv]|(row & -> & Hf & Hv)]);
      cbn [flat_map filter]; rewrite Hs, Hv.
    + exact IH.
    + cbn [app map]. now rewrite Hf, IH.
Qed.

Lemma graph_sections_follow_graph_cols_witness :
  exists s1 s2,
    GraphStats.sheet_graph_eda df_graph = Some (s1, s2) /\
    map GraphStats.feature s1 = GraphEDA.graph_cols /\
    map GraphEDA.feature s2
    = filter (fun c => match Pd.get df_graph c with
                       | Some s => existsb negb (Pd.isnull s)
                       | None => false
                       end)
             GraphEDA.graph_cols.
Proof.
  destruct (GraphStats.sheet_graph_eda df_graph) as [[s1 s2]|] eqn:E.
  - exists s1, s2. split; [reflexivity|].
    exact (graph_sections_follow_graph_cols df_graph s1 s2 E).
  - vm_compute in E. discriminate E.
Defined.

(** X12. A graph column that holds no value at all still has its row
    in the first section of the graph sheet: a non-null count of 0,
    every statistic NaN and the null share "100.0%".  No row of the
    second section is about that column. *)
Theorem graph_column_without_value
        (df : Pd.DataFrame) (c : string) (xs : list Py.float)
        (s1 : list GraphStats.stats_row) (s2 : list GraphEDA.compare_row) :
  GraphStats.sheet_graph_eda df = Some (s1, s2) ->
  In c GraphEDA.graph_cols ->
  Pd.get df c = Some (Pd.Float64 xs) ->
  xs <> [] ->
  Forall (eq None) xs ->
  (exists r,
     In r s1 /\ GraphStats.feature r = c /\ GraphStats.non_null r = 0 /\
     GraphStats.mean_ r = None /\ GraphStats.std_ r = None /\
     GraphStats.min_ r = None /\ GraphStats.p25 r = None /\
     GraphStats.median r = None /\ GraphStats.p75 r = None /\
     GraphStats.p90 r = None /\ GraphStats.p99 r = None /\
     GraphStats.max_ r = None /\ GraphStats.null_pct r = "100.0%") /\
  Forall (fun r => GraphEDA.feature r <> c) s2.
Proof.
  intros H Hin Hg Hne Hnull. split.
  - unfold GraphStats.sheet_graph_eda, GraphStats.descriptive in H.
    apply bind_some in H as (r1 & H1 & H).
    apply bind_some in H as (r2 & _ & H). injection H as <- <-.
    apply traverse_some in H1.
    destruct (Forall2_in_l _ _ _ _ H1 Hin) as (r & Hr & E).
    exists r. split; [exact Hr|].
    unfold GraphStats.stats_col in E. rewrite Hg in E.
    cbn [Pd.bind GraphStats.numeric_values Pd.is_number Pd.to_float] in E.
    injection E as <-.
    cbn [GraphStats.feature GraphStats.non_null GraphStats.mean_ GraphStats.std_
         GraphStats.min_ GraphStats.p25 GraphStats.median GraphStats.p75
         GraphStats.p90 GraphStats.p99 GraphStats.max_ GraphStats.null_pct].
    pose proof (dropna_all_null xs Hnull) as Hd.
    unfold Pd.count, Pd.mean at 1, DescStats.std, DescStats.var, DescStats.min,
      DescStats.max, DescStats.quantile.
    rewrite Hd. cbn [List.length Py.round PyR.round option_map Py.stable_sort fold_right].
    repeat (split; [reflexivity|]).
    cbn [Pd.isnull].
    destruct (null_share_all_null xs Hnull Hne) as (q & -> & Hq).
    now rewrite (format_f_comp 1 q 100 Hq).
  - destruct (graph_sections_rows df s1 s2 H) as (rs & H2 & ->).
    apply Forall_forall. intros row Hrow.
    apply in_flat_map in Hrow as (r & Hr & Hrow).
    destruct r as [row'|]; [|contradiction]. destruct Hrow as [<-|[]].
    destruct (Forall2_in_r _ _ _ _ H2 Hr) as (c' & _ & Hc').
    destruct (compare_col_cases df c' _ Hc') as (s & Hs & [[Hn _]|(row & Hrow & Hf & Hv)]);
      [discriminate|].
    injection Hrow as <-. rewrite Hf. intros ->.
    rewrite Hg in Hs. injection Hs as <-.
    cbn [Pd.isnull] in Hv. apply existsb_exists in Hv as (b & Hb & Hv).
    apply in_map_iff in Hb as (x & <- & Hx).
    rewrite Forall_forall in Hnull. rewrite <- (Hnull x Hx) in Hv. discriminate.
Qed.

Lemma graph_column_without_value_witness :
  exists s1 s2,
    GraphStats.sheet_graph_eda df_graph = Some (s1, s2) /\
    (exists r,
       In r s1 /\ GraphStats.feature r = "sender_in_degree_30d" /\
       GraphStats.non_null r = 0 /\
       GraphStats.mean_ r = None /\ GraphStats.std_ r = None /\
       GraphStats.min_ r = None /\ GraphStats.p25 r = None /\
       GraphStats.median r = None /\ GraphStats.p75 r = None /\
       GraphStats.p90 r = None /\ GraphStats.p99 r = None /\
       GraphStats.max_ r = None /\ GraphStats.null_pct r = "100.0%") /\
    Forall (fun r => GraphEDA.feature r <> "sender_in_degree_30d") s2.
Proof.
  destruct (GraphStats.sheet_graph_eda df_graph) as [[s1 s2]|] eqn:E.
  - exists s1, s2. split; [reflexivity|].
    apply (graph_column_without_value df_graph "sender_in_degree_30d"
             [None; None; None; None] s1 s2 E).
    + simpl. tauto.
    + reflexivity.
    + discriminate.
    + repeat (apply Forall_cons; [reflexivity|]). apply Forall_nil.
  - vm_compute in E. discriminate E.
Defined.

(** X13. The fraud type sheet needs transactions of every fraud type
    it lists and of the type "normal": as soon as the frame has no row
    of one of these types, taking the most frequent channel of no row
    raises, and with it the sheet. *)
Theorem fraud_type_sheet_raises_without_rows_of_a_type
        (argsort : list Q -> list nat) (df : Pd.DataFrame)
        (ftc : Pd.Series) (ft : string) :
  Pd.get df "fraud_type" = Some ftc ->
  In ft ("normal" :: FraudTypes.fraud_types) ->
  existsb (fun b : bool => b) (FraudTypes.is_type ftc ft) = false ->
  FraudTypes.sheet_fraud_types argsort df = None.
Proof.
  intros Hg Hin Hno. unfold FraudTypes.sheet_fraud_types.
  destruct Hin as [<-|Hin].
  - apply (traverse_none _ _ "mule_ring"); [now left|].
    now rewrite (key_metrics_no_row df ftc "mule_ring" Hg (or_intror Hno)).
  - apply (traverse_none _ _ ft Hin).
    now rewrite (key_metrics_no_row df ftc ft Hg (or_introl Hno)).
Qed.

Lemma fraud_type_sheet_raises_without_rows_of_a_type_witness :
  FraudTypes.sheet_fraud_types quicksort_float df_two_types = None.
Proof.
  apply (fraud_type_sheet_raises_without_rows_of_a_type
           quicksort_float df_two_types
           (Pd.Object [Some "normal"; Some "ATO"; Some "normal"]) "smurfing").
  - reflexivity.
  - simpl. tauto.
  - reflexivity.
Defined.

Example top_rules_of_layering :
  FraudTypes.top_rules quicksort_float df_seven_rules "layering"
  = Some [ ("rule_rapid_passthrough", "100.0%"); ("rule_offshore", "75.0%");
           ("rule_velocity", "75.0%"); ("rule_night_transaction", "50.0%");
           ("rule_high_risk_beneficiary", "25.0%") ].
Proof. vm_compute. reflexivity. Qed.

(** X14. The top triggered rules of a fraud type are the first five
    rules (all of them when the frame has fewer) of the ranking of
    every rule column by its mean over the transactions of that type,
    from the highest mean to the lowest, the rules without a mean
    last; no rule is named twice.  This holds on a well formed frame,
    with an argsort that keeps its contract on the means. *)
Theorem top_rules_are_the_highest_means
        (argsort : list Q -> list nat) (df : Pd.DataFrame) (ft : string)
        (rows : list (string * string)) :
  Pd.well_formed df = true ->
  SortSpec.sorts_on Qle 0%Q argsort (top_rules_keys df ft) ->
  FraudTypes.top_rules argsort df ft = Some rows ->
  exists means top rest,
    rule_means df ft = Some means /\
    map fst means = Rules.rule_cols df /\
    Permutation (top ++ rest)%list means /\
    StronglySorted (fun a b => nan_last_descending (snd a) (snd b)) (top ++ rest)%list /\
    rows = map (fun p : string * Py.float =>
                  (fst p, Py.format_f 1 (Py.fscale (snd p) 100) ++ "%")) top /\
    List.length rows = Nat.min 5 (List.length (Rules.rule_cols df)) /\
    NoDup (map fst rows).
Proof.
  intros Hwf Hs H. rewrite top_rules_means in H.
  apply bind_some in H as (means & Hm & H).
  apply (f_equal (fun o => match o with Some x => x | None => rows end)) in H.
  cbv beta iota in H. subst rows.
  unfold top_rules_keys in Hs. rewrite Hm in Hs.
  destruct (sort_values_nan_last snd argsort means Hs) as [Hperm Hsorted].
  pose proof (rule_means_names df ft means Hm) as Hn.
  set (sorted := PdSort.sort_values argsort snd false means) in *.
  exists means, (firstn 5 sorted), (skipn 5 sorted).
  rewrite firstn_skipn.
  split; [exact Hm|]. split; [exact Hn|]. split; [exact Hperm|].
  split; [exact Hsorted|]. split; [reflexivity|].
  split.
  - subst sorted. rewrite length_map, length_firstn. f_equal.
    etransitivity; [exact (Permutation_length Hperm)|].
    now rewrite <- Hn, length_map.
  - subst sorted. rewrite map_map. cbn [fst].
    match goal with
    | |- NoDup (map _ ?l) => change (NoDup (map fst l))
    end.
    rewrite <- firstn_map. apply NoDup_firstn.
    apply (Permutation_NoDup (l := map fst means)).
    + symmetry. now apply Permutation_map.
    + rewrite Hn. now apply rule_cols_NoDup.
Qed.

Lemma top_rules_are_the_highest_means_witness :
  exists rows means top rest,
    FraudTypes.top_rules quicksort_float df_seven_rules "layering" = Some rows /\
    rule_means df_seven_rules "layering" = Some means /\
    map fst means = Rules.rule_cols df_seven_rules /\
    Permutation (top ++ rest)%list means /\
    StronglySorted (fun a b => nan_last_descending (snd a) (snd b)) (top ++ rest)%list /\
    rows = map (fun p : string * Py.float =>
                  (fst p, Py.format_f 1 (Py.fscale (snd p) 100) ++ "%")) top /\
    List.length rows = Nat.min 5 (List.length (Rules.rule_cols df_seven_rules)) /\
    NoDup (map fst rows).
Proof.
  destruct (FraudTypes.top_rules quicksort_float df_seven_rules "layering")
    as [rows|] eqn:E.
  - exists rows.
    destruct (top_rules_are_the_highest_means
                quicksort_float df_seven_rules "layering" rows)
      as (means & top & rest & H); [reflexivity | | exact E |].
    + apply quicksort_float_small. vm_compute. lia.
    + exists means, top, rest. split; [reflexivity | exact H].
  - vm_compute in E. discriminate E.
Defined.



(** X16. The descriptive statistics and the missing-value sheet count
    the nulls of a column alike.  On a well formed frame, in every row
    of the descriptive statistics the non-null count and the null
    count add up to the number of rows of the frame, and the
    missing-value sheet has a row for the same column with the same
    null count and the same null percentage. *)
Theorem desc_stats_nulls_match_missing_sheet
        (argsort : list Z -> list nat) (df : Pd.DataFrame)
        (rows : list DescStats.desc_row) :
  Pd.well_formed df = true ->
  SortSpec.sorts_on Z.le 0 argsort (Missing.sort_keys df) ->
  DescStats.sheet_desc_stats df = Some rows ->
  Forall (fun r =>
            DescStats.count_ r + DescStats.null_count r = Z.of_nat (Pd.nrows df) /\
            exists m,
              In m (Missing.sheet_missing argsort df) /\
              Missing.col_name m = DescStats.feature r /\
              Missing.count_cell m = DescStats.null_count r /\
              Missing.pct_cell m = Py.repr_dec 2 (DescStats.null_pct r) ++ "%")
         rows.
Proof.
  intros Hwf Hs H. destruct (nulls_sorted argsort df Hs) as [Hperm _].
  unfold DescStats.sheet_desc_stats in H.
  assert (HF : Forall2 (fun p r => In p (Pd.columns df) /\
                                   DescStats.describe_row p = Some r)
                       (DescStats.numeric_cols df) rows).
  { apply Forall2_Forall_l.
    - apply Forall_forall. intros p Hp. now apply filter_In in Hp.
    - destruct (DescStats.numeric_cols df); [discriminate|]. now apply traverse_some. }
  eapply Forall2_Forall_r; [|exact HF].
  intros p r [Hp Hr]. unfold DescStats.describe_row in Hr.
  apply bind_some in Hr as (xs & Hxs & Hr). injection Hr as <-.
  cbn [DescStats.count_ DescStats.null_count DescStats.feature DescStats.null_pct].
  assert (Hlen : Pd.len (snd p) = Pd.nrows df).
  { unfold Pd.well_formed in Hwf. apply andb_prop in Hwf as [_ Hwf].
    rewrite forallb_forall in Hwf. apply Nat.eqb_eq. now apply Hwf. }
  split.
  - rewrite <- Hlen. now apply count_plus_nulls.
  - exists (Missing.render
              {| Missing.column := fst p;
                 Missing.null_count := Missing.null_total (snd p);
                 Missing.null_pct :=
                   Missing.pct_of_rows (Missing.null_total (snd p)) (Pd.nrows df);
                 Missing.dtype_name := Pd.dtype (snd p);
                 Missing.group_name :=
                   Catalog.group (Catalog.dict_get Catalog.DATA_DICT (fst p)
                                                   ("", "", "", "")) |}).
    split; [|split; [reflexivity|split; [reflexivity|]]].
    + unfold Missing.sheet_missing. apply in_map.
      apply (Permutation_in _ (Permutation_sym Hperm)).
      unfold Missing.nulls_unsorted.
      apply (in_map (fun p : string * Pd.Series =>
                       {| Missing.column := fst p;
                          Missing.null_count := Missing.null_total (snd p);
                          Missing.null_pct :=
                            Missing.pct_of_rows (Missing.null_total (snd p)) (Pd.nrows df);
                          Missing.dtype_name := Pd.dtype (snd p);
                          Missing.group_name :=
                            Catalog.group (Catalog.dict_get Catalog.DATA_DICT (fst p)
                                                            ("", "", "", "")) |})
                    _ _ Hp).
    + cbn [Missing.render Missing.pct_cell Missing.null_pct].
      now rewrite null_pct_two_ways, Hlen.
Qed.

Lemma desc_stats_nulls_match_missing_sheet_witness :
  exists rows,
    DescStats.sheet_desc_stats df_all_null = Some rows /\
    Forall (fun r =>
              DescStats.count_ r + DescStats.null_count r
              = Z.of_nat (Pd.nrows df_all_null) /\
              exists m,
                In m (Missing.sheet_missing quicksort_int df_all_null) /\
                Missing.col_name m = DescStats.feature r /\
                Missing.count_cell m = DescStats.null_count r /\
                Missing.pct_cell m = Py.repr_dec 2 (DescStats.null_pct r) ++ "%")
           rows.
Proof.
  destruct (DescStats.sheet_desc_stats df_all_null) as [rows|] eqn:E.
  - exists rows. split; [reflexivity|].
    apply (desc_stats_nulls_match_missing_sheet quicksort_int df_all_null rows).
    + reflexivity.
    + apply sorts_on_b_true. vm_compute. reflexivity.
    + exact E.
  - exfalso. apply (f_equal (fun o => match o with Some _ => true | None => false end)) in E.
    vm_compute in E. discriminate E.
Defined.



(** X18. Down the correlation sheet the signal strength never gets
    stronger: on a labelled frame, with an argsort that keeps its
    contract on the coefficients, a row is never followed by a row
    of a stronger signal, the rows without a coefficient
    ("Negligible") coming last. *)
Theorem correlation_signal_weakens_down_the_sheet
        (argsort : list R -> list nat) (df : Pd.DataFrame) :
  Schema.labelled df = true ->
  SortSpec.sorts_on Rle 0%R argsort (Corr.sort_keys df) ->
  exists rows,
    Corr.sheet_correlations argsort df = Some rows /\
    StronglySorted
      (fun x y => (signal_level (Corr.signal_cell y)
                   <= signal_level (Corr.signal_cell x))%nat)
      rows.
Proof.
  intros Hl Hs.
  destruct (corr_sorted argsort df Hl Hs)
    as (label & corr & front & back & _ & _ & Hdf & _ & Hback & _ & Hsorted).
  unfold Corr.sheet_correlations. rewrite Hdf. cbn [Pd.bind].
  eexists. split; [reflexivity|].
  apply (enumerate_sorted Corr.render
           (fun s s' => (signal_level (Corr.signal s') <= signal_level (Corr.signal s))%nat)).
  { intros k k' a b H. exact H. }
  apply StronglySorted_map. cbn [Corr.corr_stat_of Corr.signal].
  assert (Hnan : forall b, In b back ->
                           signal_level (Corr.signal_strength (PyR.abs (snd b))) = 0%nat).
  { intros b Hb. rewrite Hback in Hb. apply filter_In in Hb as [_ Hb].
    destruct (snd b); [discriminate | reflexivity]. }
  apply StronglySorted_app.
  - eapply StronglySorted_weaken; [|exact Hsorted].
    intros a b _ _ H. now apply signal_monotone.
  - apply StronglySorted_always. intros a b Hb. rewrite (Hnan b Hb). lia.
  - intros a b _ Hb. rewrite (Hnan b Hb). lia.
Qed.

Lemma correlation_signal_weakens_down_the_sheet_witness :
  exists rows,
    Corr.sheet_correlations quicksort_real df_corr_three = Some rows /\
    StronglySorted
      (fun x y => (signal_level (Corr.signal_cell y)
                   <= signal_level (Corr.signal_cell x))%nat)
      rows.
Proof.
  apply (correlation_signal_weakens_down_the_sheet quicksort_real df_corr_three).
  - reflexivity.
  - apply quicksort_real_sorts. simpl. lia.
Defined.

(** X19. The labels of a row of the correlation sheet never
    contradict the numbers shown beside them: a row that shows a
    positive coefficient is labelled "Positive", a row that shows a
    negative one "Negative", and the signal strength is the one of the
    absolute coefficient shown, unless that value is exactly one of
    the bounds 0.05, 0.15, 0.3 and 0.5. *)
Theorem correlation_labels_agree_with_shown_values
        (argsort : list R -> list nat) (df : Pd.DataFrame)
        (rows : list Corr.corr_row) :
  Corr.sheet_correlations argsort df = Some rows ->
  Forall
    (fun row =>
       (forall r, Corr.pearson_cell row = Some r ->
                  ((0 < r)%R -> Corr.direction_cell row = "Positive (↑ with fraud)") /\
                  ((r < 0)%R -> Corr.direction_cell row = "Negative (↓ with fraud)")) /\
       (forall a, Corr.abs_cell row = Some a ->
                  a <> (5 / 10)%R -> a <> (3 / 10)%R ->
                  a <> (15 / 100)%R -> a <> (5 / 100)%R ->
                  Corr.signal_cell row = Corr.signal_strength (Some a)))
    rows.
Proof.
  intros H. destruct (sheet_correlations_rows argsort df rows H) as [ps ->].
  apply (enumerate_Forall Corr.render (fun s => exists p, s = Corr.corr_stat_of p)).
  - intros k s [p ->]. unfold Corr.render, Corr.corr_stat_of.
    cbn [Corr.pearson_cell Corr.abs_cell Corr.direction_cell Corr.signal_cell
         Corr.pearson_r Corr.abs_r Corr.direction_ Corr.signal].
    destruct (snd p) as [r0|]; cbn [PyR.round PyR.abs option_map].
    + split.
      * intros r [= <-]. unfold Corr.direction_of, PyR.gt. split; intros Hr.
        -- assert (H0 : (IZR 0 / 10000 < r0)%R).
           { apply round_r_above. replace (IZR 0 / 10000)%R with 0%R by lra. exact Hr. }
           destruct (Rlt_dec 0 r0); [reflexivity | exfalso; lra].
        -- assert (H0 : (r0 < IZR 0 / 10000)%R).
           { apply round_r_below. replace (IZR 0 / 10000)%R with 0%R by lra. exact Hr. }
           destruct (Rlt_dec 0 r0); [exfalso; lra | reflexivity].
      * intros a [= <-] H1 H2 H3 H4. symmetry. now apply signal_of_rounded.
    + split; intros x Hx; discriminate.
  - rewrite Forall_map. apply Forall_forall. eauto.
Qed.

Lemma correlation_labels_agree_with_shown_values_witness :
  exists rows,
    Corr.sheet_correlations quicksort_real df_corr_three = Some rows /\
    Forall
      (fun row =>
         (forall r, Corr.pearson_cell row = Some r ->
                    ((0 < r)%R -> Corr.direction_cell row = "Positive (↑ with fraud)") /\
                    ((r < 0)%R -> Corr.direction_cell row = "Negative (↓ with fraud)")) /\
         (forall a, Corr.abs_cell row = Some a ->
                    a <> (5 / 10)%R -> a <> (3 / 10)%R ->
                    a <> (15 / 100)%R -> a <> (5 / 100)%R ->
                    Corr.signal_cell row = Corr.signal_strength (Some a)))
      rows.
Proof.
  destruct (sheet_correlations_sorted quicksort_real df_corr_three eq_refl)
    as (label & corr & front & back & _ & _ & _ & Hsheet & _).
  { apply quicksort_real_sorts. simpl. lia. }
  eexists. split; [exact Hsheet|].
  exact (correlation_labels_agree_with_shown_values quicksort_real df_corr_three _ Hsheet).
Defined.

(** X20. Down the per-rule table the signal strength never gets
    stronger: on a labelled frame with binary rule columns, a rule is
    never followed by a rule of a stronger signal, and every strength
    shown is one of the four labels. *)
Theorem rule_strength_weakens_down_the_table (df : Pd.DataFrame) :
  Schema.labelled df = true ->
  Schema.rules_binary df = true ->
  exists rows,
    Rules.sheet_rules df = Some rows /\
    StronglySorted
      (fun x y => (strength_cell_level (Rules.strength_cell y)
                   <= strength_cell_level (Rules.strength_cell x))%nat)
      rows /\
    Forall (fun r => In (Rules.strength_cell r)
                        (map Rules.strength_label
                             [Rules.VeryHigh; Rules.High; Rules.Medium; Rules.Low]))
           rows.
Proof.
  intros Hl Hr.
  destruct (rule_stats_unsorted_binary df Hl Hr) as (u & Hu & _ & Hd & _).
  unfold Rules.sheet_rules, Rules.rule_stats. rewrite Hu. cbn [Pd.bind].
  eexists. split; [reflexivity|]. split.
  - apply StronglySorted_map. cbn [Rules.render Rules.strength_cell].
    eapply StronglySorted_weaken; [|exact (list_sort_by_rate_descending u Hd)].
    intros a b _ _ H. rewrite !strength_cell_level_label. now apply strength_monotone.
  - rewrite Forall_map. apply Forall_forall. intros s _.
    cbn [Rules.render Rules.strength_cell]. apply in_map.
    destruct (Rules.signal_strength (Rules.f_triggered s)); simpl; tauto.
Qed.

Lemma rule_strength_weakens_down_the_table_witness :
  exists rows,
    Rules.sheet_rules df_rules = Some rows /\
    StronglySorted
      (fun x y => (strength_cell_level (Rules.strength_cell y)
                   <= strength_cell_level (Rules.strength_cell x))%nat)
      rows /\
    Forall (fun r => In (Rules.strength_cell r)
                        (map Rules.strength_label
                             [Rules.VeryHigh; Rules.High; Rules.Medium; Rules.Low]))
           rows.
Proof.
  apply (rule_strength_weakens_down_the_table df_rules); reflexivity.
Defined.

(** X21. On a labelled frame with binary rule columns and at least
    one row, every figure of the per-rule statistics is in its range:
    the trigger count lies between 0 and the number of rows, the
    trigger rate is the trigger count over the number of rows, as a
    percentage, and the two fraud rates, where defined, lie between 0
    and 100. *)
Theorem rule_rates_are_percentages (df : Pd.DataFrame) :
  Schema.labelled df = true ->
  Schema.rules_binary df = true ->
  (0 < Pd.nrows df)%nat ->
  exists stats,
    Rules.rule_stats df = Some stats /\
    Forall
      (fun s =>
         0 <= Rules.total_triggered s <= Z.of_nat (Pd.nrows df) /\
         (exists tr,
            Rules.trigger_rate s = Some tr /\
            (tr == inject_Z (Rules.total_triggered s)
                   / inject_Z (Z.of_nat (Pd.nrows df)) * 100)%Q /\
            (0 <= tr <= 100)%Q) /\
         (exists ft, Rules.f_triggered s = Some ft /\ (0 <= ft <= 100)%Q) /\
         (forall fn, Rules.f_not_triggered s = Some fn -> (0 <= fn <= 100)%Q))
      stats.
Proof.
  intros Hl Hr Hn.
  assert (Hall : Forall (fun c => exists s,
                           Rules.rule_stat_of df c = Some s /\
                           (0 <= Rules.total_triggered s <= Z.of_nat (Pd.nrows df) /\
                            (exists tr,
                               Rules.trigger_rate s = Some tr /\
                               (tr == inject_Z (Rules.total_triggered s)
                                      / inject_Z (Z.of_nat (Pd.nrows df)) * 100)%Q /\
                               (0 <= tr <= 100)%Q) /\
                            (exists ft, Rules.f_triggered s = Some ft /\
                                        (0 <= ft <= 100)%Q) /\
                            (forall fn, Rules.f_not_triggered s = Some fn ->
                                        (0 <= fn <= 100)%Q)))
                        (Rules.rule_cols df)).
  { unfold Schema.rules_binary in Hr. rewrite forallb_forall in Hr.
    apply Forall_forall. intros c Hc.
    destruct (rule_stat_of_ranges df c Hl (Hr c Hc) Hn) as (s & Hs & H). eauto. }
  destruct (traverse_total (Rules.rule_stat_of df) (Rules.rule_cols df)) as [u Hu].
  { eapply Forall_impl; [|exact Hall]. intros c (s & Hs & _). eauto. }
  unfold Rules.rule_stats, Rules.rule_stats_unsorted. rewrite Hu. cbn [Pd.bind].
  eexists. split; [reflexivity|].
  eapply Permutation_Forall; [symmetry; apply list_sort_perm|].
  eapply Forall2_Forall_r;
    [|exact (Forall2_Forall_l _ _ _ _ Hall (traverse_some _ _ _ Hu))].
  intros c s [(s' & Hs' & H) Hs]. rewrite Hs in Hs'. injection Hs' as <-. exact H.
Qed.

Lemma rule_rates_are_percentages_witness :
  exists stats,
    Rules.rule_stats df_rules = Some stats /\
    Forall
      (fun s =>
         0 <= Rules.total_triggered s <= Z.of_nat (Pd.nrows df_rules) /\
         (exists tr,
            Rules.trigger_rate s = Some tr /\
            (tr == inject_Z (Rules.total_triggered s)
                   / inject_Z (Z.of_nat (Pd.nrows df_rules)) * 100)%Q /\
            (0 <= tr <= 100)%Q) /\
         (exists ft, Rules.f_triggered s = Some ft /\ (0 <= ft <= 100)%Q) /\
         (forall fn, Rules.f_not_triggered s = Some fn -> (0 <= fn <= 100)%Q))
      stats.
Proof.
  apply (rule_rates_are_percentages df_rules); [reflexivity | reflexivity |].
  simpl. lia.
Defined.

(** X22. On a well formed frame with at least one row, every row of
    the missing-value table has a null count between 0 and the number
    of rows of the frame and a null percentage between 0 and 100; the
    percentage is 0 when the column has no null and 100 when it has
    nothing else. *)
Theorem missing_percentages_are_in_range
        (argsort : list Z -> list nat) (df : Pd.DataFrame) :
  Pd.well_formed df = true ->
  (0 < Pd.nrows df)%nat ->
  SortSpec.sorts_on Z.le 0 argsort (Missing.sort_keys df) ->
  Forall
    (fun r =>
       0 <= Missing.null_count r <= Z.of_nat (Pd.nrows df) /\
       exists p,
         Missing.null_pct r = Some p /\ (0 <= p <= 100)%Q /\
         (Missing.null_count r = 0 -> (p == 0)%Q) /\
         (Missing.null_count r = Z.of_nat (Pd.nrows df) -> (p == 100)%Q))
    (Missing.nulls argsort df).
Proof.
  intros Hwf Hn Hs. destruct (nulls_sorted argsort df Hs) as [Hperm _].
  eapply Permutation_Forall; [symmetry; exact Hperm|].
  unfold Missing.nulls_unsorted. rewrite Forall_map.
  apply Forall_forall. intros p Hp.
  cbn [Missing.null_count Missing.null_pct].
  assert (Hlen : Pd.len (snd p) = Pd.nrows df).
  { unfold Pd.well_formed in Hwf. apply andb_prop in Hwf as [_ Hwf].
    rewrite forallb_forall in Hwf. apply Nat.eqb_eq. now apply Hwf. }
  pose proof (null_total_le (snd p)) as Hr. rewrite Hlen in Hr.
  split; [exact Hr|]. now apply pct_of_rows_range.
Qed.

Lemma missing_percentages_are_in_range_witness :
  Forall
    (fun r =>
       0 <= Missing.null_count r <= Z.of_nat (Pd.nrows df_nulls) /\
       exists p,
         Missing.null_pct r = Some p /\ (0 <= p <= 100)%Q /\
         (Missing.null_count r = 0 -> (p == 0)%Q) /\
         (Missing.null_count r = Z.of_nat (Pd.nrows df_nulls) -> (p == 100)%Q))
    (Missing.nulls quicksort_int df_nulls).
Proof.
  apply (missing_percentages_are_in_range quicksort_int df_nulls).
  - reflexivity.
  - simpl. lia.
  - apply sorts_on_b_true. vm_compute. reflexivity.
Defined.



Example fraud_type_distribution_of_seven_rows :
  option_map (map (fun r => (FraudTypeDistribution.fraud_type r,
                             FraudTypeDistribution.count r,
                             FraudTypeDistribution.pct_all r,
                             FraudTypeDistribution.fraud_rate r,
                             FraudTypeDistribution.flagged r)))
             (FraudTypeDistribution.ft quicksort_int df_zero_baseline)
  = Some [ (PdGroup.StrKey "normal", 2, "28.57%", "0.0%", false);
           (PdGroup.StrKey "mule_ring", 1, "14.29%", "100.0%", true);
           (PdGroup.StrKey "layering", 1, "14.29%", "100.0%", true);
           (PdGroup.StrKey "smurfing", 1, "14.29%", "100.0%", true);
           (PdGroup.StrKey "ATO", 1, "14.29%", "100.0%", true);
           (PdGroup.StrKey "identity_fraud", 1, "14.29%", "100.0%", true) ].
Proof. vm_compute. reflexivity. Qed.



(** X25. The fraud type sheet and the overview count the
    transactions of a fraud type alike: whenever the key metrics of a
    fraud type are computed, their first row, "Transaction Count",
    shows for the fraud type and for the type "normal" the counts that
    the fraud type table of the overview shows for these two types. *)
Theorem fraud_type_counts_agree_across_sheets
        (argsort : list Z -> list nat) (df : Pd.DataFrame) (s : Pd.Series)
        (ft : string) (km : list FraudTypes.metric_row)
        (rows : list FraudTypeDistribution.type_row) :
  Pd.get df "fraud_type" = Some s ->
  SortSpec.sorts_on Z.le 0 argsort (FraudTypeDistribution.sort_keys (PdGroup.values s)) ->
  FraudTypes.key_metrics df ft = Some km ->
  FraudTypeDistribution.ft argsort df = Some rows ->
  exists r r',
    In r rows /\ FraudTypeDistribution.fraud_type r = PdGroup.StrKey ft /\
    In r' rows /\ FraudTypeDistribution.fraud_type r' = PdGroup.StrKey "normal" /\
    hd_error km
    = Some {| FraudTypes.metric := "Transaction Count";
              FraudTypes.fraud_value :=
                FraudTypes.IntCell (FraudTypeDistribution.count r);
              FraudTypes.normal_value :=
                FraudTypes.IntCell (FraudTypeDistribution.count r');
              FraudTypes.ratio := "" |}.
Proof.
  intros Hg Hs Hkm Hft.
  assert (Hsub : existsb (fun b : bool => b) (FraudTypes.is_type s ft) = true).
  { destruct (existsb (fun b : bool => b) (FraudTypes.is_type s ft)) eqn:E;
      [reflexivity|].
    rewrite (key_metrics_no_row df s ft Hg (or_introl E)) in Hkm. discriminate. }
  assert (Hnorm : existsb (fun b : bool => b) (FraudTypes.is_type s "normal") = true).
  { destruct (existsb (fun b : bool => b) (FraudTypes.is_type s "normal")) eqn:E;
      [reflexivity|].
    rewrite (key_metrics_no_row df s ft Hg (or_intror E)) in Hkm. discriminate. }
  destruct (ft_row_of_type argsort df s rows ft Hg Hs Hft (is_type_some_row _ _ Hsub))
    as (r & Hr & Hk & Hc).
  destruct (ft_row_of_type argsort df s rows "normal" Hg Hs Hft
                           (is_type_some_row _ _ Hnorm))
    as (r' & Hr' & Hk' & Hc').
  exists r, r'. repeat (split; [assumption|]).
  rewrite Hc, Hc'. exact (key_metrics_counts df s ft km Hg Hkm).
Qed.

Lemma fraud_type_counts_agree_across_sheets_witness :
  exists km rows r r',
    FraudTypes.key_metrics df_zero_baseline "ATO" = Some km /\
    FraudTypeDistribution.ft quicksort_int df_zero_baseline = Some rows /\
    In r rows /\ FraudTypeDistribution.fraud_type r = PdGroup.StrKey "ATO" /\
    In r' rows /\ FraudTypeDistribution.fraud_type r' = PdGroup.StrKey "normal" /\
    hd_error km
    = Some {| FraudTypes.metric := "Transaction Count";
              FraudTypes.fraud_value :=
                FraudTypes.IntCell (FraudTypeDistribution.count r);
              FraudTypes.normal_value :=
                FraudTypes.IntCell (FraudTypeDistribution.count r');
              FraudTypes.ratio := "" |}.
Proof.
  destruct (FraudTypes.key_metrics df_zero_baseline "ATO") as [km|] eqn:Ekm;
    [|vm_compute in Ekm; discriminate Ekm].
  destruct (FraudTypeDistribution.ft quicksort_int df_zero_baseline) as [rows|] eqn:Eft;
    [|vm_compute in Eft; discriminate Eft].
  destruct (fraud_type_counts_agree_across_sheets
              quicksort_int df_zero_baseline
              (Pd.Object [Some "normal"; Some "normal"; Some "mule_ring"; Some "layering";
                          Some "smurfing"; Some "ATO"; Some "identity_fraud"])
              "ATO" km rows) as (r & r' & H);
    [reflexivity | apply sorts_on_b_true; vm_compute; reflexivity | exact Ekm | exact Eft |].
  exists km, rows, r, r'. split; [reflexivity|]. split; [reflexivity|]. exact H.
Defined.
